(** * Environment manager: reconciliation and command dispatch

    A shallow embedding of [environment_manager.py] (class
    [EnvironmentManager]) and of the template catalog of [templates.py],
    followed by the properties of the listing, creation, start/stop/delete
    and shell operations.

    The manager shells out to two command line tools ([multipass] and
    [lxc]), decodes their JSON or text output and keeps a small JSON file
    (the registry, [environments.json]).  External processes, the JSON
    decoder and the registry file are the environment of the program: they
    are modelled by a [Platform] (an arbitrary deterministic machine that
    answers each command line) and a [world] that the operations thread
    through, together with a log of the commands that were run.  Python
    values decoded from JSON are kept dynamically typed ([json]) and the
    exceptions the interpreter raises on ill-typed values are modelled,
    because which exceptions a [try] block catches decides several of the
    properties.

    Layout: Python strings and values; the template catalog; the manager;
    the notions used in the statements; a small concrete host; the rest of
    the manager, the catalog object, the settings object of
    [config_manager.py] and the two dialogs of [main.py] that feed them; the
    properties; the properties on the concrete host; further properties of
    the manager, the catalog, the dialogs and the settings. *)

From Stdlib Require Import String Ascii List ZArith Bool Lia DecimalString.
Import ListNotations.
Open Scope string_scope.
Open Scope list_scope.

Set Implicit Arguments.
Set Warnings "-register-all".

(** ** Python strings

    A Python [str] is modelled as a Rocq [string]; the character classes
    of [strip] and [title] are those of the ASCII range (a character above
    127 is neither white space nor cased). *)
Module Py.

Definition nl : string := String (ascii_of_nat 10) EmptyString.

(** [str.isspace] on one character: tab, line feed, vertical tab, form
    feed, carriage return, the four separators 28..31, and space. *)
Definition is_space (c : ascii) : bool :=
  let n := nat_of_ascii c in
  ((9 <=? n)%nat && (n <=? 13)%nat) || ((28 <=? n)%nat && (n <=? 32)%nat).

Definition is_upper (c : ascii) : bool :=
  let n := nat_of_ascii c in (65 <=? n)%nat && (n <=? 90)%nat.

Definition is_lower (c : ascii) : bool :=
  let n := nat_of_ascii c in (97 <=? n)%nat && (n <=? 122)%nat.

Definition to_upper (c : ascii) : ascii :=
  if is_lower c then ascii_of_nat (nat_of_ascii c - 32) else c.

Definition to_lower (c : ascii) : ascii :=
  if is_upper c then ascii_of_nat (nat_of_ascii c + 32) else c.

(** [s.lstrip()] *)
Fixpoint lstrip (s : string) : string :=
  match s with
  | EmptyString => EmptyString
  | String c r => if is_space c then lstrip r else s
  end.

(** [s.rstrip()] *)
Fixpoint rstrip (s : string) : string :=
  match s with
  | EmptyString => EmptyString
  | String c r =>
      match rstrip r with
      | EmptyString => if is_space c then EmptyString else String c EmptyString
      | r' => String c r'
      end
  end.

(** [s.strip()] *)
Definition strip (s : string) : string := rstrip (lstrip s).

(** [s.startswith(p)] *)
Definition startswith (s p : string) : bool := String.prefix p s.

(** [String.index]-free substring search: [find sub s] is the part of [s]
    before and the part after the first occurrence of [sub]. *)
Fixpoint drop_prefix (p s : string) : option string :=
  match p with
  | EmptyString => Some s
  | String a p' =>
      match s with
      | EmptyString => None
      | String b s' => if Ascii.eqb a b then drop_prefix p' s' else None
      end
  end.

Fixpoint find (sub s : string) : option (string * string) :=
  match drop_prefix sub s with
  | Some rest => Some (EmptyString, rest)
  | None =>
      match s with
      | EmptyString => None
      | String c r =>
          match find sub r with
          | Some (before, rest) => Some (String c before, rest)
          | None => None
          end
      end
  end.

(** [sub in s] *)
Definition contains (sub s : string) : bool :=
  match find sub s with Some _ => true | None => false end.

(** [s.split(sep, 1)] for a non-empty separator. *)
Definition split_once (sep s : string) : list string :=
  match find sep s with
  | Some (before, rest) => [before; rest]
  | None => [s]
  end.

(** [s.split(c)] for a one-character separator [c]. *)
Fixpoint split_char (c : ascii) (s : string) : list string :=
  match s with
  | EmptyString => [EmptyString]
  | String a r =>
      if Ascii.eqb a c then EmptyString :: split_char c r
      else match split_char c r with
           | [] => [String a EmptyString]
           | h :: t => String a h :: t
           end
  end.

(** [s.replace(c, '')] for a one-character pattern [c]. *)
Fixpoint remove_char (c : ascii) (s : string) : string :=
  match s with
  | EmptyString => EmptyString
  | String a r => if Ascii.eqb a c then remove_char c r else String a (remove_char c r)
  end.

(** [s.title()]: the first cased character of every run of cased characters
    is upper-cased, the others are lower-cased. *)
Fixpoint title_from (previous_is_cased : bool) (s : string) : string :=
  match s with
  | EmptyString => EmptyString
  | String c r =>
      if is_lower c || is_upper c then
        String (if previous_is_cased then to_lower c else to_upper c) (title_from true r)
      else String c (title_from false r)
  end.

Definition title (s : string) : string := title_from false s.

(** [sep.join(parts)] *)
Definition join (sep : string) (parts : list string) : string := String.concat sep parts.

(** [str(n)] for an integer. *)
Definition str_of_Z (n : Z) : string := NilZero.string_of_int (Z.to_int n).

(** The characters of a string, each as a one-character string (what
    iterating over a [str] yields). *)
Fixpoint chars (s : string) : list string :=
  match s with
  | EmptyString => []
  | String c r => String c EmptyString :: chars r
  end.

End Py.

(** ** Values decoded from JSON

    What [json.loads] returns: [None], [bool], numbers, [str], [list] and
    [dict].  A [dict] keeps its keys in document order (the order
    [.items()] yields), so it is an association list; the decoder yields no
    duplicate key and lookups take the first binding.  A number is
    [mantissa * 10 ^ exponent]. *)
Inductive json : Type :=
| JNull
| JBool (b : bool)
| JNum (mantissa exponent : Z)
| JStr (s : string)
| JArr (items : list json)
| JObj (fields : list (string * json)).

(** ** Exceptions

    [RuntimeErrorFrom prefix cause] is the [RuntimeError] built by
    [RuntimeError(f"{prefix}{cause}")] in an [except ... as cause] clause: its
    text is [prefix] followed by the text of [cause].  The exceptions without
    argument are raised by the interpreter or by a library; their text is not
    modelled. *)
Inductive exn : Type :=
| RuntimeError (msg : string)
| RuntimeErrorFrom (prefix : string) (cause : exn)
| ValueError (msg : string)
| KeyError
| TypeError
| AttributeError
| IndexError
| JSONDecodeError
| OSError
| UnboundLocalError.

Inductive result (A : Type) : Type :=
| Ok (a : A)
| Raise (e : exn).
Arguments Ok {A} a.
Arguments Raise {A} e.

Definition is_RuntimeError (e : exn) : bool :=
  match e with RuntimeError _ | RuntimeErrorFrom _ _ => true | _ => false end.

(** The clause [except (RuntimeError, json.JSONDecodeError, KeyError)]. *)
Definition is_listing_error (e : exn) : bool :=
  match e with
  | RuntimeError _ | RuntimeErrorFrom _ _ | JSONDecodeError | KeyError => true
  | _ => false
  end.

Definition rbind {A B} (r : result A) (k : A -> result B) : result B :=
  match r with Ok a => k a | Raise e => Raise e end.

Notation "'let!' x ':=' r 'in' k" := (rbind r (fun x => k))
  (at level 10, x name, r at level 100, k at level 200).

(** ** Python operations on decoded values *)
Module Dyn.

(** [bool(v)] *)
Definition truthy (v : json) : bool :=
  match v with
  | JNull => false
  | JBool b => b
  | JNum m _ => negb (m =? 0)%Z
  | JStr s => negb (s =? "")
  | JArr l => match l with [] => false | _ => true end
  | JObj l => match l with [] => false | _ => true end
  end.

(** [v == s] for a [str] [s]. *)
Definition is_str (v : json) (s : string) : bool :=
  match v with JStr t => t =? s | _ => false end.

Fixpoint lookup (k : string) (d : list (string * json)) : option json :=
  match d with
  | [] => None
  | (k', v) :: r => if k' =? k then Some v else lookup k r
  end.

(** [d[k] = v] on a dict: an existing key keeps its place. *)
Fixpoint assign (k : string) (v : json) (d : list (string * json)) : list (string * json) :=
  match d with
  | [] => [(k, v)]
  | (k', v') :: r => if k' =? k then (k', v) :: r else (k', v') :: assign k v r
  end.

(** [del d[k]] on a dict that has the key. *)
Fixpoint remove (k : string) (d : list (string * json)) : list (string * json) :=
  match d with
  | [] => []
  | (k', v') :: r => if k' =? k then r else (k', v') :: remove k r
  end.

(** [v[k]] with a [str] subscript. *)
Definition getitem (v : json) (k : string) : result json :=
  match v with
  | JObj d => match lookup k d with Some x => Ok x | None => Raise KeyError end
  | _ => Raise TypeError
  end.

(** [v.get(k, default)] with a [str] key. *)
Definition get (v : json) (k : string) (default : json) : result json :=
  match v with
  | JObj d => Ok (match lookup k d with Some x => x | None => default end)
  | _ => Raise AttributeError
  end.

(** [v.get(k, default)] where the key [k] is itself a decoded value: the
    keys of a decoded dict are strings, a list or a dict is unhashable. *)
Definition get_dyn (v : json) (k : json) (default : json) : result json :=
  match v with
  | JObj d =>
      match k with
      | JStr s => Ok (match lookup s d with Some x => x | None => default end)
      | JArr _ | JObj _ => Raise TypeError
      | _ => Ok default
      end
  | _ => Raise AttributeError
  end.

(** [v[0]] *)
Definition index0 (v : json) : result json :=
  match v with
  | JArr (x :: _) => Ok x
  | JArr [] => Raise IndexError
  | JStr (String c _) => Ok (JStr (String c EmptyString))
  | JStr EmptyString => Raise IndexError
  | JObj _ => Raise KeyError
  | _ => Raise TypeError
  end.

(** [v.title()] *)
Definition title (v : json) : result string :=
  match v with
  | JStr s => Ok (Py.title s)
  | _ => Raise AttributeError
  end.

(** [v.items()] *)
Definition items (v : json) : result (list (string * json)) :=
  match v with
  | JObj d => Ok d
  | _ => Raise AttributeError
  end.

(** [for x in v] *)
Definition iter (v : json) : result (list json) :=
  match v with
  | JArr l => Ok l
  | JObj d => Ok (map (fun kv => JStr (fst kv)) d)
  | JStr s => Ok (map JStr (Py.chars s))
  | _ => Raise TypeError
  end.

(** [k in v] for a [str] [k]. *)
Definition contains (k : string) (v : json) : result bool :=
  match v with
  | JObj d => Ok (match lookup k d with Some _ => true | None => false end)
  | JArr l => Ok (existsb (fun x => is_str x k) l)
  | JStr s => Ok (Py.contains k s)
  | _ => Raise TypeError
  end.

(** [v[k] = x] *)
Definition setitem (v : json) (k : string) (x : json) : result json :=
  match v with
  | JObj d => Ok (JObj (assign k x d))
  | _ => Raise TypeError
  end.

(** [del v[k]] *)
Definition delitem (v : json) (k : string) : result json :=
  match v with
  | JObj d => match lookup k d with
              | Some _ => Ok (JObj (remove k d))
              | None => Raise KeyError
              end
  | _ => Raise TypeError
  end.

End Dyn.

(** ** The template catalog ([templates.py])

    A template is the dict built in [EnvironmentTemplates.__init__]; every
    template of the catalog has the same five keys, so it is a record.
    [create_environment] builds a fresh [EnvironmentTemplates] on every
    call, so the catalog it consults is always the built-in one. *)
Module Templates.

Record Template : Type := {
  display_name : string;
  description : string;
  base_image : string;
  packages : list string;
  setup_script : string
}.

Definition dq : string := String (ascii_of_nat 34) EmptyString.

(** A text given line by line. *)
Definition lines (ls : list string) : string := Py.join Py.nl ls.

Definition ubuntu_basic : Template := {|
  display_name := "Ubuntu Basic";
  description := "Basic Ubuntu environment with essential development tools";
  base_image := "22.04";
  packages :=
      ["curl"; "wget"; "git"; "vim"; "htop"; "tree"; "unzip";
       "build-essential"; "software-properties-common"; "apt-transport-https"];
  setup_script := lines [
      "";
      "                    # Set up basic development environment";
      "                    git config --global init.defaultBranch main";
      "                    echo 'export EDITOR=vim' >> ~/.bashrc";
      "                "]
|}.

Definition nodejs_dev : Template := {|
  display_name := "Node.js Development";
  description := "Complete Node.js development environment with npm, yarn, and common tools";
  base_image := "22.04";
  packages :=
      ["curl"; "wget"; "git"; "vim"; "htop"; "tree"; "unzip";
       "build-essential"; "software-properties-common"];
  setup_script := lines [
      "";
      "                    # Install Node.js via NodeSource repository";
      "                    curl -fsSL https://deb.nodesource.com/setup_lts.x | sudo -E bash -";
      "                    apt-get install -y nodejs";
      "                    ";
      "                    # Install Yarn";
      "                    npm install -g yarn";
      "                    ";
      "                    # Install common global packages";
      "                    npm install -g typescript ts-node eslint prettier nodemon";
      "                    ";
      "                    # Create project directory";
      "                    mkdir -p /home/ubuntu/projects";
      "                    chown ubuntu:ubuntu /home/ubuntu/projects";
      "                    ";
      "                    # Set up basic git config";
      "                    sudo -u ubuntu git config --global init.defaultBranch main";
      "                "]
|}.

Definition python_dev : Template := {|
  display_name := "Python Development";
  description := "Python development environment with pip, virtualenv, and popular packages";
  base_image := "22.04";
  packages :=
      ["python3"; "python3-pip"; "python3-venv"; "python3-dev"; "curl";
       "wget"; "git"; "vim"; "htop"; "tree"; "unzip"; "build-essential";
       "software-properties-common"];
  setup_script := lines [
      "";
      "                    # Upgrade pip";
      "                    python3 -m pip install --upgrade pip";
      "                    ";
      "                    # Install common Python packages";
      "                    pip3 install virtualenv pipenv poetry";
      "                    pip3 install requests flask django fastapi";
      "                    pip3 install numpy pandas matplotlib jupyter";
      "                    pip3 install pytest black flake8 mypy";
      "                    ";
      "                    # Create project directory";
      "                    mkdir -p /home/ubuntu/projects";
      "                    chown ubuntu:ubuntu /home/ubuntu/projects";
      "                    ";
      "                    # Set up basic git config";
      "                    sudo -u ubuntu git config --global init.defaultBranch main";
      "                "]
|}.

Definition go_dev : Template := {|
  display_name := "Go Development";
  description := "Go development environment with latest Go version and common tools";
  base_image := "22.04";
  packages :=
      ["curl"; "wget"; "git"; "vim"; "htop"; "tree"; "unzip";
       "build-essential"; "software-properties-common"];
  setup_script := lines [
      "";
      "                    # Install Go";
      "                    GO_VERSION=$(curl -s https://api.github.com/repos/golang/go/releases/latest | grep -o 'go[0-9.]*\.linux-amd64\.tar\.gz' | head -1)";
      "                    wget https://golang.org/dl/$GO_VERSION";
      "                    rm -rf /usr/local/go && tar -C /usr/local -xzf $GO_VERSION";
      "                    rm $GO_VERSION";
      "                    ";
      "                    # Set up Go environment";
      "                    echo 'export PATH=$PATH:/usr/local/go/bin' >> /etc/environment";
      "                    echo 'export GOPATH=/home/ubuntu/go' >> /etc/environment";
      "                    echo 'export PATH=$PATH:/usr/local/go/bin:/home/ubuntu/go/bin' >> /home/ubuntu/.bashrc";
      "                    ";
      "                    # Create Go workspace";
      "                    sudo -u ubuntu mkdir -p /home/ubuntu/go/{bin,src,pkg}";
      "                    ";
      "                    # Install common Go tools";
      "                    sudo -u ubuntu bash -c 'export PATH=$PATH:/usr/local/go/bin && go install golang.org/x/tools/gopls@latest'";
      "                    sudo -u ubuntu bash -c 'export PATH=$PATH:/usr/local/go/bin && go install github.com/golangci/golangci-lint/cmd/golangci-lint@latest'";
      "                    ";
      "                    # Set up basic git config";
      "                    sudo -u ubuntu git config --global init.defaultBranch main";
      "                "]
|}.

Definition rust_dev : Template := {|
  display_name := "Rust Development";
  description := "Rust development environment with rustc, cargo, and common tools";
  base_image := "22.04";
  packages :=
      ["curl"; "wget"; "git"; "vim"; "htop"; "tree"; "unzip";
       "build-essential"; "software-properties-common"; "pkg-config";
       "libssl-dev"];
  setup_script := lines [
      "";
      "                    # Install Rust";
      ("                    sudo -u ubuntu bash -c 'curl --proto " ++ dq ++ "=https" ++ dq ++ " --tlsv1.2 -sSf https://sh.rustup.rs | sh -s -- -y'")%string;
      "                    sudo -u ubuntu bash -c 'source ~/.cargo/env && rustup component add rust-analyzer'";
      "                    ";
      "                    # Add cargo to PATH";
      "                    echo 'source ~/.cargo/env' >> /home/ubuntu/.bashrc";
      "                    ";
      "                    # Create projects directory";
      "                    sudo -u ubuntu mkdir -p /home/ubuntu/projects";
      "                    ";
      "                    # Set up basic git config";
      "                    sudo -u ubuntu git config --global init.defaultBranch main";
      "                "]
|}.

Definition java_dev : Template := {|
  display_name := "Java Development";
  description := "Java development environment with OpenJDK, Maven, and Gradle";
  base_image := "22.04";
  packages :=
      ["openjdk-17-jdk"; "maven"; "gradle"; "curl"; "wget"; "git"; "vim";
       "htop"; "tree"; "unzip"; "build-essential";
       "software-properties-common"];
  setup_script := lines [
      "";
      "                    # Set JAVA_HOME";
      "                    echo 'export JAVA_HOME=/usr/lib/jvm/java-17-openjdk-amd64' >> /etc/environment";
      "                    echo 'export JAVA_HOME=/usr/lib/jvm/java-17-openjdk-amd64' >> /home/ubuntu/.bashrc";
      "                    ";
      "                    # Create projects directory";
      "                    mkdir -p /home/ubuntu/projects";
      "                    chown ubuntu:ubuntu /home/ubuntu/projects";
      "                    ";
      "                    # Set up basic git config";
      "                    sudo -u ubuntu git config --global init.defaultBranch main";
      "                "]
|}.

Definition docker_dev : Template := {|
  display_name := "Docker Development";
  description := "Development environment with Docker and Docker Compose";
  base_image := "22.04";
  packages :=
      ["curl"; "wget"; "git"; "vim"; "htop"; "tree"; "unzip";
       "build-essential"; "software-properties-common"; "apt-transport-https";
       "ca-certificates"; "gnupg"; "lsb-release"];
  setup_script := lines [
      "";
      "                    # Install Docker";
      "                    curl -fsSL https://download.docker.com/linux/ubuntu/gpg | gpg --dearmor -o /usr/share/keyrings/docker-archive-keyring.gpg";
      ("                    echo " ++ dq ++ "deb [arch=amd64 signed-by=/usr/share/keyrings/docker-archive-keyring.gpg] https://download.docker.com/linux/ubuntu $(lsb_release -cs) stable" ++ dq ++ " | tee /etc/apt/sources.list.d/docker.list > /dev/null")%string;
      "                    apt-get update";
      "                    apt-get install -y docker-ce docker-ce-cli containerd.io docker-compose-plugin";
      "                    ";
      "                    # Add ubuntu user to docker group";
      "                    usermod -aG docker ubuntu";
      "                    ";
      "                    # Install Docker Compose (standalone)";
      ("                    DOCKER_COMPOSE_VERSION=$(curl -s https://api.github.com/repos/docker/compose/releases/latest | grep -oP '" ++ dq ++ "tag_name" ++ dq ++ ": " ++ dq ++ "\K(.*" ++ ")(?=" ++ dq ++ ")')")%string;
      ("                    curl -L " ++ dq ++ "https://github.com/docker/compose/releases/download/${DOCKER_COMPOSE_VERSION}/docker-compose-$(uname -s)-$(uname -m)" ++ dq ++ " -o /usr/local/bin/docker-compose")%string;
      "                    chmod +x /usr/local/bin/docker-compose";
      "                    ";
      "                    # Create projects directory";
      "                    mkdir -p /home/ubuntu/projects";
      "                    chown ubuntu:ubuntu /home/ubuntu/projects";
      "                    ";
      "                    # Set up basic git config";
      "                    sudo -u ubuntu git config --global init.defaultBranch main";
      "                "]
|}.

Definition web_dev : Template := {|
  display_name := "Full Stack Web Development";
  description := "Complete web development environment with Node.js, Python, and database tools";
  base_image := "22.04";
  packages :=
      ["python3"; "python3-pip"; "python3-venv"; "python3-dev";
       "postgresql-client"; "mysql-client"; "redis-tools"; "curl"; "wget";
       "git"; "vim"; "htop"; "tree"; "unzip"; "build-essential";
       "software-properties-common"];
  setup_script := lines [
      "";
      "                    # Install Node.js";
      "                    curl -fsSL https://deb.nodesource.com/setup_lts.x | sudo -E bash -";
      "                    apt-get install -y nodejs";
      "                    ";
      "                    # Install Yarn and global packages";
      "                    npm install -g yarn typescript eslint prettier";
      "                    npm install -g @vue/cli create-react-app @angular/cli";
      "                    ";
      "                    # Install Python packages";
      "                    pip3 install --upgrade pip";
      "                    pip3 install django flask fastapi sqlalchemy alembic";
      "                    pip3 install requests beautifulsoup4 scrapy";
      "                    pip3 install pytest black flake8";
      "                    ";
      "                    # Create project directories";
      "                    mkdir -p /home/ubuntu/{projects,databases}";
      "                    chown ubuntu:ubuntu /home/ubuntu/{projects,databases}";
      "                    ";
      "                    # Set up basic git config";
      "                    sudo -u ubuntu git config --global init.defaultBranch main";
      "                "]
|}.

Definition data_science : Template := {|
  display_name := "Data Science Environment";
  description := "Python-based data science environment with Jupyter, pandas, and ML libraries";
  base_image := "22.04";
  packages :=
      ["python3"; "python3-pip"; "python3-venv"; "python3-dev"; "curl";
       "wget"; "git"; "vim"; "htop"; "tree"; "unzip"; "build-essential";
       "software-properties-common"; "libhdf5-dev"; "libnetcdf-dev";
       "pkg-config"];
  setup_script := lines [
      "";
      "                    # Upgrade pip";
      "                    pip3 install --upgrade pip";
      "                    ";
      "                    # Install core data science packages";
      "                    pip3 install numpy pandas matplotlib seaborn plotly";
      "                    pip3 install scipy scikit-learn statsmodels";
      "                    pip3 install jupyter jupyterlab notebook";
      "                    pip3 install h5py tables xarray";
      "                    ";
      "                    # Install ML frameworks";
      "                    pip3 install tensorflow torch torchvision";
      "                    pip3 install xgboost lightgbm catboost";
      "                    ";
      "                    # Install additional tools";
      "                    pip3 install pytest black flake8 mypy";
      "                    pip3 install requests beautifulsoup4 openpyxl";
      "                    ";
      "                    # Create project directories";
      "                    mkdir -p /home/ubuntu/{projects,datasets,notebooks}";
      "                    chown ubuntu:ubuntu /home/ubuntu/{projects,datasets,notebooks}";
      "                    ";
      "                    # Configure Jupyter";
      "                    sudo -u ubuntu jupyter notebook --generate-config";
      "                    ";
      "                    # Set up basic git config";
      "                    sudo -u ubuntu git config --global init.defaultBranch main";
      "                "]
|}.

Definition devops : Template := {|
  display_name := "DevOps Environment";
  description := "DevOps environment with Docker, Kubernetes tools, Terraform, and monitoring";
  base_image := "22.04";
  packages :=
      ["curl"; "wget"; "git"; "vim"; "htop"; "tree"; "unzip";
       "build-essential"; "software-properties-common"; "apt-transport-https";
       "ca-certificates"; "gnupg"; "lsb-release"; "jq"];
  setup_script := lines [
      "";
      "                    # Install Docker";
      "                    curl -fsSL https://download.docker.com/linux/ubuntu/gpg | gpg --dearmor -o /usr/share/keyrings/docker-archive-keyring.gpg";
      ("                    echo " ++ dq ++ "deb [arch=amd64 signed-by=/usr/share/keyrings/docker-archive-keyring.gpg] https://download.docker.com/linux/ubuntu $(lsb_release -cs) stable" ++ dq ++ " | tee /etc/apt/sources.list.d/docker.list > /dev/null")%string;
      "                    apt-get update";
      "                    apt-get install -y docker-ce docker-ce-cli containerd.io docker-compose-plugin";
      "                    usermod -aG docker ubuntu";
      "                    ";
      "                    # Install kubectl";
      ("                    curl -LO " ++ dq ++ "https://dl.k8s.io/release/$(curl -L -s https://dl.k8s.io/release/stable.txt)/bin/linux/amd64/kubectl" ++ dq ++ "")%string;
      "                    install -o root -g root -m 0755 kubectl /usr/local/bin/kubectl";
      "                    ";
      "                    # Install Terraform";
      "                    wget -O- https://apt.releases.hashicorp.com/gpg | gpg --dearmor | tee /usr/share/keyrings/hashicorp-archive-keyring.gpg";
      ("                    echo " ++ dq ++ "deb [signed-by=/usr/share/keyrings/hashicorp-archive-keyring.gpg] https://apt.releases.hashicorp.com $(lsb_release -cs) main" ++ dq ++ " | tee /etc/apt/sources.list.d/hashicorp.list")%string;
      "                    apt-get update && apt-get install -y terraform";
      "                    ";
      "                    # Install Helm";
      "                    curl https://baltocdn.com/helm/signing.asc | gpg --dearmor | tee /usr/share/keyrings/helm.gpg > /dev/null";
      ("                    echo " ++ dq ++ "deb [arch=amd64 signed-by=/usr/share/keyrings/helm.gpg] https://baltocdn.com/helm/stable/debian/ all main" ++ dq ++ " | tee /etc/apt/sources.list.d/helm-stable-debian.list")%string;
      "                    apt-get update && apt-get install -y helm";
      "                    ";
      "                    # Install AWS CLI";
      ("                    curl " ++ dq ++ "https://awscli.amazonaws.com/awscli-exe-linux-x86_64.zip" ++ dq ++ " -o " ++ dq ++ "awscliv2.zip" ++ dq ++ "")%string;
      "                    unzip awscliv2.zip && ./aws/install && rm -rf aws awscliv2.zip";
      "                    ";
      "                    # Create project directories";
      "                    mkdir -p /home/ubuntu/{projects,infrastructure,configs}";
      "                    chown ubuntu:ubuntu /home/ubuntu/{projects,infrastructure,configs}";
      "                    ";
      "                    # Set up basic git config";
      "                    sudo -u ubuntu git config --global init.defaultBranch main";
      "                "]
|}.

(** [self.templates], in the order of the source. *)
Definition templates : list (string * Template) :=
  [("ubuntu-basic", ubuntu_basic);
   ("nodejs-dev", nodejs_dev);
   ("python-dev", python_dev);
   ("go-dev", go_dev);
   ("rust-dev", rust_dev);
   ("java-dev", java_dev);
   ("docker-dev", docker_dev);
   ("web-dev", web_dev);
   ("data-science", data_science);
   ("devops", devops)].

(** [self.templates.get(template_id)] *)
Fixpoint dict_get (template_id : string) (d : list (string * Template)) : option Template :=
  match d with
  | [] => None
  | (k, t) :: r => if k =? template_id then Some t else dict_get template_id r
  end.

(** [get_template] *)
Definition get_template (template_id : string) : option Template :=
  dict_get template_id templates.

End Templates.

(** ** The environment of the program *)

(** How an external process ends, as [subprocess.run(..., check=True)]
    reports it: exit status 0 with its standard output, a non-zero exit
    status ([CalledProcessError]) with its standard error, or no such
    executable ([FileNotFoundError]). *)
Inductive outcome : Type :=
| Exited0 (stdout : string)
| ExitedNonZero (stderr : string)
| NotFound.

Definition succeeded (o : outcome) : bool :=
  match o with Exited0 _ => true | _ => false end.

(** The host the manager runs on: the state of everything outside the
    program (both backends included), how a command line run to completion
    changes it and ends ([exec]), whether a detached process can be started
    ([popen]), and the JSON decoder ([json_loads], [None] for a document
    that is not JSON).  Command line arguments are strings without a NUL
    character; a program that exists but cannot be started, and output that
    is not text, are not modelled. *)
Class Platform : Type := {
  machine : Type;
  exec : machine -> list string -> machine * outcome;
  popen : machine -> list string -> machine * bool;
  json_loads : string -> option json
}.

(** What the program did to its environment, most recent first. *)
Inductive event : Type :=
| Ran (argv : list string) (o : outcome)
| Spawned (argv : list string) (started : bool).

(** The registry file [environments.json]: missing; present, but opening
    or reading it raises [IOError] or its text is not JSON ([Corrupt]: the
    two cases the loader catches); or holding a JSON document.  A file whose
    bytes are not text, on which [json.load] raises [UnicodeDecodeError] that
    the loader lets through, is not among these states. *)
Inductive file_state : Type :=
| Absent
| Corrupt
| Holds (doc : json).

(** What happens when the registry file is opened for writing: the document
    is written; the file cannot be opened ([IOError], the file stays as it
    was); or the file is opened, hence truncated, and the write fails half
    way ([IOError], the file is left with a part of the document). *)
Inductive disk_state : Type :=
| Writable
| ReadOnly
| Full.

Section Manager.

Context {P : Platform}.

(** The world: the host, the registry file, the storage it lives on, and the
    log of what the manager did.  The registry file is private to the
    manager: no external command touches it. *)
Record world : Type := World {
  host : machine;
  env_file : file_state;
  storage : disk_state;
  log : list event
}.

(** A computation of the manager: it reads and changes the world, and
    returns or raises. *)
Definition M (A : Type) : Type := world -> world * result A.

Definition ret {A} (a : A) : M A := fun w => (w, Ok a).

Definition raise {A} (e : exn) : M A := fun w => (w, Raise e).

Definition bind {A B} (m : M A) (k : A -> M B) : M B :=
  fun w => match m w with
           | (w', Ok a) => k a w'
           | (w', Raise e) => (w', Raise e)
           end.

Definition lift {A} (r : result A) : M A := fun w => (w, r).

(** [try: m except <handles> as e: handler e] *)
Definition try_except {A} (m : M A) (handles : exn -> bool) (handler : exn -> M A) : M A :=
  fun w => match m w with
           | (w', Raise e) => if handles e then handler e w' else (w', Raise e)
           | r => r
           end.

Notation "x <- m ;; k" := (bind m (fun x => k))
  (at level 200, m at level 100, k at level 200, right associativity).
Notation "m ;;; k" := (bind m (fun _ => k))
  (at level 200, k at level 200, right associativity).

(** [for x in xs: body x] *)
Fixpoint for_each {A} (xs : list A) (body : A -> M unit) : M unit :=
  match xs with
  | [] => ret tt
  | x :: r => body x ;;; for_each r body
  end.

(** *** Registry file *)

(** [_load_environments_config]: a missing file, and a file on which
    [open] or [json.load] raises [IOError] or [JSONDecodeError], read as the
    empty dict. *)
Definition _load_environments_config : M json :=
  fun w => match env_file w with
           | Holds doc => (w, Ok doc)
           | Absent | Corrupt => (w, Ok (JObj []))
           end.

(** [_save_environments_config]: the file is rewritten whole; an [IOError]
    becomes a [RuntimeError]. *)
Definition _save_environments_config (config : json) : M unit :=
  fun w =>
    match storage w with
    | Writable => (World (host w) (Holds config) (storage w) (log w), Ok tt)
    | ReadOnly =>
        (w, Raise (RuntimeErrorFrom "Failed to save environment config: " OSError))
    | Full =>
        (World (host w) Corrupt (storage w) (log w),
         Raise (RuntimeErrorFrom "Failed to save environment config: " OSError))
    end.

(** *** Command runner *)

(** [_run_command] *)
Definition _run_command (cmd : list string) : M string :=
  fun w =>
    let (h, o) := exec (host w) cmd in
    let w' := World h (env_file w) (storage w) (Ran cmd o :: log w) in
    match o with
    | Exited0 stdout => (w', Ok stdout)
    | ExitedNonZero stderr =>
        (w', Raise (RuntimeError ("Command failed: " ++ Py.join " " cmd ++ Py.nl ++ "Error: " ++ stderr)))
    | NotFound =>
        (w', Raise (RuntimeError ("Command not found: " ++ hd "" cmd)))
    end.

(** A decoded value used as a command line argument: [subprocess.run]
    raises [TypeError] for anything but a string, before any process is
    started. *)
Definition as_arg (v : json) : M string :=
  match v with
  | JStr s => ret s
  | _ => raise TypeError
  end.

(** [json.loads] *)
Definition loads (text : string) : M json :=
  match json_loads text with
  | Some v => ret v
  | None => raise JSONDecodeError
  end.

(** [_check_backend_available] *)
Definition _check_backend_available (backend : string) : M bool :=
  try_except
    (if backend =? "multipass" then
       _run_command ["multipass"; "version"] ;;; ret true
     else if backend =? "lxd" then
       _run_command ["lxc"; "version"] ;;; ret true
     else ret true)
    is_RuntimeError
    (fun _ => ret false).

(** *** Listing *)

Record Mount : Type := { mount_host : json; mount_guest : string }.

(** One record of [list_environments].  The name, ip and template are
    whatever the backend or the registry reported, [status] is a title-cased
    string, the backend is ["multipass"] or ["lxd"]. *)
Record Environment : Type := {
  env_name : json;
  env_status : string;
  env_backend : string;
  env_ip : json;
  env_template : json;
  env_mounts : list Mount
}.

(** [_get_environment_template] *)
Definition _get_environment_template (name : json) : M json :=
  config <- _load_environments_config ;;
  lift (let! entry := Dyn.get_dyn config name (JObj []) in
        Dyn.get entry "template" (JStr "Unknown")).

(** The loop of [_get_multipass_mounts] over [mount_info.items()]. *)
Fixpoint multipass_mount_loop (items : list (string * json)) (mounts : list Mount)
  : result (list Mount) :=
  match items with
  | [] => Ok mounts
  | (guest_path, mount_data) :: rest =>
      let! source := Dyn.get mount_data "source_path" (JStr "Unknown") in
      multipass_mount_loop rest (mounts ++ [Build_Mount source guest_path])
  end.

(** [_get_multipass_mounts] *)
Definition _get_multipass_mounts (name : json) : M (list Mount) :=
  try_except
    (arg <- as_arg name ;;
     stdout <- _run_command ["multipass"; "info"; arg; "--format"; "json"] ;;
     info_data <- loads stdout ;;
     lift (let! info := Dyn.get info_data "info" (JObj []) in
           let! instance_info := Dyn.get info arg (JObj []) in
           let! mount_info := Dyn.get instance_info "mounts" (JObj []) in
           let! items := Dyn.items mount_info in
           multipass_mount_loop items []))
    is_listing_error
    (fun _ => ret []).

(** The local variables of the parsing loop of [_get_lxd_mounts]. *)
Record lxd_parse : Type := {
  in_devices : bool;
  current_device : option string;
  source : option string;
  path : option string;
  parsed_mounts : list Mount
}.

Definition device_set (d : option string) : bool :=
  match d with
  | Some s => negb (s =? "")
  | None => false
  end.

(** [text.split(sep, 1)[1].strip()] *)
Definition after_key (sep text : string) : result string :=
  match nth_error (Py.split_once sep text) 1 with
  | Some rest => Ok (Py.strip rest)
  | None => Raise IndexError
  end.

(** One iteration of [for line in lines] in [_get_lxd_mounts]. *)
Definition lxd_parse_line (line : string) (st : lxd_parse) : result lxd_parse :=
  if Py.strip line =? "devices:" then
    Ok (Build_lxd_parse true (current_device st) (source st) (path st) (parsed_mounts st))
  else if in_devices st then
    if Py.startswith line "  " && Py.contains ":" line && negb (Py.startswith line "    ") then
      Ok (Build_lxd_parse (in_devices st)
            (Some (Py.remove_char ":"%char (Py.strip line)))
            (source st) (path st) (parsed_mounts st))
    else if Py.startswith line "    type: disk" && device_set (current_device st) then
      Ok st
    else if Py.startswith line "    source:" && device_set (current_device st) then
      let! s := after_key "source:" line in
      Ok (Build_lxd_parse (in_devices st) (current_device st) (Some s) (path st)
            (parsed_mounts st))
    else if Py.startswith line "    path:" && device_set (current_device st) then
      let! p := after_key "path:" line in
      Ok (Build_lxd_parse (in_devices st) (current_device st) (source st) (Some p)
            (parsed_mounts st))
    else Ok st
  else Ok st.

Fixpoint lxd_parse_lines (lines : list string) (st : lxd_parse) : result lxd_parse :=
  match lines with
  | [] => Ok st
  | line :: rest =>
      let! st' := lxd_parse_line line st in
      lxd_parse_lines rest st'
  end.

(** [_get_lxd_mounts] *)
Definition _get_lxd_mounts (name : json) : M (list Mount) :=
  try_except
    (arg <- as_arg name ;;
     stdout <- _run_command ["lxc"; "config"; "show"; arg] ;;
     lift (let! st := lxd_parse_lines (Py.split_char (ascii_of_nat 10) stdout)
                        (Build_lxd_parse false None None None []) in
           Ok (parsed_mounts st)))
    is_RuntimeError
    (fun _ => ret []).

(** The [ip] expression of the multipass branch:
    [instance.get("ipv4", ["Not available"])[0] if instance.get("ipv4")
     else "Not available"]. *)
Definition multipass_ip (instance : json) : result json :=
  let! probe := Dyn.get instance "ipv4" JNull in
  if Dyn.truthy probe then
    let! addresses := Dyn.get instance "ipv4" (JArr [JStr "Not available"]) in
    Dyn.index0 addresses
  else Ok (JStr "Not available").

(** The body of [for instance in multipass_data.get("list", [])]. *)
Definition multipass_entry (instance : json) : M Environment :=
  name <- lift (Dyn.getitem instance "name") ;;
  status <- lift (let! state := Dyn.getitem instance "state" in Dyn.title state) ;;
  ip <- lift (multipass_ip instance) ;;
  template <- _get_environment_template name ;;
  mounts <- _get_multipass_mounts name ;;
  ret (Build_Environment name status "multipass" ip template mounts).

(** The inner loop [for addr in data["addresses"]] with its [break]. *)
Fixpoint scan_addresses (addrs : list json) (ip : json) : result json :=
  match addrs with
  | [] => Ok ip
  | addr :: rest =>
      let! family := Dyn.getitem addr "family" in
      if Dyn.is_str family "inet" then Dyn.getitem addr "address"
      else scan_addresses rest ip
  end.

(** The outer loop [for interface, data in ...["network"].items()] with
    its [break]. *)
Fixpoint scan_interfaces (items : list (string * json)) (ip : json) : result json :=
  match items with
  | [] => Ok ip
  | (interface, data) :: rest =>
      if negb (interface =? "lo") then
        let! addresses := Dyn.getitem data "addresses" in
        if Dyn.truthy addresses then
          let! addrs := Dyn.iter addresses in
          let! ip' := scan_addresses addrs ip in
          if negb (Dyn.is_str ip' "Not available") then Ok ip'
          else scan_interfaces rest ip'
        else scan_interfaces rest ip
      else scan_interfaces rest ip
  end.

(** The [ip] of an LXD container. *)
Definition lxd_ip (container : json) : result json :=
  let ip := JStr "Not available" in
  let! state := Dyn.getitem container "state" in
  if Dyn.truthy state then
    let! network := Dyn.getitem state "network" in
    if Dyn.truthy network then
      let! network' := Dyn.getitem state "network" in
      let! items := Dyn.items network' in
      scan_interfaces items ip
    else Ok ip
  else Ok ip.

(** The body of [for container in lxd_data]. *)
Definition lxd_entry (container : json) : M Environment :=
  status <- lift (let! s := Dyn.getitem container "status" in Dyn.title s) ;;
  let status := if status =? "Stopped" then "Stopped"
                else if status =? "Running" then "Running" else status in
  ip <- lift (lxd_ip container) ;;
  name <- lift (Dyn.getitem container "name") ;;
  template <- _get_environment_template name ;;
  mounts <- _get_lxd_mounts name ;;
  ret (Build_Environment name status "lxd" ip template mounts).

(** A loop that appends one record per item to [environments]; when an
    iteration raises, the records appended so far stay in the list. *)
Fixpoint append_each (entry : json -> M Environment) (items : list json)
    (environments : list Environment) (w : world)
  : world * (list Environment * option exn) :=
  match items with
  | [] => (w, (environments, None))
  | item :: rest =>
      match entry item w with
      | (w', Ok env) => append_each entry rest (environments ++ [env]) w'
      | (w', Raise e) => (w', (environments, Some e))
      end
  end.

(** The body of the first [try] of [list_environments]. *)
Definition multipass_block (environments : list Environment) (w : world)
  : world * (list Environment * option exn) :=
  match (stdout <- _run_command ["multipass"; "list"; "--format"; "json"] ;;
         multipass_data <- loads stdout ;;
         lift (let! instances := Dyn.get multipass_data "list" (JArr []) in
               Dyn.iter instances)) w with
  | (w', Ok instances) => append_each multipass_entry instances environments w'
  | (w', Raise e) => (w', (environments, Some e))
  end.

(** The body of the second [try] of [list_environments]. *)
Definition lxd_block (environments : list Environment) (w : world)
  : world * (list Environment * option exn) :=
  match (stdout <- _run_command ["lxc"; "list"; "--format"; "json"] ;;
         lxd_data <- loads stdout ;;
         lift (Dyn.iter lxd_data)) w with
  | (w', Ok containers) => append_each lxd_entry containers environments w'
  | (w', Raise e) => (w', (environments, Some e))
  end.

(** [if self._check_backend_available(backend): try: block
     except (RuntimeError, json.JSONDecodeError, KeyError): pass] *)
Definition list_backend (backend : string)
    (block : list Environment -> world -> world * (list Environment * option exn))
    (environments : list Environment) : M (list Environment) :=
  available <- _check_backend_available backend ;;
  if available : bool then
    fun w => match block environments w with
             | (w', (environments', None)) => (w', Ok environments')
             | (w', (environments', Some e)) =>
                 if is_listing_error e then (w', Ok environments') else (w', Raise e)
             end
  else ret environments.

(** [list_environments] *)
Definition list_environments : M (list Environment) :=
  environments <- list_backend "multipass" multipass_block [] ;;
  list_backend "lxd" lxd_block environments.

(** *** Creation *)

Record MountSpec : Type := { host_path : string; guest_path : string }.

(** The [resources] dict of a creation request: [cpus] is an integer,
    [memory] and [disk] are strings such as ["2048M"]; a key may be
    missing. *)
Record Resources : Type := {
  cpus : option Z;
  memory : option string;
  disk : option string
}.

(** The [config] dict passed to [create_environment]. *)
Record Config : Type := {
  cfg_name : string;
  cfg_backend : string;
  cfg_template : string;
  cfg_mounts : list MountSpec;
  cfg_resources : Resources
}.

(** [bool(resources.get(key))] *)
Definition given_Z (v : option Z) : bool :=
  match v with Some n => negb (n =? 0)%Z | None => false end.

Definition given_str (v : option string) : bool :=
  match v with Some s => negb (s =? "") | None => false end.

Definition the_Z (v : option Z) : Z := match v with Some n => n | None => 0%Z end.

Definition the_str (v : option string) : string :=
  match v with Some s => s | None => "" end.

(** [_setup_environment] *)
Definition _setup_environment (name : string) (template : Templates.Template)
    (backend : string) : M unit :=
  let packages := Templates.packages template in
  let setup_script := Templates.setup_script template in
  exec_cmd <- (if backend =? "multipass" then ret ["multipass"; "exec"; name; "--"]
               else if backend =? "lxd" then ret ["lxc"; "exec"; name; "--"]
               else raise (ValueError ("Unsupported backend: " ++ backend))) ;;
  _run_command (exec_cmd ++ ["apt"; "update"]) ;;;
  (match packages with
   | [] => ret tt
   | _ => _run_command (exec_cmd ++ ["apt"; "install"; "-y"] ++ packages) ;;; ret tt
   end) ;;;
  if negb (setup_script =? "") then
    for_each (Py.split_char (ascii_of_nat 10) (Py.strip setup_script))
      (fun line =>
         if negb (Py.strip line =? "") then
           _run_command (exec_cmd ++ ["bash"; "-c"; Py.strip line]) ;;; ret tt
         else ret tt)
  else ret tt.

(** [_create_multipass_environment] *)
Definition _create_multipass_environment (name : string) (template : Templates.Template)
    (mounts : list MountSpec) (resources : Resources) : M unit :=
  let cmd := ["multipass"; "launch"] in
  let cmd := if given_Z (cpus resources)
             then cmd ++ ["--cpus"; Py.str_of_Z (the_Z (cpus resources))] else cmd in
  let cmd := if given_str (memory resources)
             then cmd ++ ["--memory"; the_str (memory resources)] else cmd in
  let cmd := if given_str (disk resources)
             then cmd ++ ["--disk"; the_str (disk resources)] else cmd in
  let base_image := Templates.base_image template in
  let cmd := cmd ++ [base_image; "--name"; name] in
  _run_command cmd ;;;
  _run_command ["multipass"; "exec"; name; "--"; "cloud-init"; "status"; "--wait"] ;;;
  for_each mounts
    (fun mount =>
       _run_command ["multipass"; "mount"; host_path mount;
                     (name ++ ":" ++ guest_path mount)%string] ;;; ret tt) ;;;
  _setup_environment name template "multipass".

(** The loop [for i, mount in enumerate(mounts)] of
    [_create_lxd_environment], from index [i] on. *)
Fixpoint lxd_mount_loop (name : string) (i : Z) (mounts : list MountSpec) : M unit :=
  match mounts with
  | [] => ret tt
  | mount :: rest =>
      let device_name := ("mount" ++ Py.str_of_Z i)%string in
      _run_command ["lxc"; "config"; "device"; "add"; name; device_name; "disk";
                    ("source=" ++ host_path mount)%string;
                    ("path=" ++ guest_path mount)%string] ;;;
      lxd_mount_loop name (i + 1)%Z rest
  end.

(** [_create_lxd_environment] *)
Definition _create_lxd_environment (name : string) (template : Templates.Template)
    (mounts : list MountSpec) (resources : Resources) : M unit :=
  let base_image := Templates.base_image template in
  _run_command ["lxc"; "launch"; base_image; name] ;;;
  (if given_Z (cpus resources) then
     _run_command ["lxc"; "config"; "set"; name;
                   ("limits.cpu=" ++ Py.str_of_Z (the_Z (cpus resources)))%string] ;;; ret tt
   else ret tt) ;;;
  (if given_str (memory resources) then
     _run_command ["lxc"; "config"; "set"; name;
                   ("limits.memory=" ++ the_str (memory resources))%string] ;;; ret tt
   else ret tt) ;;;
  _run_command ["lxc"; "exec"; name; "--"; "cloud-init"; "status"; "--wait"] ;;;
  lxd_mount_loop name 0%Z mounts ;;;
  _setup_environment name template "lxd".

(** The registry entry written by [create_environment]. *)
Definition registry_entry (template_id backend : string) : json :=
  JObj [("template", JStr template_id); ("backend", JStr backend); ("created", JBool true)].

(** [create_environment] *)
Definition create_environment (config : Config) : M unit :=
  let name := cfg_name config in
  let backend := cfg_backend config in
  let template_id := cfg_template config in
  let mounts := cfg_mounts config in
  let resources := cfg_resources config in
  if name =? "" then raise (ValueError "Environment name is required") else
  available <- _check_backend_available backend ;;
  if negb available then
    raise (RuntimeError ("Backend " ++ backend ++ " is not available"))
  else
  match Templates.get_template template_id with
  | None => raise (ValueError ("Template " ++ template_id ++ " not found"))
  | Some template =>
      try_except
        ((if backend =? "multipass" then
            _create_multipass_environment name template mounts resources
          else if backend =? "lxd" then
            _create_lxd_environment name template mounts resources
          else raise (ValueError ("Unsupported backend: " ++ backend))) ;;;
         env_config <- _load_environments_config ;;
         env_config' <- lift (Dyn.setitem env_config name (registry_entry template_id backend)) ;;
         _save_environments_config env_config')
        (fun _ => true)
        (fun e => raise (RuntimeErrorFrom "Failed to create environment: " e))
  end.

(** *** Start, stop, delete *)

(** [next((e for e in environments if e["name"] == name), None)] *)
Definition find_env (name : string) (environments : list Environment) : option Environment :=
  List.find (fun e => Dyn.is_str (env_name e) name) environments.

Definition not_found {A} (name : string) : M A :=
  raise (RuntimeError ("Environment '" ++ name ++ "' not found")).

(** [start_environment] *)
Definition start_environment (name : string) : M unit :=
  environments <- list_environments ;;
  match find_env name environments with
  | None => not_found name
  | Some env =>
      if env_status env =? "Running" then ret tt else
      let backend := env_backend env in
      try_except
        (if backend =? "multipass" then
           _run_command ["multipass"; "start"; name] ;;; ret tt
         else if backend =? "lxd" then
           _run_command ["lxc"; "start"; name] ;;; ret tt
         else ret tt)
        is_RuntimeError
        (fun e => raise (RuntimeErrorFrom "Failed to start environment: " e))
  end.

(** [stop_environment] *)
Definition stop_environment (name : string) : M unit :=
  environments <- list_environments ;;
  match find_env name environments with
  | None => not_found name
  | Some env =>
      if env_status env =? "Stopped" then ret tt else
      let backend := env_backend env in
      try_except
        (if backend =? "multipass" then
           _run_command ["multipass"; "stop"; name] ;;; ret tt
         else if backend =? "lxd" then
           _run_command ["lxc"; "stop"; name] ;;; ret tt
         else ret tt)
        is_RuntimeError
        (fun e => raise (RuntimeErrorFrom "Failed to stop environment: " e))
  end.

(** The backend commands of [delete_environment] (the [if]/[elif] inside
    its [try]). *)
Definition delete_backend (name : string) (env : Environment) : M unit :=
  let backend := env_backend env in
  if backend =? "multipass" then
    (if env_status env =? "Running"
     then _run_command ["multipass"; "stop"; name] ;;; ret tt else ret tt) ;;;
    _run_command ["multipass"; "delete"; name] ;;;
    _run_command ["multipass"; "purge"] ;;; ret tt
  else if backend =? "lxd" then
    (if env_status env =? "Running"
     then _run_command ["lxc"; "stop"; name] ;;; ret tt else ret tt) ;;;
    _run_command ["lxc"; "delete"; name] ;;; ret tt
  else ret tt.

(** The registry update of [delete_environment] ("Remove from
    configuration"). *)
Definition delete_registry (name : string) : M unit :=
  env_config <- _load_environments_config ;;
  present <- lift (Dyn.contains name env_config) ;;
  if present : bool then
    env_config' <- lift (Dyn.delitem env_config name) ;;
    _save_environments_config env_config'
  else ret tt.

(** [delete_environment] *)
Definition delete_environment (name : string) : M unit :=
  environments <- list_environments ;;
  match find_env name environments with
  | None => not_found name
  | Some env =>
      try_except
        (delete_backend name env ;;; delete_registry name)
        is_RuntimeError
        (fun e => raise (RuntimeErrorFrom "Failed to delete environment: " e))
  end.

(** *** Shell *)

(** The terminal emulators [open_shell] tries, in order. *)
Definition terminals : list (list string) :=
  [ ["gnome-terminal"; "--"; "bash"; "-c"];
    ["konsole"; "-e"; "bash"; "-c"];
    ["xterm"; "-e"; "bash"; "-c"];
    ["alacritty"; "-e"; "bash"; "-c"];
    ["wezterm"; "start"; "bash"; "-c"] ].

(** [subprocess.run([term_cmd[0], "--version"], capture_output=True,
    check=True)] inside its own [try]: [true] when the probe exits with
    status 0, [false] on [CalledProcessError] or [FileNotFoundError]. *)
Definition probe_terminal (term_cmd : list string) : M bool :=
  fun w =>
    let cmd := [hd "" term_cmd; "--version"] in
    let (h, o) := exec (host w) cmd in
    (World h (env_file w) (storage w) (Ran cmd o :: log w), Ok (succeeded o)).

(** The loop [for term_cmd in terminals] with its [break]. *)
Fixpoint choose_terminal (candidates : list (list string)) : M (option (list string)) :=
  match candidates with
  | [] => ret None
  | term_cmd :: rest =>
      available <- probe_terminal term_cmd ;;
      if available : bool then ret (Some term_cmd) else choose_terminal rest
  end.

(** [subprocess.Popen(full_cmd, start_new_session=True)] *)
Definition Popen (cmd : list string) : M unit :=
  fun w =>
    let (h, started) := popen (host w) cmd in
    let w' := World h (env_file w) (storage w) (Spawned cmd started :: log w) in
    if started then (w', Ok tt) else (w', Raise OSError).

(** The [try] body of [open_shell]. *)
Definition spawn_shell (name backend : string) : M unit :=
  terminal_cmd <- choose_terminal terminals ;;
  match terminal_cmd with
  | None => raise (RuntimeError "No suitable terminal emulator found")
  | Some terminal_cmd =>
      shell_cmd <- (if backend =? "multipass" then ret ("multipass shell " ++ name)%string
                    else if backend =? "lxd" then ret ("lxc exec " ++ name ++ " -- /bin/bash")%string
                    else raise UnboundLocalError) ;;
      let full_cmd := terminal_cmd ++ [(shell_cmd ++ "; exec bash")%string] in
      Popen full_cmd
  end.

(** [open_shell] *)
Definition open_shell (name : string) : M unit :=
  environments <- list_environments ;;
  match find_env name environments with
  | None => not_found name
  | Some env =>
      if negb (env_status env =? "Running") then
        raise (RuntimeError ("Environment '" ++ name ++ "' is not running"))
      else
        try_except
          (spawn_shell name (env_backend env))
          (fun _ => true)
          (fun e => raise (RuntimeErrorFrom "Failed to open shell: " e))
  end.

End Manager.

Arguments world {P}.
Arguments M {P} A.

(** * Notions used in the statements *)

(** The read-only commands of the listing. *)
Definition is_query (ev : event) : bool :=
  match ev with
  | Ran argv _ =>
      match argv with
      | [tool; "version"] => (tool =? "multipass") || (tool =? "lxc")
      | [tool; "list"; "--format"; "json"] => (tool =? "multipass") || (tool =? "lxc")
      | ["multipass"; "info"; _; "--format"; "json"] => true
      | ["lxc"; "config"; "show"; _] => true
      | _ => false
      end
  | Spawned _ _ => false
  end.

(** An event that went well: a command that exited with status 0, a
    detached process that started. *)
Definition event_ok (ev : event) : bool :=
  match ev with
  | Ran _ o => succeeded o
  | Spawned _ started => started
  end.

(** [Trace cmds evs completed]: [evs] (oldest first) is what running the
    commands [cmds] in order leaves in the log when each command is run only
    after the previous one succeeded; [completed] tells whether all of them
    ran and succeeded, otherwise the last event is the command that
    failed. *)
Inductive Trace : list (list string) -> list event -> bool -> Prop :=
| Trace_done : Trace [] [] true
| Trace_step cmd o cmds evs completed :
    succeeded o = true ->
    Trace cmds evs completed ->
    Trace (cmd :: cmds) (Ran cmd o :: evs) completed
| Trace_stop cmd o cmds :
    succeeded o = false ->
    Trace (cmd :: cmds) [Ran cmd o] false.

(** A well-formed network report, read from the decoded document: every
    interface has an ["addresses"] list, every address a ["family"] and an
    ["address"].  An address is the pair of these two values. *)
Definition view_address (addr : json) : option (json * json) :=
  match Dyn.getitem addr "family", Dyn.getitem addr "address" with
  | Ok family, Ok address => Some (family, address)
  | _, _ => None
  end.

Fixpoint view_addresses (addrs : list json) : option (list (json * json)) :=
  match addrs with
  | [] => Some []
  | addr :: rest =>
      match view_address addr, view_addresses rest with
      | Some a, Some r => Some (a :: r)
      | _, _ => None
      end
  end.

Definition view_interface (data : json) : option (list (json * json)) :=
  match Dyn.getitem data "addresses" with
  | Ok (JArr addrs) => view_addresses addrs
  | _ => None
  end.

Fixpoint view_network (items : list (string * json))
  : option (list (string * list (json * json))) :=
  match items with
  | [] => Some []
  | (interface, data) :: rest =>
      match view_interface data, view_network rest with
      | Some addrs, Some r => Some ((interface, addrs) :: r)
      | _, _ => None
      end
  end.

Definition is_inet (a : json * json) : bool := Dyn.is_str (fst a) "inet".

(** The address the specification asks for: the first IPv4 address among
    the addresses of the interfaces other than ["lo"], taken in the reported
    order; the sentinel when there is none. *)
Definition spec_first_ipv4 (interfaces : list (string * list (json * json))) : json :=
  match filter is_inet
          (flat_map snd (filter (fun i => negb (fst i =? "lo")) interfaces)) with
  | a :: _ => snd a
  | [] => JStr "Not available"
  end.

Section Notions.

Context {P : Platform}.

(** [emits allowed m]: [m] leaves the registry file alone and only adds
    events satisfying [allowed] to the log. *)
Definition emits {X} (allowed : event -> bool) (m : world -> world * X) : Prop :=
  forall w w' r,
    m w = (w', r) ->
    env_file w' = env_file w /\ storage w' = storage w /\
    exists evs, log w' = evs ++ log w /\ forallb allowed evs = true.

(** Running a list of commands with [_run_command], one after the other. *)
Definition run_all (cmds : list (list string)) : M unit :=
  for_each cmds (fun cmd => bind (_run_command cmd) (fun _ => ret tt)).

(** The commands of [delete_backend], in order. *)
Definition delete_commands (name : string) (env : Environment) : list (list string) :=
  if env_backend env =? "multipass" then
    (if env_status env =? "Running" then [["multipass"; "stop"; name]] else [])
      ++ [["multipass"; "delete"; name]; ["multipass"; "purge"]]
  else if env_backend env =? "lxd" then
    (if env_status env =? "Running" then [["lxc"; "stop"; name]] else [])
      ++ [["lxc"; "delete"; name]]
  else [].

(** The command line tool of the backend a listed record belongs to. *)
Definition tool (env : Environment) : string :=
  if env_backend env =? "multipass" then "multipass" else "lxc".

(** [strict m]: [m] leaves the registry file alone, stops at the first
    command that fails and raises the runner's error for it: when it
    returns normally every command it ran succeeded. *)
Definition strict {A} (m : M A) : Prop :=
  forall w w' r,
    m w = (w', r) ->
    env_file w' = env_file w /\ storage w' = storage w /\
    exists evs,
      log w' = evs ++ log w /\
      ((exists a, r = Ok a) -> forallb event_ok evs = true) /\
      (forallb event_ok evs = false -> exists msg, r = Raise (RuntimeError msg)).

(** The provisioning branch of [create_environment]. *)
Definition provision (config : Config) (template : Templates.Template) : M unit :=
  if cfg_backend config =? "multipass" then
    _create_multipass_environment (cfg_name config) template (cfg_mounts config)
      (cfg_resources config)
  else if cfg_backend config =? "lxd" then
    _create_lxd_environment (cfg_name config) template (cfg_mounts config)
      (cfg_resources config)
  else raise (ValueError ("Unsupported backend: " ++ cfg_backend config)).

(** The registry update that ends a successful creation ("Save environment
    configuration"). *)
Definition register (config : Config) : M unit :=
  bind _load_environments_config
    (fun env_config =>
       bind (lift (Dyn.setitem env_config (cfg_name config)
                     (registry_entry (cfg_template config) (cfg_backend config))))
         (fun env_config' => _save_environments_config env_config')).


End Notions.

(** * A small host, to run the operations on

    A host with at most one multipass instance and at most one LXD
    container, on which only [xterm] is installed.  The two tools answer
    with short texts that the decoder of this host maps to the documents the
    real tools print. *)
Module Lab.

Record lab : Type := {
  vm : option (string * bool);     (* the multipass instance: name, running *)
  lxc_installed : bool;
  box : option (string * bool)     (* the LXD container: name, running *)
}.

Definition arg (n : nat) (argv : list string) : string := nth n argv "".

Definition done (m : lab) : lab * outcome := (m, Exited0 "").

Definition multipass (m : lab) (argv : list string) : lab * outcome :=
  let sub := arg 1 argv in
  if sub =? "version" then (m, Exited0 "multipass 1.14.0")
  else if sub =? "list" then
    (m, Exited0 (match vm m with
                 | None => "vms:"
                 | Some (n, true) => "vm-running:" ++ n
                 | Some (n, false) => "vm-stopped:" ++ n
                 end))
  else if sub =? "info" then (m, Exited0 "vm-info:")
  else if sub =? "launch" then
    match vm m with
    | None => done (Build_lab (Some (last argv "", true)) (lxc_installed m) (box m))
    | Some _ => (m, ExitedNonZero "launch failed: instance already exists")
    end
  else if (sub =? "exec") || (sub =? "mount") || (sub =? "purge") then done m
  else
    match vm m with
    | Some (n, running) =>
        if negb (n =? arg 2 argv) then (m, ExitedNonZero "instance does not exist")
        else if sub =? "start" then done (Build_lab (Some (n, true)) (lxc_installed m) (box m))
        else if sub =? "stop" then done (Build_lab (Some (n, false)) (lxc_installed m) (box m))
        else if sub =? "delete" then done (Build_lab None (lxc_installed m) (box m))
        else (m, ExitedNonZero "unknown command")
    | None => (m, ExitedNonZero "instance does not exist")
    end.

(** What [lxc config show] prints for a container with one disk device. *)
Definition config_text : string :=
  Templates.lines
    ["architecture: x86_64";
     "devices:";
     "  mount0:";
     "    path: /work";
     "    source: /home/me/work";
     "    type: disk";
     "ephemeral: false"].

Definition lxc (m : lab) (argv : list string) : lab * outcome :=
  let sub := arg 1 argv in
  if negb (lxc_installed m) then (m, NotFound)
  else if sub =? "version" then (m, Exited0 "Client version: 5.21")
  else if sub =? "list" then
    (m, Exited0 (match box m with
                 | None => "boxes:"
                 | Some (n, true) => "box-running:" ++ n
                 | Some (n, false) => "box-stopped:" ++ n
                 end))
  else if sub =? "config" then (m, Exited0 config_text)
  else
    match box m with
    | Some (n, running) =>
        if negb (n =? arg 2 argv) then (m, ExitedNonZero "Error: Instance not found")
        else if sub =? "start" then done (Build_lab (vm m) true (Some (n, true)))
        else if sub =? "stop" then done (Build_lab (vm m) true (Some (n, false)))
        else if sub =? "delete" then done (Build_lab (vm m) true None)
        else (m, ExitedNonZero "Error: unknown command")
    | None => (m, ExitedNonZero "Error: Instance not found")
    end.

Definition lab_exec (m : lab) (argv : list string) : lab * outcome :=
  let program := arg 0 argv in
  if program =? "multipass" then multipass m argv
  else if program =? "lxc" then lxc m argv
  else if program =? "xterm" then done m
  else (m, NotFound).

(** The document [multipass list --format json] prints for one instance. *)
Definition vm_document (n state : string) : json :=
  JObj [("list",
         JArr [JObj [("ipv4", JArr [JStr "10.11.12.13"]);
                     ("name", JStr n);
                     ("release", JStr "Ubuntu 22.04 LTS");
                     ("state", JStr state)]])].

(** The network report of the specification's example: the loopback
    interface first, then [eth0] with an IPv6 and an IPv4 address. *)
Definition example_network : json :=
  JObj [("lo", JObj [("addresses",
                      JArr [JObj [("family", JStr "inet");
                                  ("address", JStr "127.0.0.1")]])]);
        ("eth0", JObj [("addresses",
                        JArr [JObj [("family", JStr "inet6");
                                    ("address", JStr "fd42:1::7")];
                              JObj [("family", JStr "inet");
                                    ("address", JStr "10.0.3.7")]])])].

(** One container of [lxc list --format json]. *)
Definition container_document (n status : string) (network : json) : json :=
  JObj [("name", JStr n);
        ("status", JStr status);
        ("state", JObj [("status", JStr status); ("network", network)])].

Definition lab_loads (text : string) : option json :=
  match Py.find ":" text with
  | Some (kind, n) =>
      if kind =? "vms" then Some (JObj [("list", JArr [])])
      else if kind =? "vm-running" then Some (vm_document n "Running")
      else if kind =? "vm-stopped" then Some (vm_document n "Stopped")
      else if kind =? "vm-info" then Some (JObj [("errors", JArr []); ("info", JObj [])])
      else if kind =? "boxes" then Some (JArr [])
      else if kind =? "box-running" then
        Some (JArr [container_document n "Running" example_network])
      else if kind =? "box-stopped" then
        Some (JArr [container_document n "Stopped" JNull])
      else None
  | None => None
  end.

Definition platform : Platform := {|
  machine := lab;
  exec := lab_exec;
  popen := fun m _ => (m, true);
  json_loads := lab_loads
|}.

(** A registry that knows the environment [dev]. *)
Definition dev_registry : file_state :=
  Holds (JObj [("dev", registry_entry "python-dev" "multipass")]).

(** Worlds: nothing exists; [dev] runs on multipass; [dev] is stopped; a
    container [box] runs on LXD. *)
Definition empty_world : @world platform :=
  @World platform (Build_lab None false None) Absent Writable [].

Definition dev_running : @world platform :=
  @World platform (Build_lab (Some ("dev", true)) false None) dev_registry Writable [].

Definition dev_stopped : @world platform :=
  @World platform (Build_lab (Some ("dev", false)) false None) dev_registry Writable [].

Definition box_running : @world platform :=
  @World platform (Build_lab None true (Some ("box", true))) Absent Writable [].

Definition dev_env (state : string) (template_id : string) : Environment :=
  Build_Environment (JStr "dev") state "multipass" (JStr "10.11.12.13")
    (JStr template_id) [].

Definition box_env : Environment :=
  Build_Environment (JStr "box") "Running" "lxd" (JStr "10.0.3.7") (JStr "Unknown") [].

Definition dev_config : Config :=
  Build_Config "dev" "multipass" "ubuntu-basic"
    [Build_MountSpec "/home/me/src" "/src"]
    (Build_Resources (Some 2%Z) (Some "2048M") (Some "10G")).

(** The world the listing leaves. *)
Definition listed (w : @world platform) : @world platform :=
  fst (@list_environments platform w).

End Lab.

(** * More of the manager and of the catalog *)

Section Information.

Context {P : Platform}.

(** The clause [except (RuntimeError, json.JSONDecodeError)] of
    [get_environment_info]. *)
Definition is_info_error (e : exn) : bool :=
  match e with
  | RuntimeError _ | RuntimeErrorFrom _ _ | JSONDecodeError => true
  | _ => false
  end.

(** [get_environment_info].  A function that falls off its end returns
    [None]. *)
Definition get_environment_info (name : string) : M json :=
  bind list_environments
    (fun environments =>
       match find_env name environments with
       | None => not_found name
       | Some env =>
           let backend := env_backend env in
           try_except
             (if backend =? "multipass" then
                bind (_run_command ["multipass"; "info"; name; "--format"; "json"])
                  (fun stdout =>
                     bind (loads stdout)
                       (fun info_data =>
                          lift (let! info := Dyn.get info_data "info" (JObj []) in
                                Dyn.get info name (JObj []))))
              else if backend =? "lxd" then
                bind (_run_command ["lxc"; "info"; name])
                  (fun stdout => ret (JObj [("raw_info", JStr stdout)]))
              else ret JNull)
             is_info_error
             (fun e => raise (RuntimeErrorFrom "Failed to get environment info: " e))
       end).

(** The first three statements of the first [try] of [list_environments]:
    the instances the multipass list document holds. *)
Definition multipass_instances : M (list json) :=
  bind (_run_command ["multipass"; "list"; "--format"; "json"])
    (fun stdout =>
       bind (loads stdout)
         (fun multipass_data =>
            lift (let! instances := Dyn.get multipass_data "list" (JArr []) in
                  Dyn.iter instances))).

(** The containers the LXD list document holds. *)
Definition lxd_containers : M (list json) :=
  bind (_run_command ["lxc"; "list"; "--format"; "json"])
    (fun stdout => bind (loads stdout) (fun lxd_data => lift (Dyn.iter lxd_data))).

End Information.

(** ** Command lines of a creation, as lists *)

(** The lines of a setup script that are run: the script is stripped and
    split at line ends, every line is stripped, blank lines are left out. *)
Definition script_commands (setup_script : string) : list string :=
  if setup_script =? "" then []
  else filter (fun line => negb (line =? ""))
         (map Py.strip (Py.split_char (ascii_of_nat 10) (Py.strip setup_script))).

(** The commands of [_setup_environment] for a guest reached through
    [exec_cmd]. *)
Definition setup_commands (exec_cmd : list string) (template : Templates.Template)
  : list (list string) :=
  [exec_cmd ++ ["apt"; "update"]]
    ++ match Templates.packages template with
       | [] => []
       | packages => [exec_cmd ++ ["apt"; "install"; "-y"] ++ packages]
       end
    ++ map (fun line => exec_cmd ++ ["bash"; "-c"; line])
         (script_commands (Templates.setup_script template)).

(** The flags of [multipass launch] for the resources that are given. *)
Definition launch_flags (resources : Resources) : list string :=
  (if given_Z (cpus resources) then ["--cpus"; Py.str_of_Z (the_Z (cpus resources))] else [])
    ++ (if given_str (memory resources) then ["--memory"; the_str (memory resources)] else [])
    ++ (if given_str (disk resources) then ["--disk"; the_str (disk resources)] else []).

(** The commands of [_create_multipass_environment], in order. *)
Definition multipass_create_commands (name : string) (template : Templates.Template)
    (mounts : list MountSpec) (resources : Resources) : list (list string) :=
  [["multipass"; "launch"] ++ launch_flags resources
     ++ [Templates.base_image template; "--name"; name]]
    ++ [["multipass"; "exec"; name; "--"; "cloud-init"; "status"; "--wait"]]
    ++ map (fun mount => ["multipass"; "mount"; host_path mount;
                          (name ++ ":" ++ guest_path mount)%string]) mounts
    ++ setup_commands ["multipass"; "exec"; name; "--"] template.

(** The device commands of [_create_lxd_environment]: the mount at
    position [k] of the request becomes the device [mount<k>]. *)
Definition lxd_device_commands (name : string) (mounts : list MountSpec)
  : list (list string) :=
  map (fun km =>
         ["lxc"; "config"; "device"; "add"; name;
          ("mount" ++ Py.str_of_Z (Z.of_nat (fst km)))%string; "disk";
          ("source=" ++ host_path (snd km))%string;
          ("path=" ++ guest_path (snd km))%string])
      (combine (seq 0 (length mounts)) mounts).

(** The commands of [_create_lxd_environment], in order. *)
Definition lxd_create_commands (name : string) (template : Templates.Template)
    (mounts : list MountSpec) (resources : Resources) : list (list string) :=
  [["lxc"; "launch"; Templates.base_image template; name]]
    ++ (if given_Z (cpus resources)
        then [["lxc"; "config"; "set"; name;
               ("limits.cpu=" ++ Py.str_of_Z (the_Z (cpus resources)))%string]]
        else [])
    ++ (if given_str (memory resources)
        then [["lxc"; "config"; "set"; name;
               ("limits.memory=" ++ the_str (memory resources))%string]]
        else [])
    ++ [["lxc"; "exec"; name; "--"; "cloud-init"; "status"; "--wait"]]
    ++ lxd_device_commands name mounts
    ++ setup_commands ["lxc"; "exec"; name; "--"] template.

(** A command of the given tool. *)
Definition runs_tool (program : string) (ev : event) : bool :=
  match ev with
  | Ran (p :: _) _ => p =? program
  | _ => false
  end.

(** [Probed candidates evs chosen]: [evs] (oldest first) is what probing
    the terminal emulators [candidates] in order leaves in the log, each with
    its [--version] command, up to the first that answers; [chosen] is that
    terminal, [None] when none answers. *)
Inductive Probed : list (list string) -> list event -> option (list string) -> Prop :=
| Probed_none : Probed [] [] None
| Probed_hit term_cmd o rest :
    succeeded o = true ->
    Probed (term_cmd :: rest) [Ran [hd "" term_cmd; "--version"] o] (Some term_cmd)
| Probed_miss term_cmd o rest evs chosen :
    succeeded o = false ->
    Probed rest evs chosen ->
    Probed (term_cmd :: rest) (Ran [hd "" term_cmd; "--version"] o :: evs) chosen.

(** The command [open_shell] runs inside the terminal. *)
Definition shell_command (name backend : string) : string :=
  if backend =? "multipass" then "multipass shell " ++ name
  else "lxc exec " ++ name ++ " -- /bin/bash".

(** ** The catalog object ([EnvironmentTemplates])

    The state of an [EnvironmentTemplates] object is its [templates] dict,
    from template id to template dict, in insertion order.  A custom
    template is any dict, so templates are decoded-style values here; the
    built-in ones are the records of [Templates], as dicts. *)
Module Catalog.

(** The dict of a built-in template. *)
Definition to_dict (t : Templates.Template) : json :=
  JObj [("name", JStr (Templates.display_name t));
        ("description", JStr (Templates.description t));
        ("base_image", JStr (Templates.base_image t));
        ("packages", JArr (map JStr (Templates.packages t)));
        ("setup_script", JStr (Templates.setup_script t))].

(** [__init__] *)
Definition init : list (string * json) :=
  map (fun kt => (fst kt, to_dict (snd kt))) Templates.templates.

(** [get_all_templates] *)
Definition get_all_templates (self : list (string * json)) : list (string * json) := self.

(** [get_template]; [None] is Python's [None]. *)
Definition get_template (self : list (string * json)) (template_id : string) : option json :=
  Dyn.lookup template_id self.

(** [get_template_names]: the dict comprehension, in the order of the
    catalog. *)
Fixpoint get_template_names (self : list (string * json)) : result (list (string * json)) :=
  match self with
  | [] => Ok []
  | (template_id, template) :: rest =>
      let! name := Dyn.getitem template "name" in
      let! names := get_template_names rest in
      Ok ((template_id, name) :: names)
  end.

Definition required_fields : list string := ["name"; "description"; "base_image"].

(** The loop [for field in required_fields] of [add_custom_template]. *)
Fixpoint check_required (fields : list string) (template_config : list (string * json))
  : result unit :=
  match fields with
  | [] => Ok tt
  | field :: rest =>
      match Dyn.lookup field template_config with
      | None => Raise (ValueError ("Template missing required field: " ++ field))
      | Some _ => check_required rest template_config
      end
  end.

(** [add_custom_template]; the new state of the object, or the error. *)
Definition add_custom_template (self : list (string * json)) (template_id : string)
    (template_config : list (string * json)) : result (list (string * json)) :=
  let! _ := check_required required_fields template_config in
  Ok (Dyn.assign template_id (JObj template_config) self).

(** [remove_template] *)
Definition remove_template (self : list (string * json)) (template_id : string)
  : result (list (string * json)) :=
  match Dyn.lookup template_id self with
  | Some _ => Ok (Dyn.remove template_id self)
  | None => Raise (ValueError ("Template " ++ template_id ++ " not found"))
  end.

(** A call that changes the catalog. *)
Inductive call : Type :=
| Add (template_id : string) (template_config : list (string * json))
| Remove (template_id : string).

(** One call; a call that raises leaves the object as it was. *)
Definition step (self : list (string * json)) (c : call) : list (string * json) :=
  match c with
  | Add template_id template_config =>
      match add_custom_template self template_id template_config with
      | Ok self' => self'
      | Raise _ => self
      end
  | Remove template_id =>
      match remove_template self template_id with
      | Ok self' => self'
      | Raise _ => self
      end
  end.

(** Any number of calls on a fresh object. *)
Definition after (calls : list call) : list (string * json) := fold_left step calls init.

(** The template has the three required fields. *)
Definition complete (template : json) : Prop :=
  exists fields,
    template = JObj fields /\
    forall field, In field required_fields -> Dyn.lookup field fields <> None.

End Catalog.

(** * The settings ([ConfigManager] of [config_manager.py])

    The configuration is a dict of dicts that the manager updates in
    place, and [dict.copy] is shallow, so a nested dict can be one object
    reached from two dicts.  The dicts therefore live in a store, a value
    that is a dict being the address of the dict in the store; the other
    values are immutable here.  Reading and writing the configuration file is
    not part of this model: [init] is the object as the constructor leaves it
    when the file does not exist, cannot be read or does not decode. *)
Module Settings.

Inductive value : Type :=
| VNone
| VBool (b : bool)
| VInt (n : Z)
| VFloat (mantissa exponent : Z)
| VStr (s : string)
| VList (items : list json)
| VDict (address : nat).

(** A dict, in insertion order. *)
Definition dict : Type := list (string * value).

Fixpoint lookup (k : string) (d : dict) : option value :=
  match d with
  | [] => None
  | (k', v) :: r => if k' =? k then Some v else lookup k r
  end.

(** [d[k] = v]: an existing key keeps its place. *)
Fixpoint assign (k : string) (v : value) (d : dict) : dict :=
  match d with
  | [] => [(k, v)]
  | (k', v') :: r => if k' =? k then (k', v) :: r else (k', v') :: assign k v r
  end.

(** The dict objects, by address. *)
Definition store : Type := list dict.

Definition dict_at (h : store) (address : nat) : dict := nth address h [].

(** The store in which the dict at [address] has become [d]. *)
Fixpoint put (address : nat) (d : dict) (h : store) : store :=
  match h, address with
  | [], _ => []
  | _ :: r, O => d :: r
  | d0 :: r, S address' => d0 :: put address' d r
  end.

(** The object: the store, and the addresses of [self.default_config] and
    [self.config]. *)
Record ConfigManager : Type := {
  heap : store;
  default_config : nat;
  config : nat
}.

(** The dict literal of [__init__]: the four nested dicts and the dict
    that holds them. *)
Definition defaults : store :=
  [[("default_backend", VStr "multipass");
    ("default_cpus", VInt 2);
    ("default_memory", VInt 2048);
    ("default_disk", VInt 10);
    ("terminal_emulator", VStr "auto");
    ("auto_start_environments", VBool false);
    ("log_level", VStr "INFO");
    ("theme", VStr "system");
    ("window_geometry", VDict 1);
    ("multipass", VDict 2);
    ("lxd", VDict 3);
    ("templates", VDict 4)];
   [("width", VInt 1000); ("height", VInt 700); ("x", VInt 100); ("y", VInt 100)];
   [("driver", VStr "qemu"); ("network", VStr "default")];
   [("storage_pool", VStr "default"); ("network", VStr "lxdbr0")];
   [("custom_templates_enabled", VBool true); ("auto_update_templates", VBool false)]].

(** [self.default_config.copy()]: a new dict with the same bindings. *)
Definition copy_defaults (h : store) (default_config : nat) : store * nat :=
  (h ++ [dict_at h default_config], length h).

(** [__init__] when [load] returns a copy of the defaults. *)
Definition init : ConfigManager :=
  let (h, config) := copy_defaults defaults 0 in
  {| heap := h; default_config := 0; config := config |}.

(** The loop of [get] and of [reset_key]: [None] is the early [return]. *)
Fixpoint descend (h : store) (value : value) (keys : list string) : option Settings.value :=
  match keys with
  | [] => Some value
  | k :: rest =>
      match value with
      | VDict address =>
          match lookup k (dict_at h address) with
          | Some value' => descend h value' rest
          | None => None
          end
      | _ => None
      end
  end.

(** [get] *)
Definition get (key : string) (default : value) (self : ConfigManager) : value :=
  let keys := Py.split_char "."%char key in
  match descend (heap self) (VDict (config self)) keys with
  | Some value => value
  | None => default
  end.

(** The loop of [set] over [keys[:-1]]: the store and the address of the
    dict it ends on.  A new dict is put at the end of the store. *)
Fixpoint navigate (keys : list string) (h : store) (config : nat) : store * nat :=
  match keys with
  | [] => (h, config)
  | k :: rest =>
      match lookup k (dict_at h config) with
      | Some (VDict address) => navigate rest h address
      | _ =>
          let address := length h in
          navigate rest (put config (assign k (VDict address) (dict_at h config)) (h ++ [[]]))
            address
      end
  end.

(** [set] *)
Definition set (key : string) (value : value) (self : ConfigManager) : ConfigManager :=
  let keys := Py.split_char "."%char key in
  let (h, config) := navigate (removelast keys) (heap self) (config self) in
  {| heap := put config (assign (last keys "") value (dict_at h config)) h;
     default_config := default_config self;
     config := Settings.config self |}.

(** [update] *)
Definition update (updates : dict) (self : ConfigManager) : ConfigManager :=
  fold_left (fun self kv => set (fst kv) (snd kv) self) updates self.

(** [reset] *)
Definition reset (self : ConfigManager) : ConfigManager :=
  let (h, config) := copy_defaults (heap self) (default_config self) in
  {| heap := h; default_config := default_config self; config := config |}.

(** [reset_key] *)
Definition reset_key (key : string) (self : ConfigManager) : ConfigManager :=
  let keys := Py.split_char "."%char key in
  match descend (heap self) (VDict (default_config self)) keys with
  | Some default_value => set key default_value self
  | None => self
  end.

(** [isinstance(v, int)], with the integer: a [bool] is an [int]. *)
Definition as_int (v : value) : option Z :=
  match v with
  | VInt n => Some n
  | VBool b => Some (if b then 1 else 0)%Z
  | _ => None
  end.

(** [not isinstance(v, int) or v < low or v > high] *)
Definition not_within (v : value) (low high : Z) : bool :=
  match as_int v with
  | Some n => (n <? low)%Z || (n >? high)%Z
  | None => true
  end.

(** [v in texts] for a list of [str]. *)
Definition is_one_of (v : value) (texts : list string) : bool :=
  match v with
  | VStr s => existsb (String.eqb s) texts
  | _ => false
  end.

(** [validate_config]: the errors, in the order they are entered. *)
Definition validate_config (self : ConfigManager) : list (string * string) :=
  (if negb (is_one_of (get "default_backend" VNone self) ["multipass"; "lxd"])
   then [("default_backend", "Must be 'multipass' or 'lxd'")] else [])
    ++ (if not_within (get "default_cpus" VNone self) 1 32
        then [("default_cpus", "Must be an integer between 1 and 32")] else [])
    ++ (if not_within (get "default_memory" VNone self) 512 32768
        then [("default_memory", "Must be an integer between 512 and 32768 MB")] else [])
    ++ (if not_within (get "default_disk" VNone self) 5 1000
        then [("default_disk", "Must be an integer between 5 and 1000 GB")] else [])
    ++ (if negb (is_one_of (get "log_level" VNone self) ["DEBUG"; "INFO"; "WARNING"; "ERROR"])
        then [("log_level", "Must be DEBUG, INFO, WARNING, or ERROR")] else []).

(** [get_terminal_preference] *)
Definition get_terminal_preference (self : ConfigManager) : value :=
  get "terminal_emulator" (VStr "auto") self.

Definition valid_terminals : list string :=
  ["auto"; "gnome-terminal"; "konsole"; "xterm"; "alacritty"; "wezterm"; "terminator"].

(** [set_terminal_preference] *)
Definition set_terminal_preference (terminal : string) (self : ConfigManager)
  : result ConfigManager :=
  if negb (existsb (String.eqb terminal) valid_terminals)
  then Raise (ValueError ("Invalid terminal: " ++ terminal))
  else Ok (set "terminal_emulator" (VStr terminal) self).

(** What the settings dialog of [main.py] holds when it is saved. *)
Record SettingsDialog : Type := {
  multipass_radio : bool;
  default_cpu_spin : Z;
  default_memory_spin : Z
}.

(** [SettingsDialog.save_settings], up to the update of the object (the
    write of the file that follows is not modelled). *)
Definition save_settings (dialog : SettingsDialog) (self : ConfigManager) : ConfigManager :=
  update [("default_backend", VStr (if multipass_radio dialog then "multipass" else "lxd"));
          ("default_cpus", VInt (default_cpu_spin dialog));
          ("default_memory", VInt (default_memory_spin dialog))]
    self.

(** The store is in order for the ranks [ranks] (one per address): a dict
    value stored in a dict is the address of a dict of the store, of lower
    rank.  No dict is then reached from itself. *)
Definition in_order (ranks : list nat) (h : store) : bool :=
  forallb
    (fun entry =>
       forallb (fun kv =>
                  match snd kv with
                  | VDict address =>
                      (address <? length h)%nat
                      && (nth address ranks 0 <? nth (fst entry) ranks 0)%nat
                  | _ => true
                  end)
               (snd entry))
    (combine (seq 0 (length h)) h).

(** A text without the separator of [get] and [set]. *)
Fixpoint plain (s : string) : bool :=
  match s with
  | EmptyString => true
  | String c r => negb (Ascii.eqb c "."%char) && plain r
  end.

(** What [in_order] checks. *)
Definition ordered (rank : nat -> nat) (h : store) : Prop :=
  forall x k l, In (k, VDict l) (dict_at h x) -> l < length h /\ rank l < rank x.

(** The store after the first assignment of [navigate] on a missing key,
    and the ranks that keep it in order. *)
Definition grown (h : store) (config : nat) (k : string) : store :=
  put config (assign k (VDict (length h)) (dict_at h config)) (h ++ [[]]).

Definition grown_rank (rank : nat -> nat) (h : store) (x : nat) : nat :=
  if (x =? length h)%nat then 0 else S (rank x).

End Settings.

(** ** Notions for the further properties *)



(** What every call keeps: distinct ids, and the three required fields in
    every template. *)
Definition catalog_ok (self : list (string * json)) : Prop :=
  NoDup (map fst self) /\ Forall Catalog.complete (map snd self).

(** [Records entry w items records w']: starting in [w], the record of
    every item of [items] is built, one after the other and each in the world
    the previous one left; [records] are these records, in order, and [w'] is
    the world the last one leaves. *)
Section LoopSteps.

Context {P : Platform}.

Inductive Records (entry : json -> M Environment)
  : world -> list json -> list Environment -> world -> Prop :=
| Records_done w : Records entry w [] [] w
| Records_next w item w1 e items records w' :
    entry item w = (w1, Ok e) ->
    Records entry w1 items records w' ->
    Records entry w (item :: items) (e :: records) w'.

End LoopSteps.

(** A text of characters below 128 only.  On such a text [Py.strip] is
    [str.strip]; [str.strip] also removes the white space beyond ASCII
    (U+0085, U+00A0, U+2003, U+3000 and others), which [Py.strip] leaves. *)
Fixpoint ascii_text (s : string) : bool :=
  match s with
  | EmptyString => true
  | String c r => (nat_of_ascii c <? 128)%nat && ascii_text r
  end.

(** ** The creation dialog ([CreateEnvironmentDialog] of [main.py])

    What the widgets of the dialog hold when it is accepted: the text of the
    name field, the text of the backend combo, the data of the selected
    template (its id), the data of the items of the mount list, in order, and
    the values of the three spin boxes. *)
Record Dialog : Type := {
  name_edit : string;
  backend_combo : string;
  template_combo : string;
  mounts_list : list MountSpec;
  cpu_spin : Z;
  memory_spin : Z;
  disk_spin : Z
}.

(** [CreateEnvironmentDialog.get_config].  The name is the stripped text
    of the field: [Py.strip] is [str.strip] on ASCII text (see
    [ascii_text]). *)
Definition get_config (self : Dialog) : Config :=
  {| cfg_name := Py.strip (name_edit self);
     cfg_backend := backend_combo self;
     cfg_template := template_combo self;
     cfg_mounts := mounts_list self;
     cfg_resources :=
       {| cpus := Some (cpu_spin self);
          memory := Some (Py.str_of_Z (memory_spin self) ++ "M")%string;
          disk := Some (Py.str_of_Z (disk_spin self) ++ "G")%string |} |}.

(** A text of white space only (the empty text included). *)
Fixpoint blank (s : string) : bool :=
  match s with
  | EmptyString => true
  | String c r => Py.is_space c && blank r
  end.

(** ** More worlds of the small host *)

Module Hosts.

(** [dev] runs on multipass and [box] on LXD; the registry knows [dev]. *)
Definition both_running : @world Lab.platform :=
  @World Lab.platform (Lab.Build_lab (Some ("dev", true)) true (Some ("box", true)))
    Lab.dev_registry Writable [].

(** Nothing exists; the registry file holds a list. *)
Definition empty_list_registry : @world Lab.platform :=
  @World Lab.platform (Lab.Build_lab None false None) (Holds (JArr [])) Writable [].

(** Nothing exists; both tools are installed. *)
Definition lxd_host : @world Lab.platform :=
  @World Lab.platform (Lab.Build_lab None true None) Absent Writable [].

(** A request for a template that is not built in. *)
Definition custom_config : Config :=
  Build_Config "dev" "multipass" "my-stack" []
    (Build_Resources (Some 2%Z) (Some "2048M") (Some "10G")).

Definition my_stack : list (string * json) :=
  [("name", JStr "My stack");
   ("description", JStr "What the team uses");
   ("base_image", JStr "24.04")].

(** The dialog as it opens, with a name typed in. *)
Definition dialog : Dialog :=
  {| name_edit := " dev ";
     backend_combo := "multipass";
     template_combo := "ubuntu-basic";
     mounts_list := [];
     cpu_spin := 2;
     memory_spin := 2048;
     disk_spin := 10 |}.

(** Nothing exists; the registry file holds text that is not JSON. *)
Definition broken_registry : @world Lab.platform :=
  @World Lab.platform (Lab.Build_lab None false None) Corrupt Writable [].

(** The dialog with a name field of white space. *)
Definition blank_dialog : Dialog :=
  {| name_edit := "   ";
     backend_combo := "multipass";
     template_combo := "ubuntu-basic";
     mounts_list := [];
     cpu_spin := 2;
     memory_spin := 2048;
     disk_spin := 10 |}.

(** The small host with a multipass that reports three instances, the
    second without a state. *)
Definition instance (n state : string) : json :=
  JObj [("ipv4", JArr [JStr "10.11.12.13"]);
        ("name", JStr n);
        ("release", JStr "Ubuntu 22.04 LTS");
        ("state", JStr state)].

Definition cut_items : list json :=
  [instance "dev" "Running"; JObj [("name", JStr "ghost")]; instance "late" "Running"].

Definition cut_loads (text : string) : option json :=
  if text =? "vm-running:dev" then Some (JObj [("list", JArr cut_items)])
  else Lab.lab_loads text.

Definition cut_platform : Platform := {|
  machine := Lab.lab;
  exec := Lab.lab_exec;
  popen := fun m _ => (m, true);
  json_loads := cut_loads
|}.

Definition cut_world : @world cut_platform :=
  @World cut_platform (Lab.Build_lab (Some ("dev", true)) false None)
    Lab.dev_registry Writable [].





End Hosts.

(** * Properties *)

(** ** What a computation does to the world *)

Section Frames.

Context {P : Platform}.

Lemma emits_ret {A} allowed (a : A) : emits allowed (ret a).
Proof.
  intros w w' r H. inversion H; subst. repeat split. exists []. auto.
Qed.

Lemma emits_raise {A} allowed (e : exn) : emits allowed (@raise P A e).
Proof.
  intros w w' r H. inversion H; subst. repeat split. exists []. auto.
Qed.

Lemma emits_lift {A} allowed (x : result A) : emits allowed (lift x).
Proof.
  intros w w' r H. inversion H; subst. repeat split. exists []. auto.
Qed.

Lemma emits_bind {A B} allowed (m : M A) (k : A -> M B) :
  emits allowed m -> (forall a, emits allowed (k a)) -> emits allowed (bind m k).
Proof.
  intros Hm Hk w w' r H. unfold bind in H.
  destruct (m w) as [w1 [a|e]] eqn:E.
  - destruct (Hm _ _ _ E) as (F1 & W1 & evs1 & L1 & A1).
    destruct (Hk a _ _ _ H) as (F2 & W2 & evs2 & L2 & A2).
    repeat split; try congruence.
    exists (evs2 ++ evs1). rewrite L2, L1, app_assoc, forallb_app, A1, A2. auto.
  - inversion H; subst. exact (Hm _ _ _ E).
Qed.

Lemma emits_try_except {A} allowed (m : M A) handles handler :
  emits allowed m -> (forall e, emits allowed (handler e)) ->
  emits allowed (try_except m handles handler).
Proof.
  intros Hm Hh w w' r H. unfold try_except in H.
  destruct (m w) as [w1 [a|e]] eqn:E.
  - inversion H; subst. exact (Hm _ _ _ E).
  - destruct (handles e).
    + destruct (Hm _ _ _ E) as (F1 & W1 & evs1 & L1 & A1).
      destruct (Hh e _ _ _ H) as (F2 & W2 & evs2 & L2 & A2).
      repeat split; try congruence.
      exists (evs2 ++ evs1). rewrite L2, L1, app_assoc, forallb_app, A1, A2. auto.
    + inversion H; subst. exact (Hm _ _ _ E).
Qed.

Lemma emits_run allowed (cmd : list string) :
  (forall o, allowed (Ran cmd o) = true) -> emits allowed (_run_command cmd).
Proof.
  intros Hal w w' r H. unfold _run_command in H.
  destruct (exec (host w) cmd) as [h o] eqn:E.
  assert (w' = World h (env_file w) (storage w) (Ran cmd o :: log w)) as ->
      by (destruct o; inversion H; reflexivity).
  simpl. repeat split. exists [Ran cmd o]. simpl. rewrite Hal. auto.
Qed.

Lemma emits_for_each {A} allowed (xs : list A) (body : A -> M unit) :
  (forall x, emits allowed (body x)) -> emits allowed (for_each xs body).
Proof.
  intros Hb. induction xs as [|x xs IH]; simpl.
  - apply emits_ret.
  - apply emits_bind; auto.
Qed.

Lemma emits_weaken {X} (allowed allowed' : event -> bool) (m : world -> world * X) :
  (forall ev, allowed ev = true -> allowed' ev = true) ->
  emits allowed m -> emits allowed' m.
Proof.
  intros Hw Hm w w' r H.
  destruct (Hm _ _ _ H) as (F & W & evs & L & Al).
  repeat split; auto. exists evs. split; auto.
  rewrite forallb_forall in *. auto.
Qed.

(** *** The listing only queries *)

Lemma emits_load : emits is_query _load_environments_config.
Proof.
  intros w w' r H. unfold _load_environments_config in H.
  assert (w' = w) as -> by (destruct (env_file w); inversion H; reflexivity).
  repeat split. exists []. auto.
Qed.

Lemma emits_loads text : emits is_query (loads text).
Proof.
  unfold loads. destruct (json_loads text); [apply emits_ret | apply emits_raise].
Qed.

Lemma emits_as_arg v : emits is_query (as_arg v).
Proof.
  destruct v; simpl; first [apply emits_ret | apply emits_raise].
Qed.

Lemma emits_check_backend backend : emits is_query (_check_backend_available backend).
Proof.
  unfold _check_backend_available.
  apply emits_try_except; [|intros; apply emits_ret].
  destruct (backend =? "multipass").
  - apply emits_bind; [apply emits_run; reflexivity | intros; apply emits_ret].
  - destruct (backend =? "lxd").
    + apply emits_bind; [apply emits_run; reflexivity | intros; apply emits_ret].
    + apply emits_ret.
Qed.

Lemma emits_template name : emits is_query (_get_environment_template name).
Proof.
  unfold _get_environment_template.
  apply emits_bind; [apply emits_load | intros; apply emits_lift].
Qed.

Lemma emits_multipass_mounts name : emits is_query (_get_multipass_mounts name).
Proof.
  unfold _get_multipass_mounts.
  apply emits_try_except; [|intros; apply emits_ret].
  apply emits_bind; [apply emits_as_arg|]. intros arg.
  apply emits_bind; [apply emits_run; reflexivity|]. intros stdout.
  apply emits_bind; [apply emits_loads|]. intros; apply emits_lift.
Qed.

Lemma emits_lxd_mounts name : emits is_query (_get_lxd_mounts name).
Proof.
  unfold _get_lxd_mounts.
  apply emits_try_except; [|intros; apply emits_ret].
  apply emits_bind; [apply emits_as_arg|]. intros arg.
  apply emits_bind; [apply emits_run; reflexivity|]. intros; apply emits_lift.
Qed.

Lemma emits_multipass_entry instance : emits is_query (multipass_entry instance).
Proof.
  unfold multipass_entry.
  repeat (apply emits_bind; [first [apply emits_lift | apply emits_template
                                   | apply emits_multipass_mounts]|]; intros).
  apply emits_ret.
Qed.

Lemma emits_lxd_entry container : emits is_query (lxd_entry container).
Proof.
  unfold lxd_entry.
  repeat (apply emits_bind; [first [apply emits_lift | apply emits_template
                                   | apply emits_lxd_mounts]|]; intros).
  apply emits_ret.
Qed.

Lemma emits_append_each entry items :
  (forall item, emits is_query (entry item)) ->
  forall environments, emits is_query (append_each entry items environments).
Proof.
  intros He. induction items as [|item rest IH]; intros environments w w' r H; simpl in H.
  - inversion H; subst. repeat split. exists []. auto.
  - destruct (entry item w) as [w1 [env|e]] eqn:E.
    + destruct (He _ _ _ _ E) as (F1 & W1 & evs1 & L1 & A1).
      destruct (IH _ _ _ _ H) as (F2 & W2 & evs2 & L2 & A2).
      repeat split; try congruence.
      exists (evs2 ++ evs1). rewrite L2, L1, app_assoc, forallb_app, A1, A2. auto.
    + inversion H; subst. exact (He _ _ _ _ E).
Qed.

Lemma emits_multipass_block environments : emits is_query (multipass_block environments).
Proof.
  intros w w' r H. unfold multipass_block in H.
  match type of H with
  | match ?m w with _ => _ end = _ =>
      assert (Hm : emits is_query m);
      [| destruct (m w) as [w1 [instances|e]] eqn:E ]
  end.
  - apply emits_bind; [apply emits_run; reflexivity|]. intros stdout.
    apply emits_bind; [apply emits_loads|]. intros; apply emits_lift.
  - destruct (Hm _ _ _ E) as (F1 & W1 & evs1 & L1 & A1).
    destruct (emits_append_each multipass_entry instances emits_multipass_entry _ _ H)
      as (F2 & W2 & evs2 & L2 & A2).
    repeat split; try congruence.
    exists (evs2 ++ evs1). rewrite L2, L1, app_assoc, forallb_app, A1, A2. auto.
  - inversion H; subst. exact (Hm _ _ _ E).
Qed.

Lemma emits_lxd_block environments : emits is_query (lxd_block environments).
Proof.
  intros w w' r H. unfold lxd_block in H.
  match type of H with
  | match ?m w with _ => _ end = _ =>
      assert (Hm : emits is_query m);
      [| destruct (m w) as [w1 [containers|e]] eqn:E ]
  end.
  - apply emits_bind; [apply emits_run; reflexivity|]. intros stdout.
    apply emits_bind; [apply emits_loads|]. intros; apply emits_lift.
  - destruct (Hm _ _ _ E) as (F1 & W1 & evs1 & L1 & A1).
    destruct (emits_append_each lxd_entry containers emits_lxd_entry _ _ H)
      as (F2 & W2 & evs2 & L2 & A2).
    repeat split; try congruence.
    exists (evs2 ++ evs1). rewrite L2, L1, app_assoc, forallb_app, A1, A2. auto.
  - inversion H; subst. exact (Hm _ _ _ E).
Qed.

Lemma emits_list_backend backend block environments :
  (forall envs, emits is_query (block envs)) ->
  emits is_query (list_backend backend block environments).
Proof.
  intros Hb. unfold list_backend.
  apply emits_bind; [apply emits_check_backend|]. intros [|]; [|apply emits_ret].
  intros w w' r H.
  destruct (block environments w) as [w1 [envs [e|]]] eqn:E.
  - assert (w' = w1) as -> by (destruct (is_listing_error e); inversion H; reflexivity).
    exact (Hb _ _ _ _ E).
  - inversion H; subst. exact (Hb _ _ _ _ E).
Qed.

(** The listing leaves the registry file alone and runs only the version,
    list, info and config-show commands. *)
Lemma emits_list_environments : emits is_query list_environments.
Proof.
  unfold list_environments.
  apply emits_bind.
  - apply emits_list_backend. apply emits_multipass_block.
  - intros. apply emits_list_backend. apply emits_lxd_block.
Qed.

End Frames.

(** ** Sequences of commands *)

Section Sequences.

Context {P : Platform}.

Lemma run_command_cases cmd w :
  exists h o,
    exec (host w) cmd = (h, o) /\
    let w' := World h (env_file w) (storage w) (Ran cmd o :: log w) in
    (succeeded o = true /\ exists stdout, _run_command cmd w = (w', Ok stdout)) \/
    (succeeded o = false /\ exists msg, _run_command cmd w = (w', Raise (RuntimeError msg))).
Proof.
  unfold _run_command. destruct (exec (host w) cmd) as [h o]. exists h, o. split; auto.
  destruct o; simpl; [left | right | right]; split; eauto.
Qed.

Lemma run_all_trace cmds :
  forall w w' r,
    run_all cmds w = (w', r) ->
    env_file w' = env_file w /\ storage w' = storage w /\
    exists evs completed,
      log w' = rev evs ++ log w /\ Trace cmds evs completed /\
      if completed : bool then r = Ok tt
      else exists msg, r = Raise (RuntimeError msg).
Proof.
  induction cmds as [|cmd cmds IH]; intros w w' r H.
  - inversion H; subst. repeat split. exists [], true. repeat split. constructor.
  - unfold run_all in H. simpl in H. unfold bind at 1 2 in H.
    destruct (run_command_cases cmd w) as (h & o & E & [[So [out R]]|[So [msg R]]]);
      simpl in R; rewrite R in H.
    + simpl in H. apply IH in H. destruct H as (F & W & evs & c & L & T & Hr).
      simpl in F, W, L. repeat split; auto.
      exists (Ran cmd o :: evs), c. repeat split; auto.
      * simpl. rewrite <- app_assoc. exact L.
      * constructor; auto.
    + inversion H; subst. simpl. repeat split.
      exists [Ran cmd o], false. repeat split; eauto. apply Trace_stop; auto.
Qed.

Lemma bind_run_ret cmd (k : M unit) w :
  bind (bind (_run_command cmd) (fun _ => ret tt)) (fun _ => k) w
  = bind (_run_command cmd) (fun _ => k) w.
Proof.
  unfold bind, ret. destruct (_run_command cmd w) as [w1 [a|e]]; reflexivity.
Qed.

Lemma bind_ret_r (m : M unit) w : bind m (fun _ => ret tt) w = m w.
Proof.
  unfold bind, ret. destruct (m w) as [w1 [[]|e]]; reflexivity.
Qed.

Lemma delete_backend_run_all name env w :
  delete_backend name env w = run_all (delete_commands name env) w.
Proof.
  unfold delete_backend, delete_commands, run_all.
  destruct (env_backend env =? "multipass").
  - destruct (env_status env =? "Running"); simpl.
    + unfold bind, ret.
      destruct (_run_command ["multipass"; "stop"; name] w) as [w1 [a|e]]; auto.
      destruct (_run_command ["multipass"; "delete"; name] w1) as [w2 [b|e]]; auto.
      destruct (_run_command ["multipass"; "purge"] w2) as [w3 [c|e]]; auto.
    + unfold bind, ret.
      destruct (_run_command ["multipass"; "delete"; name] w) as [w2 [b|e]]; auto.
      destruct (_run_command ["multipass"; "purge"] w2) as [w3 [c|e]]; auto.
  - destruct (env_backend env =? "lxd"); [|reflexivity].
    destruct (env_status env =? "Running"); simpl.
    + unfold bind, ret.
      destruct (_run_command ["lxc"; "stop"; name] w) as [w1 [a|e]]; auto.
      destruct (_run_command ["lxc"; "delete"; name] w1) as [w2 [b|e]]; auto.
    + unfold bind, ret.
      destruct (_run_command ["lxc"; "delete"; name] w) as [w2 [b|e]]; auto.
Qed.

(** The registry update of [delete_environment] logs nothing.  It leaves
    the file as it was, or returns normally with the registry without the
    entry, or (when the write fails half way) raises with the file
    [Corrupt]. *)
Lemma delete_registry_cases name w w' r :
  delete_registry name w = (w', r) ->
  log w' = log w /\
  (env_file w' = env_file w \/
   (r = Ok tt /\ exists d,
       _load_environments_config w = (w, Ok (JObj d)) /\
       Dyn.lookup name d <> None /\
       env_file w' = Holds (JObj (Dyn.remove name d))) \/
   (env_file w' = Corrupt /\ exists e, r = Raise e /\ is_RuntimeError e = true)).
Proof.
  unfold delete_registry, bind, lift. intros H.
  destruct (_load_environments_config w) as [w0 r0] eqn:EL.
  assert (w0 = w) as ->
      by (unfold _load_environments_config in EL; destruct (env_file w); inversion EL; auto).
  destruct r0 as [cfg|e]; [|inversion H; subst; auto].
  destruct (Dyn.contains name cfg) as [[|]|e] eqn:EC;
    [| inversion H; subst; auto | inversion H; subst; auto].
  destruct (Dyn.delitem cfg name) as [cfg'|e] eqn:ED; [|inversion H; subst; auto].
  unfold _save_environments_config in H.
  destruct (storage w) eqn:EW; inversion H; subst; simpl; split; auto.
  - right. left. split; auto.
    destruct cfg; simpl in ED; try discriminate.
    exists fields. destruct (Dyn.lookup name fields) eqn:EK; [|discriminate].
    inversion ED; subst. repeat split; auto. congruence.
  - right. right. split; eauto.
Qed.

End Sequences.

(** ** Invariants of the listed records *)

Section Listing.

Context {P : Platform}.

Variable f : file_state.
Variable Q : Environment -> Prop.

Lemma append_each_Forall entry items :
  (forall item, emits is_query (entry item)) ->
  (forall item w w' e, env_file w = f -> entry item w = (w', Ok e) -> Q e) ->
  forall environments w w' envs' x,
    env_file w = f -> Forall Q environments ->
    append_each entry items environments w = (w', (envs', x)) ->
    Forall Q envs'.
Proof.
  intros Hem Hq. induction items as [|item rest IH]; intros environments w w' envs' x Hf Hall H;
    simpl in H.
  - inversion H; subst. exact Hall.
  - destruct (entry item w) as [w1 [env|e]] eqn:E.
    + apply (IH _ _ _ _ _ (eq_trans (proj1 (Hem _ _ _ _ E)) Hf)) in H; auto.
      apply Forall_app. split; auto. constructor; eauto.
    + inversion H; subst. exact Hall.
Qed.

Lemma list_backend_Forall backend block environments :
  (forall envs w w' envs' x,
      env_file w = f -> Forall Q envs -> block envs w = (w', (envs', x)) -> Forall Q envs') ->
  forall w w' envs',
    env_file w = f -> Forall Q environments ->
    list_backend backend block environments w = (w', Ok envs') ->
    Forall Q envs'.
Proof.
  intros Hb w w' envs' Hf Hall H. unfold list_backend, bind in H.
  destruct (_check_backend_available backend w) as [w1 [[|]|e]] eqn:E;
    [| inversion H; subst; auto | discriminate].
  pose proof (eq_trans (proj1 (emits_check_backend _ _ E)) Hf) as Hf1.
  destruct (block environments w1) as [w2 [envs2 [e|]]] eqn:B.
  - destruct (is_listing_error e); inversion H; subst. eauto.
  - inversion H; subst. eauto.
Qed.

Lemma list_environments_Forall :
  (forall item w w' e, env_file w = f -> multipass_entry item w = (w', Ok e) -> Q e) ->
  (forall item w w' e, env_file w = f -> lxd_entry item w = (w', Ok e) -> Q e) ->
  forall w w' envs,
    env_file w = f -> list_environments w = (w', Ok envs) -> Forall Q envs.
Proof.
  intros Hm Hl w w' envs Hf H. unfold list_environments, bind in H.
  destruct (list_backend "multipass" multipass_block [] w) as [w1 [envs1|e]] eqn:E1;
    [|discriminate].
  assert (Forall Q envs1) as H1.
  { eapply list_backend_Forall; [| exact Hf | constructor | exact E1].
    intros envs0 v v' envs0' x Hv Hall B. unfold multipass_block in B.
    match type of B with
    | match ?m v with _ => _ end = _ =>
        assert (Hq : emits is_query m);
        [| destruct (m v) as [v1 [instances|e]] eqn:E ]
    end.
    - apply emits_bind; [apply emits_run; reflexivity|]. intros stdout.
      apply emits_bind; [apply emits_loads|]. intros; apply emits_lift.
    - eapply append_each_Forall; [apply emits_multipass_entry | exact Hm | | exact Hall | exact B].
      exact (eq_trans (proj1 (Hq _ _ _ E)) Hv).
    - inversion B; subst. exact Hall. }
  eapply list_backend_Forall;
    [| exact (eq_trans (proj1 (emits_list_backend _ _ _ emits_multipass_block _ E1)) Hf)
     | exact H1 | exact H].
  intros envs0 v v' envs0' x Hv Hall B. unfold lxd_block in B.
  match type of B with
  | match ?m v with _ => _ end = _ =>
      assert (Hq : emits is_query m);
      [| destruct (m v) as [v1 [containers|e]] eqn:E ]
  end.
  - apply emits_bind; [apply emits_run; reflexivity|]. intros stdout.
    apply emits_bind; [apply emits_loads|]. intros; apply emits_lift.
  - eapply append_each_Forall; [apply emits_lxd_entry | exact Hl | | exact Hall | exact B].
    exact (eq_trans (proj1 (Hq _ _ _ E)) Hv).
  - inversion B; subst. exact Hall.
Qed.

End Listing.

Section EntryShapes.

Context {P : Platform}.

(** Stepping through a computation written with [bind]. *)
Lemma bind_Ok {A B} (m : M A) (k : A -> M B) w w' b :
  bind m k w = (w', Ok b) ->
  exists w1 a, m w = (w1, Ok a) /\ k a w1 = (w', Ok b).
Proof.
  unfold bind. destruct (m w) as [w1 [a|e]]; [eauto | discriminate].
Qed.

Lemma lift_Ok {A} (x : result A) w w' a :
  @lift P A x w = (w', Ok a) -> w' = w /\ x = Ok a.
Proof.
  unfold lift. intros H. inversion H; auto.
Qed.

Lemma multipass_entry_shape instance w w' e :
  multipass_entry instance w = (w', Ok e) ->
  exists w2,
    env_backend e = "multipass" /\
    _get_environment_template (env_name e) w = (w2, Ok (env_template e)).
Proof.
  unfold multipass_entry. intros H.
  apply bind_Ok in H. destruct H as (w1 & name & H1 & H).
  apply bind_Ok in H. destruct H as (w2 & status & H2 & H).
  apply bind_Ok in H. destruct H as (w3 & ip & H3 & H).
  apply bind_Ok in H. destruct H as (w4 & template & H4 & H).
  apply bind_Ok in H. destruct H as (w5 & mounts & H5 & H).
  apply lift_Ok in H1, H2, H3. destruct H1 as [-> _], H2 as [-> _], H3 as [-> _].
  inversion H; subst. simpl. eauto.
Qed.

Lemma lxd_entry_shape container w w' e :
  lxd_entry container w = (w', Ok e) ->
  exists w2 w3,
    env_backend e = "lxd" /\
    _get_environment_template (env_name e) w = (w2, Ok (env_template e)) /\
    _get_lxd_mounts (env_name e) w2 = (w3, Ok (env_mounts e)).
Proof.
  unfold lxd_entry. intros H.
  apply bind_Ok in H. destruct H as (w1 & status & H1 & H).
  apply bind_Ok in H. destruct H as (w2 & ip & H2 & H).
  apply bind_Ok in H. destruct H as (w3 & name & H3 & H).
  apply bind_Ok in H. destruct H as (w4 & template & H4 & H).
  apply bind_Ok in H. destruct H as (w5 & mounts & H5 & H).
  apply lift_Ok in H1, H2, H3. destruct H1 as [-> _], H2 as [-> _], H3 as [-> _].
  inversion H; subst. simpl. eauto 10.
Qed.

(** The ip of the record built for a container is the one [lxd_ip]
    computes. *)
Lemma lxd_entry_ip container w w' e :
  lxd_entry container w = (w', Ok e) -> lxd_ip container = Ok (env_ip e).
Proof.
  unfold lxd_entry. intros H.
  apply bind_Ok in H. destruct H as (w1 & status & H1 & H).
  apply bind_Ok in H. destruct H as (w2 & ip & H2 & H).
  apply bind_Ok in H. destruct H as (w3 & name & H3 & H).
  apply bind_Ok in H. destruct H as (w4 & template & H4 & H).
  apply bind_Ok in H. destruct H as (w5 & mounts & H5 & H).
  apply lift_Ok in H2. destruct H2 as [_ ->].
  inversion H; subst. reflexivity.
Qed.

(** Every listed record comes from one of the two backends. *)
Lemma listed_backend w w' envs :
  list_environments w = (w', Ok envs) ->
  Forall (fun e => env_backend e = "multipass" \/ env_backend e = "lxd") envs.
Proof.
  intros H. eapply (list_environments_Forall (f := env_file w)); [| | reflexivity | exact H].
  - intros item v v' e _ E. apply multipass_entry_shape in E.
    destruct E as (? & B & _). auto.
  - intros item v v' e _ E. apply lxd_entry_shape in E.
    destruct E as (? & ? & B & _). auto.
Qed.

Lemma find_env_In name envs env :
  find_env name envs = Some env -> In env envs /\ env_name env = JStr name.
Proof.
  unfold find_env. intros H. apply find_some in H. destruct H as [Hin Hn].
  split; auto. destruct (env_name env); simpl in Hn; try discriminate.
  apply String.eqb_eq in Hn. congruence.
Qed.

End EntryShapes.

(** ** Start, stop, delete and shell *)

Section Lifecycle.

Context {P : Platform}.

(** C4. When the environment that [name] resolves to in the listing is
    reported Running, [start_environment] returns normally in the world the
    listing left: the only commands of the whole call are the read-only
    queries of the listing, no start command is dispatched.  The same holds
    for [stop_environment] and an environment reported Stopped. *)
Theorem start_stop_idempotent :
  forall (name : string) (w w1 : world) (envs : list Environment) (env : Environment),
    list_environments w = (w1, Ok envs) ->
    find_env name envs = Some env ->
    (exists evs, log w1 = evs ++ log w /\ forallb is_query evs = true) /\
    (env_status env = "Running" -> start_environment name w = (w1, Ok tt)) /\
    (env_status env = "Stopped" -> stop_environment name w = (w1, Ok tt)).
Proof.
  intros name w w1 envs env Hlist Hfind.
  split; [exact (proj2 (proj2 (emits_list_environments _ Hlist)))|].
  split; intros Hst.
  - unfold start_environment, bind. rewrite Hlist, Hfind, Hst. reflexivity.
  - unfold stop_environment, bind. rewrite Hlist, Hfind, Hst. reflexivity.
Qed.

(** C7. When the environment that [name] resolves to is reported with a
    status other than Running, [open_shell] raises the not-running error in
    the world the listing left, so no terminal probe or spawn has run; and
    whenever [open_shell] goes beyond the listing (its world differs from
    the one the listing left), the listing succeeded, the environment was
    found and its status is Running. *)
Theorem open_shell_requires_running :
  forall (name : string) (w w1 : world) (r1 : result (list Environment)),
    list_environments w = (w1, r1) ->
    (exists evs, log w1 = evs ++ log w /\ forallb is_query evs = true) /\
    (forall envs env,
        r1 = Ok envs -> find_env name envs = Some env ->
        env_status env <> "Running" ->
        open_shell name w
        = (w1, Raise (RuntimeError ("Environment '" ++ name ++ "' is not running")))) /\
    (forall w' r,
        open_shell name w = (w', r) -> w' <> w1 ->
        exists envs env,
          r1 = Ok envs /\ find_env name envs = Some env /\ env_status env = "Running").
Proof.
  intros name w w1 r1 Hlist.
  split; [exact (proj2 (proj2 (emits_list_environments _ Hlist)))|]. split.
  - intros envs env -> Hfind Hst.
    unfold open_shell, bind. rewrite Hlist, Hfind.
    destruct (String.eqb_spec (env_status env) "Running") as [E|E]; [contradiction|].
    reflexivity.
  - intros w' r Hopen Hne.
    unfold open_shell, bind in Hopen. rewrite Hlist in Hopen.
    destruct r1 as [envs|e].
    + destruct (find_env name envs) as [env|] eqn:Hfind.
      * destruct (String.eqb_spec (env_status env) "Running") as [E|E].
        -- exists envs, env. auto.
        -- simpl in Hopen. unfold raise in Hopen. inversion Hopen; subst. contradiction.
      * unfold not_found, raise in Hopen. inversion Hopen; subst. contradiction.
    + inversion Hopen; subst. contradiction.
Qed.

(** What [delete_environment] does once the listing has found the
    environment. *)
Lemma delete_environment_found name w w1 envs env w' r :
  list_environments w = (w1, Ok envs) ->
  find_env name envs = Some env ->
  delete_environment name w = (w', r) ->
  exists evs completed,
    log w' = rev evs ++ log w1 /\
    Trace (delete_commands name env) evs completed /\
    (completed = false ->
     (exists msg, r = Raise (RuntimeErrorFrom "Failed to delete environment: "
                               (RuntimeError msg))) /\
     env_file w' = env_file w) /\
    (env_file w' <> env_file w -> completed = true) /\
    (r = Ok tt ->
     completed = true /\
     (env_file w' = env_file w \/
      exists d, _load_environments_config w = (w, Ok (JObj d)) /\
                Dyn.lookup name d <> None /\
                env_file w' = Holds (JObj (Dyn.remove name d)))).
Proof.
  intros Hlist Hfind H.
  destruct (emits_list_environments _ Hlist) as (F1 & W1 & _).
  unfold delete_environment, bind at 1 in H. rewrite Hlist, Hfind in H.
  unfold try_except, bind in H. rewrite delete_backend_run_all in H.
  destruct (run_all (delete_commands name env) w1) as [w2 r2] eqn:R.
  destruct (run_all_trace _ _ R) as (F2 & W2 & evs & completed & L2 & T & Hr).
  exists evs, completed.
  destruct completed.
  - subst r2.
    destruct (delete_registry name w2) as [w3 r3] eqn:D.
    destruct (delete_registry_cases _ _ D) as (L3 & C).
    assert (w' = w3) as ->.
    { destruct r3 as [[]|e]; [inversion H; auto|].
      destruct (is_RuntimeError e); inversion H; auto. }
    split; [congruence|]. split; [exact T|]. split; [discriminate|].
    split; [reflexivity|]. intros ->. split; [reflexivity|].
    destruct C as [F3 | [(_ & d & Ld & Hk & F3) | (_ & e & -> & He)]].
    + left. congruence.
    + right. exists d. repeat split; auto.
      unfold _load_environments_config in *. rewrite <- F1, <- F2.
      destruct (env_file w2); inversion Ld; subst; reflexivity.
    + rewrite He in H. discriminate.
  - destruct Hr as [msg ->]. simpl in H. unfold raise in H. inversion H; subst.
    split; [exact L2|]. split; [exact T|]. split.
    + intros _. split; [eauto | congruence].
    + split; [congruence | discriminate].
Qed.

Lemma Trace_completed_ok cmds evs :
  Trace cmds evs true -> forallb event_ok evs = true.
Proof.
  intros T. remember true as c eqn:Ec.
  induction T as [|cmd o cmds evs c So T IH|]; simpl; auto; try discriminate.
  rewrite So. auto.
Qed.

(** A single backend command inside [try: ... except RuntimeError as e:
    raise RuntimeError(f"{prefix}{e}")]. *)
Lemma guarded_command_trace cmd prefix w w' r :
  try_except (bind (_run_command cmd) (fun _ => ret tt)) is_RuntimeError
    (fun e => raise (RuntimeErrorFrom prefix e)) w = (w', r) ->
  exists evs completed,
    log w' = rev evs ++ log w /\ Trace [cmd] evs completed /\
    if completed : bool then r = Ok tt
    else exists msg, r = Raise (RuntimeErrorFrom prefix (RuntimeError msg)).
Proof.
  unfold try_except, bind. intros H.
  destruct (run_command_cases cmd w) as (h & o & E & [[So [out R]]|[So [msg R]]]);
    simpl in R; rewrite R in H; simpl in H; inversion H; subst.
  - exists [Ran cmd o], true. repeat split. repeat constructor. exact So.
  - exists [Ran cmd o], false. repeat split; eauto. apply Trace_stop. exact So.
Qed.

(** C9. Once the listing has found [name]: [start_environment] on an
    environment not reported Running runs exactly the start command of the
    owning backend's tool; [stop_environment] on one not reported Stopped
    runs exactly its stop command; [delete_environment] runs the tool's delete
    command (after a stop command when the environment is Running), and on
    the multipass backend a purge command that is run only after the delete
    command succeeded. *)
Theorem lifecycle_commands :
  forall (name : string) (w w1 : world) (envs : list Environment) (env : Environment),
    list_environments w = (w1, Ok envs) ->
    find_env name envs = Some env ->
    (env_status env <> "Running" ->
     forall w' r, start_environment name w = (w', r) ->
       exists evs completed,
         log w' = rev evs ++ log w1 /\
         Trace [[tool env; "start"; name]] evs completed /\
         if completed : bool then r = Ok tt
         else exists msg, r = Raise (RuntimeErrorFrom "Failed to start environment: "
                                       (RuntimeError msg))) /\
    (env_status env <> "Stopped" ->
     forall w' r, stop_environment name w = (w', r) ->
       exists evs completed,
         log w' = rev evs ++ log w1 /\
         Trace [[tool env; "stop"; name]] evs completed /\
         if completed : bool then r = Ok tt
         else exists msg, r = Raise (RuntimeErrorFrom "Failed to stop environment: "
                                       (RuntimeError msg))) /\
    (forall w' r, delete_environment name w = (w', r) ->
       exists evs completed,
         log w' = rev evs ++ log w1 /\
         Trace ((if env_status env =? "Running" then [[tool env; "stop"; name]] else [])
                  ++ [tool env; "delete"; name]
                  :: (if env_backend env =? "multipass" then [["multipass"; "purge"]]
                      else []))
               evs completed).
Proof.
  intros name w w1 envs env Hlist Hfind.
  pose proof Hlist as Hb. apply listed_backend in Hb. rewrite Forall_forall in Hb.
  pose proof Hfind as Hin. apply find_env_In in Hin. specialize (Hb env (proj1 Hin)).
  split; [|split].
  - intros Hst w' r H. unfold start_environment, bind at 1 in H.
    rewrite Hlist, Hfind in H.
    destruct (String.eqb_spec (env_status env) "Running") as [E|_]; [contradiction|].
    unfold tool. destruct Hb as [Hb | Hb]; rewrite Hb in *; simpl in *;
      apply guarded_command_trace in H; exact H.
  - intros Hst w' r H. unfold stop_environment, bind at 1 in H.
    rewrite Hlist, Hfind in H.
    destruct (String.eqb_spec (env_status env) "Stopped") as [E|_]; [contradiction|].
    unfold tool. destruct Hb as [Hb | Hb]; rewrite Hb in *; simpl in *;
      apply guarded_command_trace in H; exact H.
  - intros w' r H.
    destruct (@delete_environment_found name w w1 envs env w' r Hlist Hfind H)
      as (evs & completed & L & T & _).
    exists evs, completed. split; [exact L|].
    unfold delete_commands in T. unfold tool.
    destruct Hb as [Hb | Hb]; rewrite Hb in *; simpl in *; exact T.
Qed.

End Lifecycle.

(** ** Creation *)

Section Creation.

Context {P : Platform}.

Lemma strict_ret {A} (a : A) : strict (ret a).
Proof.
  intros w w' r H. inversion H; subst. repeat split. exists []. simpl.
  repeat split; auto. discriminate.
Qed.

Lemma strict_raise {A} (e : exn) : strict (@raise P A e).
Proof.
  intros w w' r H. inversion H; subst. repeat split. exists []. simpl.
  repeat split; auto. discriminate.
Qed.

Lemma strict_run cmd : strict (_run_command cmd).
Proof.
  intros w w' r H.
  destruct (run_command_cases cmd w) as (h & o & E & [[So [out R]]|[So [msg R]]]);
    simpl in R; rewrite R in H; inversion H; subst; simpl; repeat split;
    exists [Ran cmd o]; simpl; rewrite So; repeat split; auto.
  - discriminate.
  - intros [a Ha]. discriminate.
  - eauto.
Qed.

Lemma strict_bind {A B} (m : M A) (k : A -> M B) :
  strict m -> (forall a, strict (k a)) -> strict (bind m k).
Proof.
  intros Hm Hk w w' r H. unfold bind in H.
  destruct (m w) as [w1 [a|e]] eqn:E.
  - destruct (Hm _ _ _ E) as (F1 & W1 & evs1 & L1 & O1 & _).
    destruct (Hk a _ _ _ H) as (F2 & W2 & evs2 & L2 & O2 & B2).
    assert (forallb event_ok evs1 = true) as A1 by eauto.
    repeat split; try congruence.
    exists (evs2 ++ evs1). rewrite L2, L1, app_assoc, forallb_app, A1, andb_true_r. auto.
  - inversion H; subst. destruct (Hm _ _ _ E) as (F1 & W1 & evs1 & L1 & _ & B1).
    repeat split; auto. exists evs1. repeat split; auto.
    + intros [b Hb]. discriminate.
    + intros Hf. destruct (B1 Hf) as [msg Hmsg]. inversion Hmsg. eauto.
Qed.

Lemma strict_for_each {A} (xs : list A) (body : A -> M unit) :
  (forall x, strict (body x)) -> strict (for_each xs body).
Proof.
  intros Hb. induction xs as [|x xs IH]; simpl.
  - apply strict_ret.
  - apply strict_bind; auto.
Qed.

Lemma strict_run_ret cmd : strict (bind (_run_command cmd) (fun _ => ret tt)).
Proof.
  apply strict_bind; [apply strict_run | intros; apply strict_ret].
Qed.

Lemma strict_setup name template backend : strict (_setup_environment name template backend).
Proof.
  unfold _setup_environment.
  apply strict_bind.
  { destruct (backend =? "multipass"); [apply strict_ret|].
    destruct (backend =? "lxd"); [apply strict_ret | apply strict_raise]. }
  intros exec_cmd.
  apply strict_bind; [apply strict_run|]. intros _.
  apply strict_bind.
  { destruct (Templates.packages template); [apply strict_ret | apply strict_run_ret]. }
  intros _.
  destruct (negb (Templates.setup_script template =? "")); [|apply strict_ret].
  apply strict_for_each. intros line.
  destruct (negb (Py.strip line =? "")); [apply strict_run_ret | apply strict_ret].
Qed.

Lemma strict_create_multipass name template mounts resources :
  strict (_create_multipass_environment name template mounts resources).
Proof.
  unfold _create_multipass_environment.
  apply strict_bind; [apply strict_run|]. intros _.
  apply strict_bind; [apply strict_run|]. intros _.
  apply strict_bind; [|intros _; apply strict_setup].
  apply strict_for_each. intros mount. apply strict_run_ret.
Qed.

Lemma strict_lxd_mount_loop name mounts : forall i, strict (lxd_mount_loop name i mounts).
Proof.
  induction mounts as [|mount rest IH]; intros i; simpl.
  - apply strict_ret.
  - apply strict_bind; [apply strict_run | intros _; apply IH].
Qed.

Lemma strict_create_lxd name template mounts resources :
  strict (_create_lxd_environment name template mounts resources).
Proof.
  unfold _create_lxd_environment.
  apply strict_bind; [apply strict_run|]. intros _.
  apply strict_bind.
  { destruct (given_Z (cpus resources)); [apply strict_run_ret | apply strict_ret]. }
  intros _.
  apply strict_bind.
  { destruct (given_str (memory resources)); [apply strict_run_ret | apply strict_ret]. }
  intros _.
  apply strict_bind; [apply strict_run|]. intros _.
  apply strict_bind; [apply strict_lxd_mount_loop | intros _; apply strict_setup].
Qed.

(** The availability probe never raises. *)
Lemma check_backend_total backend w :
  exists w1 available, _check_backend_available backend w = (w1, Ok available).
Proof.
  unfold _check_backend_available, try_except, bind, ret.
  destruct (backend =? "multipass").
  - destruct (run_command_cases ["multipass"; "version"] w)
      as (h & o & E & [[So [out R]]|[So [msg R]]]); simpl in R; rewrite R; simpl; eauto.
  - destruct (backend =? "lxd"); [|eauto].
    destruct (run_command_cases ["lxc"; "version"] w)
      as (h & o & E & [[So [out R]]|[So [msg R]]]); simpl in R; rewrite R; simpl; eauto.
Qed.

Lemma strict_provision config template : strict (provision config template).
Proof.
  unfold provision.
  destruct (cfg_backend config =? "multipass"); [apply strict_create_multipass|].
  destruct (cfg_backend config =? "lxd"); [apply strict_create_lxd | apply strict_raise].
Qed.

Lemma create_environment_unfold config w :
  create_environment config w
  = (if cfg_name config =? "" then raise (ValueError "Environment name is required")
     else
       bind (_check_backend_available (cfg_backend config))
         (fun available =>
            if negb available then
              raise (RuntimeError ("Backend " ++ cfg_backend config ++ " is not available"))
            else
              match Templates.get_template (cfg_template config) with
              | None => raise (ValueError ("Template " ++ cfg_template config ++ " not found"))
              | Some template =>
                  try_except
                    (bind (provision config template) (fun _ => register config))
                    (fun _ => true)
                    (fun e => raise (RuntimeErrorFrom "Failed to create environment: " e))
              end)) w.
Proof. reflexivity. Qed.

Lemma register_cases config w :
  exists registry,
    _load_environments_config w = (w, Ok registry) /\
    forall w' r,
      register config w = (w', r) ->
      log w' = log w /\
      ((exists e, r = Raise e) \/
       (r = Ok tt /\ exists registry',
           Dyn.setitem registry (cfg_name config)
             (registry_entry (cfg_template config) (cfg_backend config)) = Ok registry' /\
           env_file w' = Holds registry')).
Proof.
  assert (exists registry, _load_environments_config w = (w, Ok registry)) as [registry EL]
      by (unfold _load_environments_config; destruct (env_file w); eauto).
  exists registry. split; [exact EL|].
  intros w' r H. unfold register, bind, lift in H. rewrite EL in H.
  match type of H with
  | match ?x with _ => _ end = _ => destruct x as [registry'|e] eqn:ES
  end; [|inversion H; subst; eauto].
  unfold _save_environments_config in H.
  destruct (storage w); inversion H; subst; simpl; eauto 10.
Qed.

(** [create_environment] once the name, the probe and the template have
    been accepted. *)
Lemma create_environment_provisioning config template w w1 w' r :
  cfg_name config <> "" ->
  _check_backend_available (cfg_backend config) w = (w1, Ok true) ->
  Templates.get_template (cfg_template config) = Some template ->
  create_environment config w = (w', r) ->
  exists evs,
    log w' = evs ++ log w1 /\
    (forallb event_ok evs = false ->
     (exists msg, r = Raise (RuntimeErrorFrom "Failed to create environment: "
                               (RuntimeError msg))) /\
     env_file w' = env_file w) /\
    (forall e, r = Raise e ->
       exists cause, e = RuntimeErrorFrom "Failed to create environment: " cause) /\
    (env_file w' <> env_file w -> forallb event_ok evs = true) /\
    (r = Ok tt ->
       forallb event_ok evs = true /\
       exists registry registry',
         _load_environments_config w = (w, Ok registry) /\
         Dyn.setitem registry (cfg_name config)
           (registry_entry (cfg_template config) (cfg_backend config)) = Ok registry' /\
         env_file w' = Holds registry').
Proof.
  intros En Hc Et H. rewrite create_environment_unfold in H.
  apply String.eqb_neq in En. rewrite En in H.
  unfold bind at 1 in H. rewrite Hc in H. simpl in H. rewrite Et in H.
  pose proof (proj1 (emits_check_backend _ _ Hc)) as F1.
  unfold try_except, bind in H.
  destruct (provision config template w1) as [w2 r2] eqn:Ep.
  destruct (strict_provision _ _ _ Ep) as (F2 & W2 & evs & L2 & O2 & B2).
  exists evs.
  destruct r2 as [[]|e2].
  - assert (forallb event_ok evs = true) as Hok by eauto.
    destruct (register_cases config w2) as (registry & EL & Hreg).
    destruct (register config w2) as [w3 r3] eqn:Er.
    destruct (Hreg _ _ eq_refl) as (L3 & [(e & ->) | (-> & registry' & ES & F3)]).
    + unfold raise in H. inversion H; subst.
      split; [congruence|]. split; [congruence|]. split; [|split; [auto|discriminate]].
      intros e0 He0. inversion He0; subst. eauto.
    + inversion H; subst.
      split; [congruence|]. split; [congruence|]. split; [discriminate|].
      split; [auto|].
      intros _. split; [exact Hok|]. exists registry, registry'.
      repeat split; auto.
      unfold _load_environments_config in *. rewrite <- F1, <- F2.
      destruct (env_file w2); inversion EL; subst; reflexivity.
  - unfold raise in H. inversion H; subst.
    split; [exact L2|]. split; [|split; [|split; [congruence|discriminate]]].
    + intros Hf. destruct (B2 Hf) as [msg Hmsg]. inversion Hmsg; subst.
      split; [eauto | congruence].
    + intros e0 He0. inversion He0; subst. eauto.
Qed.

(** A creation that returns normally went through provisioning. *)
Lemma create_environment_accepted config w w' :
  create_environment config w = (w', Ok tt) ->
  cfg_name config <> "" /\
  exists w1 template,
    _check_backend_available (cfg_backend config) w = (w1, Ok true) /\
    Templates.get_template (cfg_template config) = Some template.
Proof.
  intros H. rewrite create_environment_unfold in H.
  destruct (String.eqb_spec (cfg_name config) "") as [En|En]; [discriminate|].
  split; [exact En|].
  unfold bind at 1 in H.
  destruct (check_backend_total (cfg_backend config) w) as (w1 & available & Hc).
  rewrite Hc in H. destruct available; [|discriminate]. simpl in H.
  destruct (Templates.get_template (cfg_template config)) as [template|]; [|discriminate].
  eauto.
Qed.


(** C6. [create_environment] raises [ValueError] for an empty name before
    doing anything; raises the unavailable-backend error when the probe of
    the chosen backend fails; raises [ValueError] when the template id is not
    in the catalog; and, once provisioning has started, every failed command
    makes it raise the creation error that wraps the runner's error and
    leaves the registry file as it was, every error it raises is a creation
    error, the registry file is touched only when every command succeeded,
    and it returns normally only when every command succeeded, the registry
    file then holding the former registry with the new entry. *)
Theorem create_environment_failures :
  forall (config : Config) (w w' : world) (r : result unit),
    create_environment config w = (w', r) ->
    (cfg_name config = "" ->
     w' = w /\ r = Raise (ValueError "Environment name is required")) /\
    (cfg_name config <> "" ->
     forall w1 available,
       _check_backend_available (cfg_backend config) w = (w1, Ok available) ->
       env_file w1 = env_file w /\
       (available = false ->
        w' = w1 /\
        r = Raise (RuntimeError ("Backend " ++ cfg_backend config ++ " is not available"))) /\
       (available = true ->
        Templates.get_template (cfg_template config) = None ->
        w' = w1 /\
        r = Raise (ValueError ("Template " ++ cfg_template config ++ " not found"))) /\
       (available = true ->
        Templates.get_template (cfg_template config) <> None ->
        exists evs,
          log w' = evs ++ log w1 /\
          (forallb event_ok evs = false ->
           (exists msg, r = Raise (RuntimeErrorFrom "Failed to create environment: "
                                     (RuntimeError msg))) /\
           env_file w' = env_file w) /\
          (forall e, r = Raise e ->
             exists cause, e = RuntimeErrorFrom "Failed to create environment: " cause) /\
          (env_file w' <> env_file w -> forallb event_ok evs = true) /\
          (r = Ok tt ->
             forallb event_ok evs = true /\
             exists registry registry',
               _load_environments_config w = (w, Ok registry) /\
               Dyn.setitem registry (cfg_name config)
                 (registry_entry (cfg_template config) (cfg_backend config)) = Ok registry' /\
               env_file w' = Holds registry'))).
Proof.
  intros config w w' r H.
  destruct (String.eqb_spec (cfg_name config) "") as [En|En].
  { split; [|contradiction]. intros _.
    rewrite create_environment_unfold in H. apply String.eqb_eq in En. rewrite En in H.
    inversion H; auto. }
  split; [contradiction|]. intros _ w1 available Hc.
  split; [exact (proj1 (emits_check_backend _ _ Hc))|].
  destruct available.
  - split; [discriminate|].
    destruct (Templates.get_template (cfg_template config)) as [template|] eqn:Et.
    + split; [discriminate|]. intros _ _.
      eapply create_environment_provisioning; eassumption.
    + split; [|intros _ Hne; contradiction]. intros _ _.
      rewrite create_environment_unfold in H. apply String.eqb_neq in En. rewrite En in H.
      unfold bind at 1 in H. rewrite Hc in H. simpl in H. rewrite Et in H.
      inversion H; auto.
  - split; [|split; discriminate]. intros _.
    rewrite create_environment_unfold in H. apply String.eqb_neq in En. rewrite En in H.
    unfold bind at 1 in H. rewrite Hc in H. simpl in H.
    inversion H; auto.
Qed.

(** C10. For a backend string other than ["multipass"] and ["lxd"] the
    availability check answers [True] in the world it was called in (no
    probe is run), and [create_environment] with a non-empty name and a
    known template raises, in that same world, the creation error wrapping
    "Unsupported backend", not the unavailable-backend error; whatever the
    name and template, it never raises the unavailable-backend error. *)
Theorem unsupported_backend_not_unavailable :
  forall (backend : string),
    backend <> "multipass" -> backend <> "lxd" ->
    (forall w, _check_backend_available backend w = (w, Ok true)) /\
    (forall config w,
        cfg_backend config = backend ->
        (cfg_name config <> "" ->
         Templates.get_template (cfg_template config) <> None ->
         create_environment config w
         = (w, Raise (RuntimeErrorFrom "Failed to create environment: "
                        (ValueError ("Unsupported backend: " ++ backend))))) /\
        (forall w' r,
            create_environment config w = (w', r) ->
            w' = w /\
            r <> Raise (RuntimeError ("Backend " ++ backend ++ " is not available")))).
Proof.
  intros backend Hm Hl.
  apply String.eqb_neq in Hm. apply String.eqb_neq in Hl.
  assert (forall w, _check_backend_available backend w = (w, Ok true)) as Hc.
  { intros w. unfold _check_backend_available, try_except. rewrite Hm, Hl. reflexivity. }
  split; [exact Hc|].
  intros config w <-.
  assert (forall t, Templates.get_template (cfg_template config) = Some t ->
                    cfg_name config <> "" ->
                    create_environment config w
                    = (w, Raise (RuntimeErrorFrom "Failed to create environment: "
                                   (ValueError ("Unsupported backend: " ++ cfg_backend config)))))
    as Hcreate.
  { intros t Et En. rewrite create_environment_unfold.
    apply String.eqb_neq in En. rewrite En.
    unfold bind at 1. rewrite Hc. simpl. rewrite Et.
    unfold try_except, bind, provision, raise. rewrite Hm, Hl. reflexivity. }
  split.
  - intros En Et.
    destruct (Templates.get_template (cfg_template config)) as [t|] eqn:E; [|contradiction].
    apply (Hcreate t); auto.
  - intros w' r H.
    destruct (String.eqb_spec (cfg_name config) "") as [En|En].
    + rewrite create_environment_unfold in H. apply String.eqb_eq in En. rewrite En in H.
      inversion H; subst. split; [reflexivity | discriminate].
    + destruct (Templates.get_template (cfg_template config)) as [t|] eqn:E.
      * rewrite (Hcreate t eq_refl En) in H. inversion H; subst.
        split; [reflexivity | discriminate].
      * rewrite create_environment_unfold in H. apply String.eqb_neq in En. rewrite En in H.
        unfold bind at 1 in H. rewrite Hc in H. simpl in H. rewrite E in H.
        inversion H; subst. split; [reflexivity | discriminate].
Qed.

End Creation.

(** ** Round trip through the registry *)

Section RoundTrip.

Context {P : Platform}.

Lemma lookup_assign_same k v d : Dyn.lookup k (Dyn.assign k v d) = Some v.
Proof.
  induction d as [|[k' v'] d IH]; simpl.
  - rewrite String.eqb_refl. reflexivity.
  - destruct (k' =? k) eqn:E; simpl; rewrite E; auto.
Qed.



End RoundTrip.

(** ** The mount lister of the container backend *)

Section LxdMounts.

Context {P : Platform}.

Lemma prefix_split p : forall s, String.prefix p s = true -> exists t, s = (p ++ t)%string.
Proof.
  induction p as [|a p IH]; intros s H; simpl in *.
  - exists s. reflexivity.
  - destruct s as [|b s]; [discriminate|].
    cbn in H. destruct (Ascii.ascii_dec a b) as [->|]; [|discriminate].
    destruct (IH _ H) as [t ->]. exists t. reflexivity.
Qed.

(** The subscript [1] of [line.split("source:", 1)] and of
    [line.split("path:", 1)] exists on the lines where it is taken. *)
Lemma after_key_source line :
  Py.startswith line "    source:" = true -> exists s, after_key "source:" line = Ok s.
Proof.
  unfold Py.startswith. intros H. apply prefix_split in H. destruct H as [t ->].
  unfold after_key, Py.split_once. simpl. eauto.
Qed.

Lemma after_key_path line :
  Py.startswith line "    path:" = true -> exists s, after_key "path:" line = Ok s.
Proof.
  unfold Py.startswith. intros H. apply prefix_split in H. destruct H as [t ->].
  unfold after_key, Py.split_once. simpl. eauto.
Qed.

(** No iteration of the parsing loop raises or touches [mounts]. *)
Lemma lxd_parse_line_mounts line st :
  exists st', lxd_parse_line line st = Ok st' /\ parsed_mounts st' = parsed_mounts st.
Proof.
  unfold lxd_parse_line.
  destruct (Py.strip line =? "devices:"); [eauto|].
  destruct (in_devices st); [|eauto].
  destruct (Py.startswith line "  " && Py.contains ":" line
            && negb (Py.startswith line "    ")); [eauto|].
  destruct (Py.startswith line "    type: disk" && device_set (current_device st)); [eauto|].
  destruct (Py.startswith line "    source:") eqn:Es; simpl.
  - destruct (device_set (current_device st)); simpl.
    + destruct (after_key_source _ Es) as [s ->]. simpl. eauto.
    + destruct (Py.startswith line "    path:") eqn:Ep; simpl; eauto.
  - destruct (Py.startswith line "    path:") eqn:Ep; simpl; [|eauto].
    destruct (device_set (current_device st)); simpl; [|eauto].
    destruct (after_key_path _ Ep) as [s ->]. simpl. eauto.
Qed.

Lemma lxd_parse_lines_mounts lines :
  forall st, exists st',
    lxd_parse_lines lines st = Ok st' /\ parsed_mounts st' = parsed_mounts st.
Proof.
  induction lines as [|line rest IH]; intros st; simpl.
  - eauto.
  - destruct (lxd_parse_line_mounts line st) as (st1 & -> & M1). simpl.
    destruct (IH st1) as (st2 & -> & M2). exists st2. split; congruence.
Qed.

Lemma get_lxd_mounts_str name w :
  exists w', _get_lxd_mounts (JStr name) w = (w', Ok []).
Proof.
  unfold _get_lxd_mounts, try_except, bind, as_arg, ret, lift.
  destruct (run_command_cases ["lxc"; "config"; "show"; name] w)
    as (h & o & E & [[So [out R]]|[So [msg R]]]); simpl in R; rewrite R; simpl.
  - destruct (lxd_parse_lines_mounts (Py.split_char (ascii_of_nat 10) out)
                (Build_lxd_parse false None None None [])) as (st & -> & M).
    simpl in *. rewrite M. eauto.
  - eauto.
Qed.

Lemma get_lxd_mounts_Ok name w w' mounts :
  _get_lxd_mounts name w = (w', Ok mounts) -> mounts = [].
Proof.
  destruct name;
    try (unfold _get_lxd_mounts, try_except, bind, as_arg, raise; simpl; discriminate).
  destruct (get_lxd_mounts_str s w) as [w0 ->]. intros H. inversion H. reflexivity.
Qed.

(** C8. For every name and every host (hence every output of the
    config-show command, and also when that command fails) the mount lister
    of the container backend returns the empty list without raising;
    consequently every record of the listing that comes from the LXD backend
    has no mounts. *)
Theorem lxd_mounts_always_empty :
  (forall (name : string) (w : world),
      exists w', _get_lxd_mounts (JStr name) w = (w', Ok [])) /\
  (forall (w w' : world) (envs : list Environment),
      list_environments w = (w', Ok envs) ->
      forall e, In e envs -> env_backend e = "lxd" -> env_mounts e = []).
Proof.
  split; [exact get_lxd_mounts_str|].
  intros w w' envs H.
  apply (proj1 (Forall_forall (fun e => env_backend e = "lxd" -> env_mounts e = []) envs)).
  eapply (list_environments_Forall (f := env_file w)); [| | reflexivity | exact H].
  - intros item v v' e _ E Hb. apply multipass_entry_shape in E.
    destruct E as (? & B & _). congruence.
  - intros item v v' e _ E _. apply lxd_entry_shape in E.
    destruct E as (v2 & v3 & _ & _ & Hm). eapply get_lxd_mounts_Ok; exact Hm.
Qed.

End LxdMounts.

(** ** A failing backend does not break the listing *)

Section Degradation.

Context {P : Platform}.





End Degradation.

(** ** The address of a container *)

Section Addresses.

Context {P : Platform}.

Lemma scan_addresses_view addrs : forall view ip,
  view_addresses addrs = Some view ->
  scan_addresses addrs ip
  = Ok (match filter is_inet view with a :: _ => snd a | [] => ip end).
Proof.
  induction addrs as [|addr rest IH]; intros view ip H; simpl in H.
  - inversion H; subst. reflexivity.
  - unfold view_address in H.
    destruct (Dyn.getitem addr "family") as [family|] eqn:Ef; [|discriminate].
    destruct (Dyn.getitem addr "address") as [address|] eqn:Ea; [|discriminate].
    destruct (view_addresses rest) as [r|] eqn:Er; [|discriminate].
    inversion H; subst. simpl. rewrite Ef. simpl. unfold is_inet at 1. simpl.
    destruct (Dyn.is_str family "inet"); [exact Ea | apply IH; reflexivity].
Qed.

Lemma scan_interfaces_view items : forall interfaces,
  view_network items = Some interfaces ->
  (forall i a, In i interfaces -> In a (snd i) ->
               Dyn.is_str (snd a) "Not available" = false) ->
  scan_interfaces items (JStr "Not available") = Ok (spec_first_ipv4 interfaces).
Proof.
  induction items as [|[interface data] rest IH]; intros interfaces H Hs; simpl in H.
  - inversion H; subst. reflexivity.
  - unfold view_interface in H.
    destruct (Dyn.getitem data "addresses") as [[| | | |addrs|]|] eqn:Ed; try discriminate.
    destruct (view_addresses addrs) as [view|] eqn:Ev; [|discriminate].
    destruct (view_network rest) as [r|] eqn:Er; [|discriminate].
    inversion H; subst. clear H.
    assert (scan_interfaces rest (JStr "Not available") = Ok (spec_first_ipv4 r)) as IHr.
    { apply IH; [reflexivity|]. intros i a Hi Ha. apply (Hs i a); simpl; auto. }
    unfold spec_first_ipv4. simpl.
    destruct (interface =? "lo"); simpl; [exact IHr|].
    rewrite Ed. simpl. rewrite filter_app.
    destruct addrs as [|addr addrs']; simpl Dyn.truthy; cbv iota.
    + simpl in Ev. inversion Ev; subst. simpl. exact IHr.
    + rewrite (scan_addresses_view _ (JStr "Not available") Ev).
      destruct (filter is_inet view) as [|a found] eqn:Ef; simpl.
      * exact IHr.
      * rewrite (Hs (interface, view) a); simpl; auto.
        assert (In a (filter is_inet view)) as Hin by (rewrite Ef; simpl; auto).
        apply filter_In in Hin. tauto.
Qed.

(** The scan of a well-formed network report. *)
Lemma lxd_ip_view container state items interfaces :
  Dyn.getitem container "state" = Ok state ->
  Dyn.getitem state "network" = Ok (JObj items) ->
  view_network items = Some interfaces ->
  (forall i a, In i interfaces -> In a (snd i) ->
               Dyn.is_str (snd a) "Not available" = false) ->
  lxd_ip container = Ok (spec_first_ipv4 interfaces).
Proof.
  intros Hstate Hnet Hview Hs.
  unfold lxd_ip. rewrite Hstate. simpl.
  destruct state as [| | | | |fields]; simpl in Hnet; try discriminate.
  destruct fields as [|kv fields]; [discriminate|].
  simpl Dyn.truthy. cbv iota.
  change (Dyn.getitem (JObj (kv :: fields)) "network") with
      (match Dyn.lookup "network" (kv :: fields) with
       | Some x => Ok x | None => @Raise json KeyError end) in *.
  rewrite Hnet. simpl rbind.
  destruct items as [|item items'].
  - simpl in Hview. inversion Hview; subst. reflexivity.
  - simpl Dyn.truthy. cbv iota. simpl rbind.
    apply scan_interfaces_view; assumption.
Qed.

(** C5. For a container whose network report is well formed and in which
    no address is the sentinel text, the ip computed for the container, which
    is the ip of the record the listing builds for it, is the first address
    of family ["inet"] found in the interfaces other than ["lo"], scanned in
    the reported order, and the sentinel ["Not available"] when there is
    none. *)
Theorem lxd_ip_first_ipv4 :
  forall (container state : json) (items : list (string * json))
         (interfaces : list (string * list (json * json))),
    Dyn.getitem container "state" = Ok state ->
    Dyn.getitem state "network" = Ok (JObj items) ->
    view_network items = Some interfaces ->
    (forall i a, In i interfaces -> In a (snd i) ->
                 Dyn.is_str (snd a) "Not available" = false) ->
    lxd_ip container = Ok (spec_first_ipv4 interfaces) /\
    (forall (w w' : world) (e : Environment),
        lxd_entry container w = (w', Ok e) -> env_ip e = spec_first_ipv4 interfaces).
Proof.
  intros container state items interfaces Hstate Hnet Hview Hs.
  pose proof (lxd_ip_view _ Hstate Hnet Hview Hs) as Hip.
  split; [exact Hip|].
  intros w w' e He. apply lxd_entry_ip in He. congruence.
Qed.

End Addresses.

(** * The properties on the small host *)

(** The listing on these worlds. *)
Example list_dev_running :
  snd (@list_environments Lab.platform Lab.dev_running)
  = Ok [Lab.dev_env "Running" "python-dev"].
Proof. vm_compute. reflexivity. Qed.

Example list_box_running :
  snd (@list_environments Lab.platform Lab.box_running) = Ok [Lab.box_env].
Proof. vm_compute. reflexivity. Qed.

(** Title-casing of the states the tools report. *)
Example title_of_states :
  (Py.title "RUNNING", Py.title "stopped", Py.title "Running") = ("Running", "Stopped", "Running").
Proof. reflexivity. Qed.

(** The commands of a creation on the empty host, oldest first. *)
Example create_dev_commands :
  rev (log (fst (@create_environment Lab.platform Lab.dev_config Lab.empty_world)))
  = [Ran ["multipass"; "version"] (Exited0 "multipass 1.14.0");
     Ran ["multipass"; "launch"; "--cpus"; "2"; "--memory"; "2048M"; "--disk"; "10G";
          "22.04"; "--name"; "dev"] (Exited0 "");
     Ran ["multipass"; "exec"; "dev"; "--"; "cloud-init"; "status"; "--wait"] (Exited0 "");
     Ran ["multipass"; "mount"; "/home/me/src"; "dev:/src"] (Exited0 "");
     Ran ["multipass"; "exec"; "dev"; "--"; "apt"; "update"] (Exited0 "");
     Ran ["multipass"; "exec"; "dev"; "--"; "apt"; "install"; "-y"; "curl"; "wget"; "git";
          "vim"; "htop"; "tree"; "unzip"; "build-essential"; "software-properties-common";
          "apt-transport-https"] (Exited0 "");
     Ran ["multipass"; "exec"; "dev"; "--"; "bash"; "-c";
          "# Set up basic development environment"] (Exited0 "");
     Ran ["multipass"; "exec"; "dev"; "--"; "bash"; "-c";
          "git config --global init.defaultBranch main"] (Exited0 "");
     Ran ["multipass"; "exec"; "dev"; "--"; "bash"; "-c";
          "echo 'export EDITOR=vim' >> ~/.bashrc"] (Exited0 "")].
Proof. vm_compute. reflexivity. Qed.

(** Deleting the running [dev] empties the registry. *)
Example delete_dev_registry :
  env_file (fst (@delete_environment Lab.platform "dev" Lab.dev_running)) = Holds (JObj []).
Proof. vm_compute. reflexivity. Qed.

(** Opening a shell on the running [dev]: two terminals are missing, the
    third one is started. *)
Example open_shell_dev :
  firstn 4 (log (fst (@open_shell Lab.platform "dev" Lab.dev_running)))
  = [Spawned ["xterm"; "-e"; "bash"; "-c"; "multipass shell dev; exec bash"] true;
     Ran ["xterm"; "--version"] (Exited0 "");
     Ran ["konsole"; "--version"] NotFound;
     Ran ["gnome-terminal"; "--version"] NotFound].
Proof. vm_compute. reflexivity. Qed.




(** Starting the running [dev] does nothing. *)
Lemma start_stop_idempotent_witness :
  @start_environment Lab.platform "dev" Lab.dev_running = (Lab.listed Lab.dev_running, Ok tt).
Proof.
  refine (proj1 (proj2 (@start_stop_idempotent Lab.platform "dev" Lab.dev_running _
                          [Lab.dev_env "Running" "python-dev"]
                          (Lab.dev_env "Running" "python-dev") _ _)) _).
  - vm_compute. reflexivity.
  - vm_compute. reflexivity.
  - reflexivity.
Defined.

(** The example of the specification: [lo] is skipped, the IPv4 address of
    [eth0] is reported. *)
Lemma lxd_ip_first_ipv4_witness :
  lxd_ip (Lab.container_document "box" "Running" Lab.example_network)
  = Ok (JStr "10.0.3.7").
Proof.
  refine (proj1 (@lxd_ip_first_ipv4 Lab.platform
            (Lab.container_document "box" "Running" Lab.example_network)
            (JObj [("status", JStr "Running"); ("network", Lab.example_network)])
            [("lo", JObj [("addresses",
                           JArr [JObj [("family", JStr "inet");
                                       ("address", JStr "127.0.0.1")]])]);
             ("eth0", JObj [("addresses",
                             JArr [JObj [("family", JStr "inet6");
                                         ("address", JStr "fd42:1::7")];
                                   JObj [("family", JStr "inet");
                                         ("address", JStr "10.0.3.7")]])])]
            [("lo", [(JStr "inet", JStr "127.0.0.1")]);
             ("eth0", [(JStr "inet6", JStr "fd42:1::7"); (JStr "inet", JStr "10.0.3.7")])]
            _ _ _ _)).
  - reflexivity.
  - reflexivity.
  - reflexivity.
  - intros i a [<-|[<-|[]]]; simpl; intros H;
      repeat (destruct H as [<-|H]; [reflexivity|]); destruct H.
Defined.

(** Creating [dev] again while it exists: the launch fails, the registry
    is untouched. *)
Lemma create_environment_failures_witness :
  env_file (fst (@create_environment Lab.platform Lab.dev_config Lab.dev_running))
  = env_file Lab.dev_running.
Proof.
  pose proof (@create_environment_failures Lab.platform Lab.dev_config Lab.dev_running
                (fst (@create_environment Lab.platform Lab.dev_config Lab.dev_running))
                (snd (@create_environment Lab.platform Lab.dev_config Lab.dev_running))) as H.
  destruct H as [_ H]; [vm_compute; reflexivity|].
  destruct (H ltac:(discriminate)
              (fst (@_check_backend_available Lab.platform "multipass" Lab.dev_running)) true)
    as (_ & _ & _ & Hp); [vm_compute; reflexivity|].
  destruct (Hp eq_refl ltac:(discriminate)) as (evs & L & Hfail & _).
  assert (evs = [Ran ["multipass"; "launch"; "--cpus"; "2"; "--memory"; "2048M";
                      "--disk"; "10G"; "22.04"; "--name"; "dev"]
                   (ExitedNonZero "launch failed: instance already exists")]) as E.
  { apply (app_inv_tail
             (log (fst (@_check_backend_available Lab.platform "multipass" Lab.dev_running)))).
    rewrite <- L. vm_compute. reflexivity. }
  apply Hfail. rewrite E. reflexivity.
Defined.

(** Opening a shell on the stopped [dev]. *)
Lemma open_shell_requires_running_witness :
  @open_shell Lab.platform "dev" Lab.dev_stopped
  = (Lab.listed Lab.dev_stopped, Raise (RuntimeError "Environment 'dev' is not running")).
Proof.
  refine (proj1 (proj2 (@open_shell_requires_running Lab.platform "dev" Lab.dev_stopped _
                          (Ok [Lab.dev_env "Stopped" "python-dev"]) _))
            _ (Lab.dev_env "Stopped" "python-dev") eq_refl _ _).
  - vm_compute. reflexivity.
  - vm_compute. reflexivity.
  - discriminate.
Defined.

(** The container [box] has a disk device, and is Lab.listed without mounts. *)
Lemma lxd_mounts_always_empty_witness : env_mounts Lab.box_env = [].
Proof.
  refine (proj2 (@lxd_mounts_always_empty Lab.platform) Lab.box_running (Lab.listed Lab.box_running)
            [Lab.box_env] _ Lab.box_env _ _).
  - vm_compute. reflexivity.
  - left. reflexivity.
  - reflexivity.
Defined.

(** Starting the stopped [dev] runs the start command of multipass. *)
Lemma lifecycle_commands_witness :
  exists evs completed, Trace [["multipass"; "start"; "dev"]] evs completed.
Proof.
  destruct (proj1 (@lifecycle_commands Lab.platform "dev" Lab.dev_stopped (Lab.listed Lab.dev_stopped)
                     [Lab.dev_env "Stopped" "python-dev"]
                     (Lab.dev_env "Stopped" "python-dev")
                     ltac:(vm_compute; reflexivity) ltac:(vm_compute; reflexivity))
              ltac:(discriminate)
              (fst (@start_environment Lab.platform "dev" Lab.dev_stopped))
              (snd (@start_environment Lab.platform "dev" Lab.dev_stopped))
              ltac:(vm_compute; reflexivity))
    as (evs & completed & _ & T & _).
  exists evs, completed. exact T.
Defined.

(** A backend the manager does not know. *)
Lemma unsupported_backend_not_unavailable_witness :
  @create_environment Lab.platform
    (Build_Config "dev" "docker" "ubuntu-basic" [] (Build_Resources None None None))
    Lab.empty_world
  = (Lab.empty_world,
     Raise (RuntimeErrorFrom "Failed to create environment: "
              (ValueError "Unsupported backend: docker"))).
Proof.
  refine (proj1 (proj2 (@unsupported_backend_not_unavailable Lab.platform "docker" _ _)
                   (Build_Config "dev" "docker" "ubuntu-basic" []
                      (Build_Resources None None None))
                   Lab.empty_world eq_refl) _ _).
  - discriminate.
  - discriminate.
  - discriminate.
  - vm_compute. discriminate.
Defined.

(** * Further properties *)

(** ** Names that are not listed, and what the listing leaves alone *)

Section Absent.

Context {P : Platform}.

(** X1. When the listing succeeds and no record carries [name], each of
    [start_environment], [stop_environment], [delete_environment],
    [open_shell] and [get_environment_info] raises the not-found error in the
    world the listing left: nothing was run after the listing, and the
    registry file is the one the operation started with. *)
Theorem operations_not_found :
  forall (name : string) (w w1 : world) (envs : list Environment),
    list_environments w = (w1, Ok envs) ->
    find_env name envs = None ->
    let missing := RuntimeError ("Environment '" ++ name ++ "' not found") in
    start_environment name w = (w1, Raise missing) /\
    stop_environment name w = (w1, Raise missing) /\
    delete_environment name w = (w1, Raise missing) /\
    open_shell name w = (w1, Raise missing) /\
    get_environment_info name w = (w1, Raise missing) /\
    env_file w1 = env_file w.
Proof.
  intros name w w1 envs Hlist Hfind missing.
  repeat split.
  - unfold start_environment, bind. rewrite Hlist, Hfind. reflexivity.
  - unfold stop_environment, bind. rewrite Hlist, Hfind. reflexivity.
  - unfold delete_environment, bind. rewrite Hlist, Hfind. reflexivity.
  - unfold open_shell, bind. rewrite Hlist, Hfind. reflexivity.
  - unfold get_environment_info, bind. rewrite Hlist, Hfind. reflexivity.
  - apply emits_list_environments in Hlist. tauto.
Qed.

(** X2. Whatever the tools answer, [list_environments] leaves the registry
    file as it was and runs only the version, list, multipass-info and
    lxc-config-show commands. *)
Theorem listing_is_read_only :
  forall (w w' : world) (r : result (list Environment)),
    list_environments w = (w', r) ->
    env_file w' = env_file w /\ storage w' = storage w /\
    exists evs, log w' = evs ++ log w /\ forallb is_query evs = true.
Proof.
  intros w w' r H. apply emits_list_environments in H. exact H.
Qed.

End Absent.

Lemma operations_not_found_witness :
  @start_environment Lab.platform "prod" Lab.dev_running
  = (Lab.listed Lab.dev_running, Raise (RuntimeError "Environment 'prod' not found")).
Proof.
  refine (proj1 (@operations_not_found Lab.platform "prod" Lab.dev_running _
                   [Lab.dev_env "Running" "python-dev"] _ _)).
  - vm_compute. reflexivity.
  - vm_compute. reflexivity.
Defined.

Lemma listing_is_read_only_witness :
  env_file (Lab.listed Lab.dev_running) = env_file Lab.dev_running.
Proof.
  refine (proj1 (@listing_is_read_only Lab.platform Lab.dev_running _
                   (snd (@list_environments Lab.platform Lab.dev_running)) _)).
  vm_compute. reflexivity.
Defined.

(** ** Order and provenance of the listed records *)

Section Order.

Context {P : Platform}.

Lemma append_each_app (Q : Environment -> Prop) entry items :
  (forall item w w' e, entry item w = (w', Ok e) -> Q e) ->
  forall environments w w' envs' x,
    append_each entry items environments w = (w', (envs', x)) ->
    exists records, envs' = environments ++ records /\ Forall Q records.
Proof.
  intros Hq. induction items as [|item rest IH]; intros environments w w' envs' x H;
    simpl in H.
  - inversion H; subst. exists []. rewrite app_nil_r. auto.
  - destruct (entry item w) as [w1 [env|e]] eqn:E.
    + apply IH in H. destruct H as (records & -> & Hall).
      exists (env :: records). rewrite <- app_assoc. split; [reflexivity|].
      constructor; eauto.
    + inversion H; subst. exists []. rewrite app_nil_r. auto.
Qed.

Lemma list_backend_app (Q : Environment -> Prop) backend block environments :
  (forall envs w w' envs' x,
      block envs w = (w', (envs', x)) ->
      exists records, envs' = envs ++ records /\ Forall Q records) ->
  forall w w' envs',
    list_backend backend block environments w = (w', Ok envs') ->
    exists records, envs' = environments ++ records /\ Forall Q records.
Proof.
  intros Hb w w' envs' H. unfold list_backend, bind in H.
  destruct (_check_backend_available backend w) as [w1 [[|]|e]] eqn:E; [| |discriminate].
  - destruct (block environments w1) as [w2 [envs2 [e|]]] eqn:B.
    + destruct (is_listing_error e); inversion H; subst; eauto.
    + inversion H; subst. eauto.
  - inversion H; subst. exists []. rewrite app_nil_r. auto.
Qed.

(** X3. The records of a listing are the multipass records followed by
    the LXD records: no sorting or interleaving across backends. *)
Theorem listing_order :
  forall (w w' : world) (envs : list Environment),
    list_environments w = (w', Ok envs) ->
    exists vms containers,
      envs = vms ++ containers /\
      Forall (fun e => env_backend e = "multipass") vms /\
      Forall (fun e => env_backend e = "lxd") containers.
Proof.
  intros w w' envs H. unfold list_environments, bind in H.
  destruct (list_backend "multipass" multipass_block [] w) as [w1 [envs1|e]] eqn:E1;
    [|discriminate].
  eapply (list_backend_app (Q := fun e => env_backend e = "multipass")) in E1.
  - destruct E1 as (vms & -> & Hv). simpl in H.
    eapply (list_backend_app (Q := fun e => env_backend e = "lxd")) in H.
    + destruct H as (containers & -> & Hc). eauto.
    + intros envs0 v v' envs0' x B. unfold lxd_block in B.
      match type of B with
      | match ?m v with _ => _ end = _ => destruct (m v) as [v1 [containers|e]] eqn:E
      end.
      * eapply append_each_app; [|exact B].
        intros item u u' e0 He. apply lxd_entry_shape in He.
        destruct He as (? & ? & Hb & _). exact Hb.
      * inversion B; subst. exists []. rewrite app_nil_r. auto.
  - intros envs0 v v' envs0' x B. unfold multipass_block in B.
    match type of B with
    | match ?m v with _ => _ end = _ => destruct (m v) as [v1 [instances|e]] eqn:E
    end.
    + eapply append_each_app; [|exact B].
      intros item u u' e0 He. apply multipass_entry_shape in He.
      destruct He as (? & Hb & _). exact Hb.
    + inversion B; subst. exists []. rewrite app_nil_r. auto.
Qed.

(** The template read from a registry that has no entry for the name. *)
Lemma template_unknown d name w w' t :
  _load_environments_config w = (w, Ok (JObj d)) ->
  (forall n, name = JStr n -> Dyn.lookup n d = None) ->
  _get_environment_template name w = (w', Ok t) ->
  t = JStr "Unknown".
Proof.
  intros Hl Hn H. unfold _get_environment_template, bind, lift in H. rewrite Hl in H.
  destruct name; simpl in H; try (inversion H; reflexivity); try discriminate.
  rewrite (Hn s eq_refl) in H. simpl in H. inversion H. reflexivity.
Qed.

Lemma load_same_file w v :
  env_file v = env_file w ->
  forall j, _load_environments_config w = (w, Ok j) ->
            _load_environments_config v = (v, Ok j).
Proof.
  intros F j H. unfold _load_environments_config in *. rewrite F.
  destruct (env_file w); inversion H; subst; reflexivity.
Qed.

(** X4. When the registry that the loader returns has no entry for the
    name of a listed record, the template of the record is ["Unknown"].  (The
    loader returns the empty dict for a missing file, so that every record
    listed without a registry file has the template ["Unknown"].) *)
Theorem listing_template_unknown :
  forall (w w' : world) (envs : list Environment) (d : list (string * json)),
    list_environments w = (w', Ok envs) ->
    _load_environments_config w = (w, Ok (JObj d)) ->
    forall e, In e envs ->
              (forall n, env_name e = JStr n -> Dyn.lookup n d = None) ->
              env_template e = JStr "Unknown".
Proof.
  intros w w' envs d Hlist Hload.
  apply (proj1 (Forall_forall
                  (fun e => (forall n, env_name e = JStr n -> Dyn.lookup n d = None) ->
                            env_template e = JStr "Unknown") envs)).
  eapply (list_environments_Forall (f := env_file w)); [| | reflexivity | exact Hlist].
  - intros item v v' e Fv E Hn. apply multipass_entry_shape in E.
    destruct E as (v2 & _ & T).
    eapply template_unknown; [eapply load_same_file; eassumption | exact Hn | exact T].
  - intros item v v' e Fv E Hn. apply lxd_entry_shape in E.
    destruct E as (v2 & v3 & _ & T & _).
    eapply template_unknown; [eapply load_same_file; eassumption | exact Hn | exact T].
Qed.

(** A registry document that is not an object cannot give a template. *)
Lemma template_needs_object j name w w' t :
  env_file w = Holds j ->
  (forall d, j <> JObj d) ->
  _get_environment_template name w = (w', Ok t) -> False.
Proof.
  intros F Hj H. unfold _get_environment_template, bind, lift, _load_environments_config in H.
  rewrite F in H. destruct j; simpl in H; try discriminate.
  eapply Hj. reflexivity.
Qed.

(** No record can be built while the registry file holds a document that
    is not an object. *)
Lemma listing_records_need_object w w' envs j :
  env_file w = Holds j ->
  (forall d, j <> JObj d) ->
  list_environments w = (w', Ok envs) ->
  Forall (fun _ => False) envs.
Proof.
  intros F Hj Hlist.
  eapply (list_environments_Forall (f := Holds j)); [| | exact F | exact Hlist].
  - intros item v v' e Fv E. apply multipass_entry_shape in E.
    destruct E as (v2 & _ & T). eapply template_needs_object; eassumption.
  - intros item v v' e Fv E. apply lxd_entry_shape in E.
    destruct E as (v2 & v3 & _ & T & _). eapply template_needs_object; eassumption.
Qed.

(** X5. When the registry file holds a JSON document that is not an
    object, a listing that returns normally returns no record: as soon as a
    backend reports an instance, looking up its template raises an error
    that the listing does not catch. *)
Theorem listing_needs_object_registry :
  forall (w w' : world) (envs : list Environment) (j : json),
    env_file w = Holds j ->
    (forall d, j <> JObj d) ->
    list_environments w = (w', Ok envs) ->
    envs = [].
Proof.
  intros w w' envs j F Hj Hlist.
  assert (Forall (fun _ => False) envs) as Hall
      by (eapply listing_records_need_object; eassumption).
  destruct envs as [|e envs]; [reflexivity|]. inversion Hall; contradiction.
Qed.

End Order.

(** ** A listing cut short *)

Section Prefix.

Context {P : Platform}.

Lemma append_each_prefix (R : json -> Environment -> Prop) entry items :
  (forall item w w' e, entry item w = (w', Ok e) -> R item e) ->
  forall environments w w' envs' x,
    append_each entry items environments w = (w', (envs', x)) ->
    exists kept dropped records w2,
      items = kept ++ dropped /\
      envs' = environments ++ records /\
      Records entry w kept records w2 /\
      Forall2 R kept records /\
      match x with
      | None => dropped = [] /\ w' = w2
      | Some e => exists item later,
          dropped = item :: later /\ entry item w2 = (w', Raise e)
      end.
Proof.
  intros Hr. induction items as [|item rest IH]; intros environments w w' envs' x H;
    simpl in H.
  - inversion H; subst. exists [], [], [], w'.
    split; [reflexivity|]. split; [symmetry; apply app_nil_r|].
    split; [constructor|]. split; [constructor | split; reflexivity].
  - destruct (entry item w) as [w1 [env|e]] eqn:E.
    + apply IH in H. destruct H as (kept & dropped & records & w2 & -> & -> & Rs & Hall & Hx).
      exists (item :: kept), dropped, (env :: records), w2.
      rewrite <- app_assoc. split; [reflexivity|]. split; [reflexivity|].
      split; [econstructor; eassumption|]. split; [constructor; eauto | exact Hx].
    + inversion H; subst. exists [], (item :: rest), [], w.
      split; [reflexivity|]. split; [symmetry; apply app_nil_r|]. split; [constructor|].
      split; [constructor|]. exists item, rest. split; [reflexivity | exact E].
Qed.

Lemma multipass_entry_name instance w w' e :
  multipass_entry instance w = (w', Ok e) -> Dyn.getitem instance "name" = Ok (env_name e).
Proof.
  unfold multipass_entry. intros H.
  apply bind_Ok in H. destruct H as (w1 & name & H1 & H).
  apply bind_Ok in H. destruct H as (w2 & status & H2 & H).
  apply bind_Ok in H. destruct H as (w3 & ip & H3 & H).
  apply bind_Ok in H. destruct H as (w4 & template & H4 & H).
  apply bind_Ok in H. destruct H as (w5 & mounts & H5 & H).
  apply lift_Ok in H1. destruct H1 as [_ ->].
  inversion H; subst. reflexivity.
Qed.

Lemma lxd_entry_name container w w' e :
  lxd_entry container w = (w', Ok e) -> Dyn.getitem container "name" = Ok (env_name e).
Proof.
  unfold lxd_entry. intros H.
  apply bind_Ok in H. destruct H as (w1 & status & H1 & H).
  apply bind_Ok in H. destruct H as (w2 & ip & H2 & H).
  apply bind_Ok in H. destruct H as (w3 & name & H3 & H).
  apply bind_Ok in H. destruct H as (w4 & template & H4 & H).
  apply bind_Ok in H. destruct H as (w5 & mounts & H5 & H).
  apply lift_Ok in H3. destruct H3 as [_ ->].
  inversion H; subst. reflexivity.
Qed.

(** X6. The records a backend adds to the listing are the records of the
    instances that come before the first instance whose record cannot be
    built: the instances of the list document split into those kept and
    those dropped; the record of every kept instance is built, in the order
    of the document, each in the world the previous one left, and carries
    the name of its instance; these records, in this order, are what is
    appended to the list.  When no instance raised, none is dropped; when one
    raised, it is the first of the dropped ones, its record raised that error
    in the world the last kept record left, and no later instance is looked
    at. *)
Theorem partial_listing_keeps_prefix :
  forall (entry : json -> M Environment) (environments : list Environment)
         (w w1 w' : world) (items : list json) (envs' : list Environment) (x : option exn),
    (entry = multipass_entry /\
     multipass_instances w = (w1, Ok items) /\
     multipass_block environments w = (w', (envs', x))) \/
    (entry = lxd_entry /\
     lxd_containers w = (w1, Ok items) /\
     lxd_block environments w = (w', (envs', x))) ->
    exists kept dropped records w2,
      items = kept ++ dropped /\
      envs' = environments ++ records /\
      Records entry w1 kept records w2 /\
      Forall2 (fun item e => Dyn.getitem item "name" = Ok (env_name e)) kept records /\
      match x with
      | None => dropped = [] /\ w' = w2
      | Some e => exists item later,
          dropped = item :: later /\ entry item w2 = (w', Raise e)
      end.
Proof.
  intros entry environments w w1 w' items envs' x [(-> & Hi & Hb) | (-> & Hi & Hb)].
  - unfold multipass_block in Hb. fold multipass_instances in Hb. rewrite Hi in Hb.
    eapply append_each_prefix; [|exact Hb].
    intros item v v' e He. eapply multipass_entry_name. exact He.
  - unfold lxd_block in Hb. fold lxd_containers in Hb. rewrite Hi in Hb.
    eapply append_each_prefix; [|exact Hb].
    intros item v v' e He. eapply lxd_entry_name. exact He.
Qed.

End Prefix.

(** ** Opening a shell on a running environment *)

Section Shell.

Context {P : Platform}.

Lemma choose_terminal_probed candidates :
  forall w w' r,
    choose_terminal candidates w = (w', r) ->
    env_file w' = env_file w /\ storage w' = storage w /\
    exists evs chosen,
      r = Ok chosen /\ log w' = rev evs ++ log w /\ Probed candidates evs chosen.
Proof.
  induction candidates as [|term_cmd rest IH]; intros w w' r H; simpl in H.
  - inversion H; subst. repeat split. exists [], None. repeat split. constructor.
  - unfold bind, probe_terminal in H.
    destruct (exec (host w) [hd "" term_cmd; "--version"]) as [h o] eqn:E.
    destruct (succeeded o) eqn:So.
    + inversion H; subst. simpl. repeat split.
      exists [Ran [hd "" term_cmd; "--version"] o], (Some term_cmd).
      repeat split. apply Probed_hit. exact So.
    + apply IH in H. destruct H as (F & S & evs & chosen & -> & L & Pr).
      simpl in F, S, L. repeat split; auto.
      exists (Ran [hd "" term_cmd; "--version"] o :: evs), chosen.
      repeat split.
      * simpl. rewrite <- app_assoc. exact L.
      * apply Probed_miss; assumption.
Qed.

(** X7. On an environment found Running, [open_shell] probes the
    terminal emulators in the order of its list, each with [--version], and
    stops at the first that answers.  If none answers it raises "No suitable
    terminal emulator found" (wrapped) and starts nothing.  Otherwise it
    starts exactly one detached process: that terminal running the shell
    command of the owning backend followed by [exec bash], and returns
    normally when the process started.  The registry file is untouched. *)
Theorem open_shell_spawns_first_terminal :
  forall (name : string) (w w1 w' : world) (envs : list Environment) (env : Environment)
         (r : result unit),
    list_environments w = (w1, Ok envs) ->
    find_env name envs = Some env ->
    env_status env = "Running" ->
    open_shell name w = (w', r) ->
    env_file w' = env_file w /\
    exists evs chosen,
      Probed terminals evs chosen /\
      match chosen with
      | None =>
          log w' = rev evs ++ log w1 /\
          r = Raise (RuntimeErrorFrom "Failed to open shell: "
                       (RuntimeError "No suitable terminal emulator found"))
      | Some terminal_cmd =>
          exists started,
            log w' = Spawned (terminal_cmd
                                ++ [(shell_command name (env_backend env)
                                       ++ "; exec bash")%string]) started
                       :: rev evs ++ log w1 /\
            r = if started : bool then Ok tt
                else Raise (RuntimeErrorFrom "Failed to open shell: " OSError)
      end.
Proof.
  intros name w w1 w' envs env r Hlist Hfind Hst H.
  pose proof Hlist as Hb. apply listed_backend in Hb. rewrite Forall_forall in Hb.
  pose proof Hfind as Hin. apply find_env_In in Hin. specialize (Hb env (proj1 Hin)).
  pose proof Hlist as F1. apply emits_list_environments in F1. destruct F1 as (F1 & _).
  unfold open_shell, bind at 1 in H. rewrite Hlist, Hfind, Hst in H. simpl in H.
  unfold try_except, spawn_shell, bind at 1 in H.
  destruct (choose_terminal terminals w1) as [w2 r2] eqn:C.
  apply choose_terminal_probed in C. destruct C as (F2 & S2 & evs & chosen & -> & L2 & Pr).
  destruct chosen as [terminal_cmd|].
  - assert (exists shell_cmd,
               shell_cmd = shell_command name (env_backend env) /\
               (if env_backend env =? "multipass"
                then ret ("multipass shell " ++ name)%string
                else if env_backend env =? "lxd"
                     then ret ("lxc exec " ++ name ++ " -- /bin/bash")%string
                     else raise UnboundLocalError) w2 = (w2, Ok shell_cmd)) as (shell_cmd & Es & Eq).
    { unfold shell_command. destruct Hb as [Hb | Hb]; rewrite Hb; simpl; eauto. }
    unfold bind in H. rewrite Eq in H. unfold Popen in H.
    destruct (popen (host w2) (terminal_cmd ++ [(shell_cmd ++ "; exec bash")%string]))
      as [h started] eqn:Ep.
    subst shell_cmd.
    destruct started; simpl in H; unfold raise in H; inversion H; subst; simpl.
    + split; [congruence|]. exists evs, (Some terminal_cmd). split; [exact Pr|].
      exists true. rewrite L2. auto.
    + split; [congruence|]. exists evs, (Some terminal_cmd). split; [exact Pr|].
      exists false. rewrite L2. auto.
  - simpl in H. unfold raise in H. inversion H; subst.
    split; [congruence|]. exists evs, None. auto.
Qed.

End Shell.

(** ** Detailed information and mounts *)

Section Details.

Context {P : Platform}.






End Details.

(** ** The registry across creations and deletions *)

Section Registry.

Context {P : Platform}.

Lemma lookup_assign_other k k' v d :
  k' <> k -> Dyn.lookup k' (Dyn.assign k v d) = Dyn.lookup k' d.
Proof.
  intros Hne. induction d as [|[k0 v0] d IH]; simpl.
  - destruct (String.eqb_spec k k'); [congruence | reflexivity].
  - destruct (String.eqb_spec k0 k) as [->|Hk]; simpl.
    + destruct (String.eqb_spec k k'); [congruence | reflexivity].
    + destruct (k0 =? k'); auto.
Qed.

Lemma lookup_remove_other k k' d :
  k' <> k -> Dyn.lookup k' (Dyn.remove k d) = Dyn.lookup k' d.
Proof.
  intros Hne. induction d as [|[k0 v0] d IH]; simpl; [reflexivity|].
  destruct (String.eqb_spec k0 k) as [->|Hk]; simpl.
  - destruct (String.eqb_spec k k'); [congruence | reflexivity].
  - destruct (k0 =? k'); auto.
Qed.

Lemma lookup_None_not_In k d : Dyn.lookup k d = None <-> ~ In k (map fst d).
Proof.
  induction d as [|[k0 v0] d IH]; simpl; [tauto|].
  destruct (String.eqb_spec k0 k) as [->|Hk].
  - split; [discriminate | intros H; exfalso; apply H; auto].
  - rewrite IH. tauto.
Qed.

Lemma lookup_remove_same k d :
  NoDup (map fst d) -> Dyn.lookup k (Dyn.remove k d) = None.
Proof.
  induction d as [|[k0 v0] d IH]; simpl; intros Hnd; [reflexivity|].
  inversion Hnd; subst.
  destruct (String.eqb_spec k0 k) as [->|Hk]; simpl.
  - apply lookup_None_not_In. assumption.
  - apply String.eqb_neq in Hk. rewrite Hk. auto.
Qed.

Lemma remove_assign_fresh k v d :
  Dyn.lookup k d = None -> Dyn.remove k (Dyn.assign k v d) = d.
Proof.
  induction d as [|[k0 v0] d IH]; simpl; intros H.
  - rewrite String.eqb_refl. reflexivity.
  - destruct (k0 =? k) eqn:E; [discriminate|]. simpl. rewrite E. f_equal. auto.
Qed.

(** A creation that returns normally read an object from the registry
    and wrote it back with the new entry. *)
Lemma create_environment_Ok_registry config w w' :
  create_environment config w = (w', Ok tt) ->
  exists d,
    _load_environments_config w = (w, Ok (JObj d)) /\
    env_file w' = Holds (JObj (Dyn.assign (cfg_name config)
                                 (registry_entry (cfg_template config) (cfg_backend config))
                                 d)).
Proof.
  intros H.
  destruct (create_environment_accepted _ _ H) as (En & w1 & template & Hc & Et).
  destruct (@create_environment_provisioning P config template w w1 w' (Ok tt) En Hc Et H)
    as (evs & _ & _ & _ & _ & Hok).
  destruct (Hok eq_refl) as (_ & registry & registry' & Hl & ES & F).
  destruct registry; simpl in ES; try discriminate.
  inversion ES; subst. eauto.
Qed.

(** X10. A creation that returns normally upserts one registry entry:
    the registry file then holds the former registry (the one the loader
    returned) in which the name maps to the entry
    [{template, backend, created: true}] of the request, every other name
    mapping to what it mapped to before. *)
Theorem create_registry_upsert :
  forall (config : Config) (w w' : world),
    create_environment config w = (w', Ok tt) ->
    exists d d',
      _load_environments_config w = (w, Ok (JObj d)) /\
      env_file w' = Holds (JObj d') /\
      Dyn.lookup (cfg_name config) d'
      = Some (registry_entry (cfg_template config) (cfg_backend config)) /\
      (forall k, k <> cfg_name config -> Dyn.lookup k d' = Dyn.lookup k d) /\
      (Dyn.lookup (cfg_name config) d <> None -> map fst d' = map fst d).
Proof.
  intros config w w' H. apply create_environment_Ok_registry in H.
  destruct H as (d & Hl & F).
  exists d, (Dyn.assign (cfg_name config)
               (registry_entry (cfg_template config) (cfg_backend config)) d).
  split; [exact Hl|]. split; [exact F|]. split; [apply lookup_assign_same|].
  split; [intros k Hk; apply lookup_assign_other; exact Hk|].
  clear. induction d as [|[k0 v0] d IH]; simpl; intros Hk; [congruence|].
  destruct (k0 =? cfg_name config) eqn:E; simpl; [reflexivity|].
  f_equal. auto.
Qed.

(** X11. When the loader returns the empty dict, a creation that returns
    normally leaves a registry file that holds the new entry and nothing
    else.  The loader returns the empty dict for a file that holds [{}], for
    a missing file and, its [except] clause catching [JSONDecodeError], for a
    file of text that is not JSON: such a file is overwritten without
    notice. *)
Theorem create_from_empty_registry :
  forall (config : Config) (w w' : world),
    _load_environments_config w = (w, Ok (JObj [])) ->
    create_environment config w = (w', Ok tt) ->
    env_file w'
    = Holds (JObj [(cfg_name config,
                    registry_entry (cfg_template config) (cfg_backend config))]).
Proof.
  intros config w w' Hl0 H. apply create_environment_Ok_registry in H.
  destruct H as (d & Hl & F).
  rewrite Hl0 in Hl. inversion Hl; subst. exact F.
Qed.

(** What the registry update of a creation does to a document that is not
    an object. *)
Lemma register_needs_object config j w :
  env_file w = Holds j -> (forall d, j <> JObj d) ->
  register config w = (w, Raise TypeError).
Proof.
  intros F Hj. unfold register, bind, lift, _load_environments_config. rewrite F.
  destruct j; simpl; try reflexivity. exfalso. eapply Hj. reflexivity.
Qed.

(** X12. When the registry file holds a JSON document that is not an
    object, [create_environment] never returns normally and never changes
    the file: even after every provisioning command has succeeded, adding the
    entry raises, and the creation error is raised with the backend instance
    left in place. *)
Theorem create_needs_object_registry :
  forall (config : Config) (w w' : world) (r : result unit) (j : json),
    env_file w = Holds j ->
    (forall d, j <> JObj d) ->
    create_environment config w = (w', r) ->
    (exists e, r = Raise e) /\
    env_file w' = env_file w /\
    (forall w1 template,
        cfg_name config <> "" ->
        _check_backend_available (cfg_backend config) w = (w1, Ok true) ->
        Templates.get_template (cfg_template config) = Some template ->
        forall w2, provision config template w1 = (w2, Ok tt) ->
                   w' = w2 /\
                   r = Raise (RuntimeErrorFrom "Failed to create environment: " TypeError)).
Proof.
  intros config w w' r j F Hj H.
  rewrite create_environment_unfold in H.
  destruct (cfg_name config =? "") eqn:En.
  { inversion H; subst. split; [eauto|]. split; [reflexivity|].
    intros w1 template Hn. apply String.eqb_neq in Hn. congruence. }
  unfold bind at 1 in H.
  destruct (check_backend_total (cfg_backend config) w) as (w1 & available & Hc).
  rewrite Hc in H. pose proof (proj1 (emits_check_backend _ _ Hc)) as F1.
  destruct available; simpl in H.
  2:{ inversion H; subst. split; [eauto|]. split; [exact F1|].
      intros w0 template _ Hc0. congruence. }
  destruct (Templates.get_template (cfg_template config)) as [template|] eqn:Et.
  2:{ inversion H; subst. split; [eauto|]. split; [exact F1|].
      intros w0 template _ _ Ht. discriminate. }
  unfold try_except, bind in H.
  destruct (provision config template w1) as [w2 r2] eqn:Ep.
  destruct (strict_provision _ _ _ Ep) as (F2 & _).
  destruct r2 as [[]|e2].
  - rewrite (@register_needs_object config j w2) in H by (congruence || assumption).
    unfold raise in H. inversion H; subst.
    split; [eauto|]. split; [congruence|].
    intros w0 template0 _ Hc0 Ht0 w3 Hp.
    assert (w0 = w1) by congruence. assert (template0 = template) by congruence. subst.
    rewrite Ep in Hp. inversion Hp; subst. auto.
  - unfold raise in H. inversion H; subst.
    split; [eauto|]. split; [congruence|].
    intros w0 template0 _ Hc0 Ht0 w3 Hp.
    assert (w0 = w1) by congruence. assert (template0 = template) by congruence. subst.
    rewrite Ep in Hp. discriminate.
Qed.

(** A deletion that returns normally went through the registry update,
    on a world whose registry file is the initial one. *)
Lemma delete_environment_Ok name w w' :
  delete_environment name w = (w', Ok tt) ->
  exists w1 envs env w2,
    list_environments w = (w1, Ok envs) /\
    find_env name envs = Some env /\
    env_file w2 = env_file w /\
    delete_registry name w2 = (w', Ok tt).
Proof.
  intros H. unfold delete_environment, bind at 1 in H.
  destruct (list_environments w) as [w1 [envs|e]] eqn:Hlist; [|discriminate].
  destruct (find_env name envs) as [env|] eqn:Hfind; [|discriminate].
  pose proof (proj1 (emits_list_environments _ Hlist)) as F1.
  unfold try_except, bind in H. rewrite delete_backend_run_all in H.
  destruct (run_all (delete_commands name env) w1) as [w2 r2] eqn:R.
  destruct (run_all_trace _ _ R) as (F2 & _).
  destruct r2 as [[]|e2].
  - destruct (delete_registry name w2) as [w3 r3] eqn:D.
    destruct r3 as [[]|e3].
    + inversion H; subst. exists w1, envs, env, w2. repeat split; auto. congruence.
    + destruct (is_RuntimeError e3); discriminate.
  - destruct (is_RuntimeError e2); discriminate.
Qed.

Lemma delete_registry_Ok name w w' d :
  delete_registry name w = (w', Ok tt) ->
  _load_environments_config w = (w, Ok (JObj d)) ->
  env_file w' = match Dyn.lookup name d with
                | Some _ => Holds (JObj (Dyn.remove name d))
                | None => env_file w
                end.
Proof.
  intros H Hl. unfold delete_registry, bind, lift in H. rewrite Hl in H.
  simpl in H. destruct (Dyn.lookup name d) eqn:Ek.
  - simpl in H. unfold _save_environments_config in H.
    destruct (storage w); inversion H; subst; reflexivity.
  - inversion H; subst. reflexivity.
Qed.

(** When a name is found by the listing, the registry is an object. *)
Lemma found_registry_object name w w1 envs env :
  list_environments w = (w1, Ok envs) ->
  find_env name envs = Some env ->
  exists d, _load_environments_config w = (w, Ok (JObj d)).
Proof.
  intros Hlist Hfind. unfold _load_environments_config.
  destruct (env_file w) as [| |j] eqn:F; eauto.
  destruct j; eauto.
  all: exfalso;
    assert (Forall (fun _ => False) envs) as Hall by
        (eapply listing_records_need_object; [exact F | discriminate | exact Hlist]);
    destruct envs as [|e envs]; [discriminate | inversion Hall; contradiction].
Qed.

(** X13. A deletion that returns normally found the registry to be an
    object and leaves a registry in which every other name maps to what it
    mapped to before; the deleted name has no entry any more (the keys of a
    decoded object being distinct). *)
Theorem delete_registry_frame :
  forall (name : string) (w w' : world),
    delete_environment name w = (w', Ok tt) ->
    exists d d',
      _load_environments_config w = (w, Ok (JObj d)) /\
      _load_environments_config w' = (w', Ok (JObj d')) /\
      (forall k, k <> name -> Dyn.lookup k d' = Dyn.lookup k d) /\
      (NoDup (map fst d) -> Dyn.lookup name d' = None).
Proof.
  intros name w w' H.
  destruct (delete_environment_Ok _ _ H) as (w1 & envs & env & w2 & Hlist & Hfind & F2 & D).
  destruct (@found_registry_object name w w1 envs env Hlist Hfind) as (d & Hl).
  pose proof (@load_same_file P w w2 F2 _ Hl) as Hl2.
  pose proof (@delete_registry_Ok name w2 w' d D Hl2) as F.
  exists d.
  destruct (Dyn.lookup name d) eqn:Ek.
  - exists (Dyn.remove name d). split; [exact Hl|]. split.
    + unfold _load_environments_config. rewrite F. reflexivity.
    + split; [intros k Hk; apply lookup_remove_other; exact Hk|].
      apply lookup_remove_same.
  - exists d. split; [exact Hl|]. split.
    + eapply load_same_file; [|exact Hl]. congruence.
    + auto.
Qed.

(** X14. Creating an environment whose name had no registry entry and
    then deleting it, both returning normally, gives the registry back: the
    file holds exactly the registry the creation started from. *)
Theorem create_then_delete_restores :
  forall (config : Config) (w w1 w1' w2 : world) (d : list (string * json)),
    _load_environments_config w = (w, Ok (JObj d)) ->
    Dyn.lookup (cfg_name config) d = None ->
    create_environment config w = (w1, Ok tt) ->
    env_file w1' = env_file w1 ->
    delete_environment (cfg_name config) w1' = (w2, Ok tt) ->
    env_file w2 = Holds (JObj d).
Proof.
  intros config w w1 w1' w2 d Hl Hk Hc Hf Hd.
  apply create_environment_Ok_registry in Hc. destruct Hc as (d0 & Hl0 & F1).
  assert (d0 = d) as -> by congruence.
  destruct (delete_environment_Ok _ _ Hd) as (v1 & envs & env & v2 & _ & _ & F2 & D).
  assert (_load_environments_config v2
          = (v2, Ok (JObj (Dyn.assign (cfg_name config)
                             (registry_entry (cfg_template config) (cfg_backend config)) d))))
    as Hl2.
  { unfold _load_environments_config. rewrite F2, Hf, F1. reflexivity. }
  rewrite (@delete_registry_Ok _ v2 w2 _ D Hl2), lookup_assign_same.
  rewrite remove_assign_fresh by exact Hk. reflexivity.
Qed.

End Registry.

(** ** Deletion and the registry *)

Section Deletion.

Context {P : Platform}.

Lemma remove_absent k d : Dyn.lookup k d = None -> Dyn.remove k d = d.
Proof.
  induction d as [|[k0 v0] d IH]; simpl; [reflexivity|].
  destruct (k0 =? k); [discriminate|]. intros H. rewrite (IH H). reflexivity.
Qed.

(** C1. Once the listing has found [name], [delete_environment] runs the
    backend commands in order, each after the previous one succeeded, the
    delete command of the owning tool among them.  If one of them fails
    ([completed = false]) the operation raises and the registry file is the
    one it started with; the registry file differs from the initial one only
    if all backend commands succeeded.  When the operation returns normally,
    all backend commands succeeded and the entry of [name] has been removed:
    the registry was an object, the file holds that object without the entry
    (it is the file as it was only when the object had no entry for [name]),
    every other name keeps its entry, and the registry read back has no
    entry for [name] (the keys of a decoded object being distinct). *)
Theorem delete_registry_after_backend :
  forall (name : string) (w w1 w' : world) (envs : list Environment) (env : Environment)
         (r : result unit),
    list_environments w = (w1, Ok envs) ->
    find_env name envs = Some env ->
    delete_environment name w = (w', r) ->
    exists evs completed,
      log w' = rev evs ++ log w1 /\
      Trace (delete_commands name env) evs completed /\
      In [tool env; "delete"; name] (delete_commands name env) /\
      (completed = false ->
       (exists msg, r = Raise (RuntimeErrorFrom "Failed to delete environment: "
                                 (RuntimeError msg))) /\
       env_file w' = env_file w) /\
      (env_file w' <> env_file w ->
       completed = true /\ forallb event_ok evs = true) /\
      (r = Ok tt ->
       completed = true /\
       exists d,
         _load_environments_config w = (w, Ok (JObj d)) /\
         env_file w' = match Dyn.lookup name d with
                       | Some _ => Holds (JObj (Dyn.remove name d))
                       | None => env_file w
                       end /\
         _load_environments_config w' = (w', Ok (JObj (Dyn.remove name d))) /\
         (forall k, k <> name -> Dyn.lookup k (Dyn.remove name d) = Dyn.lookup k d) /\
         (NoDup (map fst d) -> Dyn.lookup name (Dyn.remove name d) = None)).
Proof.
  intros name w w1 w' envs env r Hlist Hfind H.
  destruct (@delete_environment_found P name w w1 envs env w' r Hlist Hfind H)
    as (evs & completed & L & T & Hf & Hc & Hok).
  exists evs, completed.
  split; [exact L|]. split; [exact T|]. split; [|split; [exact Hf|split]].
  - pose proof Hlist as Hb. apply listed_backend in Hb. rewrite Forall_forall in Hb.
    pose proof Hfind as Hin. apply find_env_In in Hin. specialize (Hb env (proj1 Hin)).
    unfold delete_commands, tool.
    destruct Hb as [-> | ->]; simpl; destruct (env_status env =? "Running"); simpl; auto.
  - intros Hne. pose proof (Hc Hne) as ->. split; [reflexivity|].
    eapply Trace_completed_ok. exact T.
  - intros ->. split; [exact (proj1 (Hok eq_refl))|].
    destruct (delete_environment_Ok _ _ H) as (v1 & envs0 & env0 & w2 & _ & _ & F2 & D).
    destruct (@found_registry_object P name w w1 envs env Hlist Hfind) as (d & Hl).
    pose proof (@load_same_file P w w2 F2 _ Hl) as Hl2.
    pose proof (@delete_registry_Ok P name w2 w' d D Hl2) as F.
    rewrite F2 in F.
    exists d. split; [exact Hl|]. split; [exact F|]. split; [|split].
    + destruct (Dyn.lookup name d) eqn:Ek.
      * unfold _load_environments_config. rewrite F. reflexivity.
      * rewrite (remove_absent _ _ Ek). eapply load_same_file; [exact F | exact Hl].
    + intros k Hk. apply lookup_remove_other. exact Hk.
    + apply lookup_remove_same.
Qed.

End Deletion.

(** Deleting the running [dev]: the backend commands succeed and the
    registry file, which held the entry of [dev] only, holds the empty
    object. *)
Lemma delete_registry_after_backend_witness :
  env_file (fst (@delete_environment Lab.platform "dev" Lab.dev_running)) = Holds (JObj []).
Proof.
  destruct (@delete_registry_after_backend Lab.platform "dev" Lab.dev_running
              (Lab.listed Lab.dev_running)
              (fst (@delete_environment Lab.platform "dev" Lab.dev_running))
              [Lab.dev_env "Running" "python-dev"] (Lab.dev_env "Running" "python-dev")
              (snd (@delete_environment Lab.platform "dev" Lab.dev_running)))
    as (evs & completed & _ & _ & _ & _ & _ & Hok).
  - vm_compute. reflexivity.
  - vm_compute. reflexivity.
  - vm_compute. reflexivity.
  - destruct (Hok ltac:(vm_compute; reflexivity)) as (_ & d & Hl & F & _).
    assert (d = [("dev", registry_entry "python-dev" "multipass")]) as ->
        by (vm_compute in Hl; inversion Hl; reflexivity).
    exact F.
Defined.

(** ** The commands of a creation *)

Section Provisioning.

Context {P : Platform}.

Lemma bind_ext_r {A B} (m : M A) (k k' : A -> M B) w :
  (forall a v, k a v = k' a v) -> bind m k w = bind m k' w.
Proof.
  intros H. unfold bind. destruct (m w) as [w1 [a|e]]; auto.
Qed.

Lemma bind_pointwise {A B} (m m' : M A) (k k' : A -> M B) w :
  m w = m' w -> (forall a v, k a v = k' a v) -> bind m k w = bind m' k' w.
Proof.
  intros Hm H. unfold bind. rewrite Hm. destruct (m' w) as [w1 [a|e]]; auto.
Qed.

Lemma bind_assoc {A B C} (m : M A) (f : A -> M B) (g : B -> M C) w :
  bind (bind m f) g w = bind m (fun a => bind (f a) g) w.
Proof.
  unfold bind. destruct (m w) as [w1 [a|e]]; reflexivity.
Qed.

Lemma bind_returned {A B} (m : M A) (k : A -> M B) w a :
  m w = (w, Ok a) -> bind m k w = k a w.
Proof.
  intros H. unfold bind. rewrite H. reflexivity.
Qed.

Lemma run_all_cons cmd cmds w :
  run_all ([cmd] ++ cmds) w = bind (_run_command cmd) (fun _ => run_all cmds) w.
Proof.
  unfold run_all. simpl. apply bind_run_ret.
Qed.

Lemma run_all_app a : forall b w,
  run_all (a ++ b) w = bind (run_all a) (fun _ => run_all b) w.
Proof.
  induction a as [|cmd a IH]; intros b w.
  - reflexivity.
  - change ((cmd :: a) ++ b) with ([cmd] ++ (a ++ b)). rewrite run_all_cons.
    change (cmd :: a) with ([cmd] ++ a).
    rewrite (bind_pointwise (run_all ([cmd] ++ a))
               (bind (_run_command cmd) (fun _ => run_all a))
               (fun _ => run_all b) (fun _ => run_all b) w
               (run_all_cons cmd a w) (fun _ _ => eq_refl)).
    rewrite bind_assoc. apply bind_ext_r. intros _ v. apply IH.
Qed.

Lemma run_all_one cmd w :
  run_all [cmd] w = bind (_run_command cmd) (fun _ => ret tt) w.
Proof.
  change [cmd] with ([cmd] ++ []). rewrite run_all_cons. reflexivity.
Qed.

Lemma for_each_run_all {A} (f : A -> list string) (xs : list A) w :
  for_each xs (fun x => bind (_run_command (f x)) (fun _ => ret tt)) w
  = run_all (map f xs) w.
Proof.
  revert w. induction xs as [|x xs IH]; intros w; [reflexivity|].
  change (map f (x :: xs)) with ([f x] ++ map f xs). rewrite run_all_cons.
  simpl for_each. rewrite bind_run_ret.
  apply bind_ext_r. intros _ v. apply IH.
Qed.

Lemma for_each_script exec_cmd lines w :
  for_each lines
    (fun line =>
       if negb (Py.strip line =? "") then
         bind (_run_command (exec_cmd ++ ["bash"; "-c"; Py.strip line])) (fun _ => ret tt)
       else ret tt) w
  = run_all (map (fun line => exec_cmd ++ ["bash"; "-c"; line])
               (filter (fun line => negb (line =? "")) (map Py.strip lines))) w.
Proof.
  revert w. induction lines as [|line rest IH]; intros w; [reflexivity|].
  simpl for_each. simpl map. simpl filter.
  destruct (Py.strip line =? ""); simpl negb; cbv iota.
  - unfold bind at 1, ret. apply IH.
  - change (map (fun line0 => exec_cmd ++ ["bash"; "-c"; line0])
              (Py.strip line
                 :: filter (fun line0 => negb (line0 =? "")) (map Py.strip rest)))
      with ([exec_cmd ++ ["bash"; "-c"; Py.strip line]]
              ++ map (fun line0 => exec_cmd ++ ["bash"; "-c"; line0])
                   (filter (fun line0 => negb (line0 =? "")) (map Py.strip rest))).
    rewrite run_all_cons, bind_run_ret. apply bind_ext_r. intros _ v. apply IH.
Qed.

Lemma setup_run_all name template backend exec_cmd w :
  (forall v,
      (if backend =? "multipass" then ret ["multipass"; "exec"; name; "--"]
       else if backend =? "lxd" then ret ["lxc"; "exec"; name; "--"]
            else raise (ValueError ("Unsupported backend: " ++ backend))) v
      = (v, Ok exec_cmd)) ->
  _setup_environment name template backend w = run_all (setup_commands exec_cmd template) w.
Proof.
  intros He. unfold _setup_environment. cbv zeta.
  rewrite (bind_returned _ _ (He w)).
  unfold setup_commands. rewrite run_all_cons.
  apply bind_ext_r. intros _ v. rewrite run_all_app.
  apply bind_pointwise.
  - destruct (Templates.packages template); [reflexivity|].
    rewrite run_all_one. reflexivity.
  - intros _ u. unfold script_commands.
    destruct (Templates.setup_script template =? ""); simpl negb; cbv iota.
    + reflexivity.
    + apply for_each_script.
Qed.

Lemma launch_command name template resources :
  (let cmd := ["multipass"; "launch"] in
   let cmd := if given_Z (cpus resources)
              then cmd ++ ["--cpus"; Py.str_of_Z (the_Z (cpus resources))] else cmd in
   let cmd := if given_str (memory resources)
              then cmd ++ ["--memory"; the_str (memory resources)] else cmd in
   let cmd := if given_str (disk resources)
              then cmd ++ ["--disk"; the_str (disk resources)] else cmd in
   cmd ++ [Templates.base_image template; "--name"; name])
  = ["multipass"; "launch"] ++ launch_flags resources
      ++ [Templates.base_image template; "--name"; name].
Proof.
  unfold launch_flags.
  destruct (given_Z (cpus resources)), (given_str (memory resources)),
    (given_str (disk resources)); reflexivity.
Qed.

Lemma create_multipass_run_all name template mounts resources w :
  _create_multipass_environment name template mounts resources w
  = run_all (multipass_create_commands name template mounts resources) w.
Proof.
  unfold _create_multipass_environment, multipass_create_commands.
  pose proof (launch_command name template resources) as Hl. cbv zeta in Hl. rewrite Hl.
  rewrite run_all_cons. apply bind_ext_r. intros _ v1.
  rewrite run_all_cons. apply bind_ext_r. intros _ v2.
  rewrite run_all_app. apply bind_pointwise.
  - apply (for_each_run_all
             (fun mount => ["multipass"; "mount"; host_path mount;
                            (name ++ ":" ++ guest_path mount)%string])).
  - intros _ v3. apply setup_run_all. intros v. reflexivity.
Qed.

Lemma lxd_mount_loop_run_all name mounts : forall k w,
  lxd_mount_loop name (Z.of_nat k) mounts w
  = run_all (map (fun km =>
                    ["lxc"; "config"; "device"; "add"; name;
                     ("mount" ++ Py.str_of_Z (Z.of_nat (fst km)))%string; "disk";
                     ("source=" ++ host_path (snd km))%string;
                     ("path=" ++ guest_path (snd km))%string])
               (combine (seq k (length mounts)) mounts)) w.
Proof.
  induction mounts as [|mount rest IH]; intros k w; [reflexivity|].
  simpl length. simpl seq. simpl combine.
  match goal with
  | |- _ = run_all (map ?f (?x :: ?l)) w =>
      change (map f (x :: l)) with ([f x] ++ map f l)
  end.
  rewrite run_all_cons. simpl lxd_mount_loop. simpl fst. simpl snd.
  apply bind_ext_r. intros _ v.
  replace (Z.of_nat k + 1)%Z with (Z.of_nat (S k)) by lia. apply IH.
Qed.

Lemma optional_run_all (b : bool) cmd w :
  (if b then bind (_run_command cmd) (fun _ => ret tt) else ret tt) w
  = run_all (if b then [cmd] else []) w.
Proof.
  destruct b; [rewrite run_all_one|]; reflexivity.
Qed.

Lemma create_lxd_run_all name template mounts resources w :
  _create_lxd_environment name template mounts resources w
  = run_all (lxd_create_commands name template mounts resources) w.
Proof.
  unfold _create_lxd_environment, lxd_create_commands, lxd_device_commands.
  cbv zeta.
  rewrite run_all_cons. apply bind_ext_r. intros _ v1.
  rewrite run_all_app. apply bind_pointwise; [apply optional_run_all|]. intros _ v2.
  rewrite run_all_app. apply bind_pointwise; [apply optional_run_all|]. intros _ v3.
  rewrite run_all_cons. apply bind_ext_r. intros _ v4.
  rewrite run_all_app. apply bind_pointwise.
  - apply (lxd_mount_loop_run_all name mounts 0).
  - intros _ v5. apply setup_run_all. intros v. reflexivity.
Qed.

(** X15. [_create_multipass_environment] runs, in this order and each
    only after the previous one succeeded: the launch command, with a
    [--cpus], [--memory] or [--disk] flag for each resource that is given,
    the base image of the template and the name; the wait for cloud-init; one
    mount command per requested mount, in the order of the request; apt
    update; apt install of the packages when there are any; one [bash -c] per
    non-blank line of the stripped setup script, stripped.  It returns
    normally when all of them succeeded and raises the runner's error of the
    first that failed; it does not touch the registry file. *)
Theorem create_multipass_commands :
  forall (name : string) (template : Templates.Template) (mounts : list MountSpec)
         (resources : Resources) (w w' : world) (r : result unit),
    _create_multipass_environment name template mounts resources w = (w', r) ->
    env_file w' = env_file w /\
    exists evs completed,
      log w' = rev evs ++ log w /\
      Trace (multipass_create_commands name template mounts resources) evs completed /\
      if completed : bool then r = Ok tt
      else exists msg, r = Raise (RuntimeError msg).
Proof.
  intros name template mounts resources w w' r H.
  rewrite create_multipass_run_all in H. apply run_all_trace in H.
  destruct H as (F & _ & H). split; [exact F | exact H].
Qed.

(** X16. [_create_lxd_environment] runs, in this order and each only
    after the previous one succeeded: the launch of the base image under the
    name; a [limits.cpu] and a [limits.memory] setting for those of the two
    resources that are given (the disk resource is not used); the wait for
    cloud-init; one device per requested mount, the mount at position [k] of
    the request as device [mount<k>], counting from 0; apt update; apt install
    of the packages when there are any; one [bash -c] per non-blank line of
    the stripped setup script.  It returns normally when all of them
    succeeded and raises the runner's error of the first that failed; it does
    not touch the registry file. *)
Theorem create_lxd_commands :
  forall (name : string) (template : Templates.Template) (mounts : list MountSpec)
         (resources : Resources) (w w' : world) (r : result unit),
    _create_lxd_environment name template mounts resources w = (w', r) ->
    env_file w' = env_file w /\
    exists evs completed,
      log w' = rev evs ++ log w /\
      Trace (lxd_create_commands name template mounts resources) evs completed /\
      if completed : bool then r = Ok tt
      else exists msg, r = Raise (RuntimeError msg).
Proof.
  intros name template mounts resources w w' r H.
  rewrite create_lxd_run_all in H. apply run_all_trace in H.
  destruct H as (F & _ & H). split; [exact F | exact H].
Qed.

End Provisioning.

(** ** A creation talks to one tool *)

Section OneTool.

Context {P : Platform}.

Lemma Trace_events cmds evs completed :
  Trace cmds evs completed ->
  Forall (fun ev => exists cmd o, ev = Ran cmd o /\ In cmd cmds) evs.
Proof.
  intros T. induction T as [|cmd o cmds evs c So T IH|cmd o cmds So].
  - constructor.
  - constructor; [exists cmd, o; simpl; auto|].
    eapply Forall_impl; [|exact IH]. intros ev (c0 & o0 & -> & Hin).
    exists c0, o0. simpl. auto.
  - constructor; [exists cmd, o; simpl; auto | constructor].
Qed.

Lemma setup_commands_tool program rest template :
  Forall (fun cmd => hd "" cmd = program) (setup_commands (program :: rest) template).
Proof.
  unfold setup_commands. repeat rewrite Forall_app. repeat split.
  - repeat constructor.
  - destruct (Templates.packages template); repeat constructor.
  - apply Forall_map. apply Forall_forall. intros line _. reflexivity.
Qed.

Lemma multipass_create_commands_tool name template mounts resources :
  Forall (fun cmd => hd "" cmd = "multipass")
    (multipass_create_commands name template mounts resources).
Proof.
  unfold multipass_create_commands. repeat rewrite Forall_app. repeat split.
  - repeat constructor.
  - repeat constructor.
  - apply Forall_map. apply Forall_forall. intros mount _. reflexivity.
  - apply setup_commands_tool.
Qed.

Lemma lxd_create_commands_tool name template mounts resources :
  Forall (fun cmd => hd "" cmd = "lxc")
    (lxd_create_commands name template mounts resources).
Proof.
  unfold lxd_create_commands, lxd_device_commands. repeat rewrite Forall_app. repeat split.
  - repeat constructor.
  - destruct (given_Z (cpus resources)); repeat constructor.
  - destruct (given_str (memory resources)); repeat constructor.
  - repeat constructor.
  - apply Forall_map. apply Forall_forall. intros km _. reflexivity.
  - apply setup_commands_tool.
Qed.

Lemma traced_tool program cmds evs completed :
  program <> "" ->
  Forall (fun cmd => hd "" cmd = program) cmds ->
  Trace cmds evs completed ->
  forallb (runs_tool program) (rev evs) = true.
Proof.
  intros Hp Hall T. apply forallb_forall. intros ev Hin. apply in_rev in Hin.
  apply Trace_events in T. rewrite Forall_forall in T, Hall.
  destruct (T ev Hin) as (cmd & o & -> & Hc). specialize (Hall cmd Hc).
  destruct cmd as [|p rest]; simpl in *; [congruence|].
  subst. apply String.eqb_refl.
Qed.

(** The probe and the provisioning of a backend, seen from the log. *)
Lemma check_backend_tool backend program w w' r :
  (backend = "multipass" /\ program = "multipass") \/ (backend = "lxd" /\ program = "lxc") ->
  _check_backend_available backend w = (w', r) ->
  exists evs, log w' = evs ++ log w /\ forallb (runs_tool program) evs = true.
Proof.
  intros Hb H.
  assert (emits (runs_tool program) (_check_backend_available backend)) as He.
  { unfold _check_backend_available.
    apply emits_try_except; [|intros; apply emits_ret].
    destruct Hb as [[-> ->] | [-> ->]]; simpl.
    - apply emits_bind; [apply emits_run; reflexivity | intros; apply emits_ret].
    - apply emits_bind; [apply emits_run; reflexivity | intros; apply emits_ret]. }
  apply He in H. tauto.
Qed.

Lemma provision_tool config template program w w' r :
  (cfg_backend config = "multipass" /\ program = "multipass")
  \/ (cfg_backend config = "lxd" /\ program = "lxc") ->
  provision config template w = (w', r) ->
  exists evs, log w' = evs ++ log w /\ forallb (runs_tool program) evs = true.
Proof.
  intros Hb H. unfold provision in H.
  destruct Hb as [[Hb ->] | [Hb ->]]; rewrite Hb in H; simpl in H.
  - rewrite create_multipass_run_all in H. apply run_all_trace in H.
    destruct H as (_ & _ & evs & c & L & T & _). exists (rev evs). split; [exact L|].
    eapply traced_tool; [discriminate | apply multipass_create_commands_tool | exact T].
  - rewrite create_lxd_run_all in H. apply run_all_trace in H.
    destruct H as (_ & _ & evs & c & L & T & _). exists (rev evs). split; [exact L|].
    eapply traced_tool; [discriminate | apply lxd_create_commands_tool | exact T].
Qed.

(** X17. Every command [create_environment] runs for a multipass request
    is a [multipass] command, and every command it runs for an LXD request is
    an [lxc] command: a creation never talks to the other backend, and starts
    no detached process. *)
Theorem create_uses_one_tool :
  forall (config : Config) (program : string) (w w' : world) (r : result unit),
    (cfg_backend config = "multipass" /\ program = "multipass")
    \/ (cfg_backend config = "lxd" /\ program = "lxc") ->
    create_environment config w = (w', r) ->
    exists evs, log w' = evs ++ log w /\ forallb (runs_tool program) evs = true.
Proof.
  intros config program w w' r Hb H. rewrite create_environment_unfold in H.
  destruct (cfg_name config =? "").
  { inversion H; subst. exists []. auto. }
  unfold bind at 1 in H.
  destruct (_check_backend_available (cfg_backend config) w) as [w1 r1] eqn:Hc.
  assert (exists evs, log w1 = evs ++ log w /\ forallb (runs_tool program) evs = true)
    as (evs1 & L1 & A1).
  { eapply check_backend_tool; [|exact Hc]. tauto. }
  destruct r1 as [available|e]; [|inversion H; subst; eauto].
  destruct available; simpl in H; [|inversion H; subst; eauto].
  destruct (Templates.get_template (cfg_template config)) as [template|];
    [|inversion H; subst; eauto].
  unfold try_except, bind in H.
  destruct (provision config template w1) as [w2 r2] eqn:Ep.
  assert (exists evs, log w2 = evs ++ log w1 /\ forallb (runs_tool program) evs = true)
    as (evs2 & L2 & A2).
  { eapply provision_tool; [exact Hb | exact Ep]. }
  assert (log w' = log w2) as L.
  { destruct r2 as [[]|e2]; [|inversion H; reflexivity].
    destruct (register_cases config w2) as (registry & _ & Hreg).
    destruct (register config w2) as [w3 r3] eqn:Er.
    destruct (Hreg _ _ eq_refl) as (L3 & _).
    destruct r3 as [[]|e3]; inversion H; subst; exact L3. }
  exists (evs2 ++ evs1). rewrite L, L2, L1, app_assoc, forallb_app, A1, A2. auto.
Qed.

End OneTool.

(** ** The catalog *)

Section CatalogFacts.

Context {P : Platform}.

Lemma check_required_find fields template_config :
  Catalog.check_required fields template_config
  = match find (fun field => match Dyn.lookup field template_config with
                             | None => true
                             | Some _ => false
                             end) fields with
    | Some field => Raise (ValueError ("Template missing required field: " ++ field))
    | None => Ok tt
    end.
Proof.
  induction fields as [|field rest IH]; simpl; [reflexivity|].
  destruct (Dyn.lookup field template_config); auto.
Qed.

Lemma assign_keys k v d :
  map fst (Dyn.assign k v d)
  = match Dyn.lookup k d with
    | Some _ => map fst d
    | None => map fst d ++ [k]
    end.
Proof.
  induction d as [|[k0 v0] d IH]; simpl; [reflexivity|].
  destruct (k0 =? k) eqn:E; simpl; [reflexivity|].
  rewrite IH. destruct (Dyn.lookup k d); reflexivity.
Qed.

(** X18. [add_custom_template] stores the template in the object it is
    called on (there [get_template] then returns it), but
    [create_environment] builds its own catalog on every call: for a template
    id that is not built in, a request that passed the name and availability
    checks raises the template-not-found error, whatever was added to a
    catalog object before. *)
Theorem custom_template_not_used_by_create :
  forall (self self' : list (string * json)) (template_config : list (string * json))
         (config : Config) (w w1 : world),
    Templates.get_template (cfg_template config) = None ->
    Catalog.add_custom_template self (cfg_template config) template_config = Ok self' ->
    cfg_name config <> "" ->
    _check_backend_available (cfg_backend config) w = (w1, Ok true) ->
    Catalog.get_template self' (cfg_template config) = Some (JObj template_config) /\
    create_environment config w
    = (w1, Raise (ValueError ("Template " ++ cfg_template config ++ " not found"))).
Proof.
  intros self self' template_config config w w1 Hb Ha En Hc. split.
  - unfold Catalog.add_custom_template in Ha.
    destruct (Catalog.check_required Catalog.required_fields template_config);
      simpl in Ha; [|discriminate].
    inversion Ha; subst. apply lookup_assign_same.
  - rewrite create_environment_unfold. apply String.eqb_neq in En. rewrite En.
    unfold bind. rewrite Hc. simpl. rewrite Hb. reflexivity.
Qed.

End CatalogFacts.

(** X19. [add_custom_template] raises for the first of the fields
    [name], [description], [base_image] (in this order) that the template
    lacks; when none is missing it stores the template under the id: the id
    then maps to the template, every other id maps to what it mapped to
    before, and the order of the ids is kept, a new id coming last. *)
Theorem add_custom_template_cases :
  forall (self : list (string * json)) (template_id : string)
         (template_config : list (string * json)),
    match find (fun field => match Dyn.lookup field template_config with
                             | None => true
                             | Some _ => false
                             end) Catalog.required_fields with
    | Some field =>
        Catalog.add_custom_template self template_id template_config
        = Raise (ValueError ("Template missing required field: " ++ field))
    | None =>
        exists self',
          Catalog.add_custom_template self template_id template_config = Ok self' /\
          Catalog.get_template self' template_id = Some (JObj template_config) /\
          (forall other, other <> template_id ->
                         Catalog.get_template self' other = Catalog.get_template self other) /\
          map fst self' = match Catalog.get_template self template_id with
                          | Some _ => map fst self
                          | None => map fst self ++ [template_id]
                          end
    end.
Proof.
  intros self template_id template_config.
  unfold Catalog.add_custom_template. rewrite check_required_find.
  destruct (find _ Catalog.required_fields) as [field|]; simpl; [reflexivity|].
  eexists. split; [reflexivity|]. unfold Catalog.get_template.
  split; [apply lookup_assign_same|].
  split; [intros other Ho; apply lookup_assign_other; exact Ho | apply assign_keys].
Qed.

(** X20. [remove_template] raises the not-found error for an id the
    catalog does not have; otherwise it removes the id and nothing else:
    every other id maps to what it mapped to before and, the ids of the
    catalog being distinct, the removed id has no template any more. *)
Theorem remove_template_cases :
  forall (self : list (string * json)) (template_id : string),
    match Catalog.get_template self template_id with
    | None =>
        Catalog.remove_template self template_id
        = Raise (ValueError ("Template " ++ template_id ++ " not found"))
    | Some _ =>
        exists self',
          Catalog.remove_template self template_id = Ok self' /\
          (forall other, other <> template_id ->
                         Catalog.get_template self' other = Catalog.get_template self other) /\
          (NoDup (map fst self) -> Catalog.get_template self' template_id = None)
    end.
Proof.
  intros self template_id. unfold Catalog.remove_template, Catalog.get_template.
  destruct (Dyn.lookup template_id self); [|reflexivity].
  eexists. split; [reflexivity|].
  split; [intros other Ho; apply lookup_remove_other; exact Ho | apply lookup_remove_same].
Qed.

Lemma assign_NoDup k v d : NoDup (map fst d) -> NoDup (map fst (Dyn.assign k v d)).
Proof.
  intros N. rewrite assign_keys. destruct (Dyn.lookup k d) eqn:E; [exact N|].
  apply NoDup_app; [exact N | repeat constructor; intros [] |].
  intros x Hx [<-|[]]. eapply lookup_None_not_In; eassumption.
Qed.

Lemma remove_incl k d x : In x (Dyn.remove k d) -> In x d.
Proof.
  induction d as [|[k0 v0] d IH]; simpl; [tauto|].
  destruct (k0 =? k); simpl; tauto.
Qed.

Lemma remove_NoDup k d : NoDup (map fst d) -> NoDup (map fst (Dyn.remove k d)).
Proof.
  induction d as [|[k0 v0] d IH]; simpl; intros N; [exact N|].
  inversion N as [|? ? Hn N']; subst.
  destruct (k0 =? k); simpl; [exact N'|].
  constructor; [|apply IH; exact N'].
  intros Hin. apply Hn. apply in_map_iff in Hin. destruct Hin as ([k1 v1] & <- & Hin).
  apply remove_incl in Hin. apply in_map_iff. exists (k1, v1). auto.
Qed.

Lemma assign_Forall (Q : json -> Prop) k v d :
  Q v -> Forall Q (map snd d) -> Forall Q (map snd (Dyn.assign k v d)).
Proof.
  intros Hv. induction d as [|[k0 v0] d IH]; simpl; intros F.
  - repeat constructor. exact Hv.
  - inversion F; subst. destruct (k0 =? k); simpl; constructor; auto.
Qed.

Lemma remove_Forall (Q : json -> Prop) k d :
  Forall Q (map snd d) -> Forall Q (map snd (Dyn.remove k d)).
Proof.
  induction d as [|[k0 v0] d IH]; simpl; intros F; [exact F|].
  inversion F; subst. destruct (k0 =? k); simpl; [assumption | constructor; auto].
Qed.

Lemma check_required_complete fields template_config :
  Catalog.check_required fields template_config = Ok tt ->
  forall field, In field fields -> Dyn.lookup field template_config <> None.
Proof.
  induction fields as [|f rest IH]; simpl; intros H field Hin; [destruct Hin|].
  destruct (Dyn.lookup f template_config) eqn:E; [|discriminate].
  destruct Hin as [<-|Hin]; [congruence | apply IH; assumption].
Qed.

Lemma init_ok : catalog_ok Catalog.init.
Proof.
  split.
  - unfold Catalog.init. rewrite map_map. simpl.
    repeat (constructor; [simpl; intuition discriminate|]). constructor.
  - unfold Catalog.init. rewrite map_map. apply Forall_map. apply Forall_forall.
    intros [k t] _. simpl. eexists. split; [reflexivity|].
    intros field [<-|[<-|[<-|[]]]]; discriminate.
Qed.

Lemma step_ok self c : catalog_ok self -> catalog_ok (Catalog.step self c).
Proof.
  intros [N F]. destruct c as [template_id template_config|template_id]; simpl.
  - unfold Catalog.add_custom_template.
    destruct (Catalog.check_required Catalog.required_fields template_config) as [[]|e] eqn:E;
      simpl; [|split; assumption].
    split; [apply assign_NoDup; exact N|].
    apply assign_Forall; [|exact F].
    exists template_config. split; [reflexivity|].
    apply check_required_complete. exact E.
  - unfold Catalog.remove_template. destruct (Dyn.lookup template_id self); [|split; assumption].
    split; [apply remove_NoDup; exact N | apply remove_Forall; exact F].
Qed.

Lemma fold_ok calls : forall self, catalog_ok self -> catalog_ok (fold_left Catalog.step calls self).
Proof.
  induction calls as [|c calls IH]; simpl; intros self H; [exact H|].
  apply IH. apply step_ok. exact H.
Qed.

Lemma names_of_complete self :
  Forall Catalog.complete (map snd self) ->
  exists names, Catalog.get_template_names self = Ok names /\ map fst names = map fst self.
Proof.
  induction self as [|[template_id template] rest IH]; simpl; intros F.
  - exists []. auto.
  - inversion F as [|? ? (fields & -> & Hreq) F']; subst.
    destruct (IH F') as (names & -> & Hn). simpl.
    destruct (Dyn.lookup "name" fields) as [name|] eqn:E.
    + exists ((template_id, name) :: names). simpl. rewrite Hn. auto.
    + exfalso. apply (Hreq "name"); [simpl; auto | exact E].
Qed.

(** X21. Whatever sequence of [add_custom_template] and [remove_template]
    calls (with dict arguments, failed calls included) a fresh catalog has
    gone through, its ids are distinct and [get_template_names] returns, with
    one name for every id of the catalog in the catalog's order: the
    subscript [template["name"]] cannot fail, because an added template is
    only stored once its required fields were checked. *)
Theorem get_template_names_total :
  forall calls : list Catalog.call,
    NoDup (map fst (Catalog.after calls)) /\
    exists names,
      Catalog.get_template_names (Catalog.after calls) = Ok names /\
      map fst names = map fst (Catalog.get_all_templates (Catalog.after calls)).
Proof.
  intros calls. destruct (fold_ok calls init_ok) as [N F].
  split; [exact N | apply names_of_complete; exact F].
Qed.

(** ** Requests of the creation dialog *)

Lemma lstrip_blank s : Py.lstrip s = "" <-> blank s = true.
Proof.
  induction s as [|c r IH]; simpl; [tauto|].
  destruct (Py.is_space c); simpl; [exact IH|]. split; discriminate.
Qed.

Lemma lstrip_head s c r : Py.lstrip s = String c r -> Py.is_space c = false.
Proof.
  induction s as [|c0 r0 IH]; simpl; [discriminate|].
  destruct (Py.is_space c0) eqn:E; [exact IH|].
  intros H. inversion H; subst. exact E.
Qed.

Lemma rstrip_head c r : Py.is_space c = false -> Py.rstrip (String c r) <> "".
Proof.
  intros E. simpl. rewrite E. destruct (Py.rstrip r); discriminate.
Qed.

Lemma strip_empty s : Py.strip s = "" <-> blank s = true.
Proof.
  rewrite <- lstrip_blank. unfold Py.strip. split.
  - destruct (Py.lstrip s) as [|c r] eqn:E; [reflexivity|].
    intros H. exfalso. apply lstrip_head in E. exact (@rstrip_head c r E H).
  - intros ->. reflexivity.
Qed.

Section DialogRequests.

Context {P : Platform}.

(** The name-required error is raised for the empty name only. *)
Lemma name_required_iff config w :
  create_environment config w = (w, Raise (ValueError "Environment name is required"))
  <-> cfg_name config = "".
Proof.
  split.
  - intros H. destruct (string_dec (cfg_name config) "") as [E|En]; [exact E|].
    exfalso.
    destruct (check_backend_total (cfg_backend config) w) as (w1 & available & Hc).
    destruct available.
    + destruct (Templates.get_template (cfg_template config)) as [template|] eqn:Et.
      * eapply create_environment_provisioning in H; [|exact En|exact Hc|exact Et].
        destruct H as (evs & _ & _ & He & _).
        destruct (He _ eq_refl) as (cause & Hcause). discriminate.
      * rewrite create_environment_unfold in H. apply String.eqb_neq in En.
        rewrite En in H. unfold bind in H. rewrite Hc in H.
        simpl in H. rewrite Et in H. inversion H.
    + rewrite create_environment_unfold in H. apply String.eqb_neq in En.
      rewrite En in H. unfold bind in H. rewrite Hc in H. inversion H.
  - intros E. rewrite create_environment_unfold. rewrite E. reflexivity.
Qed.

(** X22. The dialog strips the name field, so, for a field of ASCII
    characters, [create_environment] rejects a request of the dialog with the
    name-required error, before running anything, exactly when the field
    holds white space only (the empty field included).  A field of white
    space only is rejected whatever the characters of the model are; the
    converse is stated for ASCII text, on which the model's [strip] is
    [str.strip]. *)
Theorem dialog_blank_name :
  forall (self : Dialog) (w : world),
    (blank (name_edit self) = true ->
     create_environment (get_config self) w
     = (w, Raise (ValueError "Environment name is required"))) /\
    (ascii_text (name_edit self) = true ->
     create_environment (get_config self) w
     = (w, Raise (ValueError "Environment name is required")) ->
     blank (name_edit self) = true).
Proof.
  intros self w. split.
  - intros Hb. apply name_required_iff. apply strip_empty. exact Hb.
  - intros _ H. apply strip_empty. apply name_required_iff in H. exact H.
Qed.

End DialogRequests.

Lemma given_suffixed s suffix : given_str (Some (s ++ String suffix "")%string) = true.
Proof. destruct s; reflexivity. Qed.

(** X23. A request of the dialog always names its three resources: with a
    CPU count other than 0 (the spin box ranges over 1..16), the launch
    command of a multipass creation carries [--cpus], [--memory] and [--disk]
    with the values of the spin boxes, memory in [M] and disk in [G]; an LXD
    creation starts with the launch and the [limits.cpu] and [limits.memory]
    settings, and uses the disk size nowhere. *)
Theorem dialog_resources_given :
  forall (self : Dialog) (name : string) (template : Templates.Template)
         (mounts : list MountSpec),
    (cpu_spin self <> 0)%Z ->
    hd [] (multipass_create_commands name template mounts (cfg_resources (get_config self)))
    = ["multipass"; "launch";
       "--cpus"; Py.str_of_Z (cpu_spin self);
       "--memory"; (Py.str_of_Z (memory_spin self) ++ "M")%string;
       "--disk"; (Py.str_of_Z (disk_spin self) ++ "G")%string;
       Templates.base_image template; "--name"; name] /\
    lxd_create_commands name template mounts (cfg_resources (get_config self))
    = [["lxc"; "launch"; Templates.base_image template; name];
       ["lxc"; "config"; "set"; name;
        ("limits.cpu=" ++ Py.str_of_Z (cpu_spin self))%string];
       ["lxc"; "config"; "set"; name;
        ("limits.memory=" ++ Py.str_of_Z (memory_spin self) ++ "M")%string];
       ["lxc"; "exec"; name; "--"; "cloud-init"; "status"; "--wait"]]
      ++ lxd_device_commands name mounts
      ++ setup_commands ["lxc"; "exec"; name; "--"] template.
Proof.
  intros self name template mounts Hc.
  assert (given_Z (Some (cpu_spin self)) = true) as Gc.
  { simpl. apply Z.eqb_neq in Hc. rewrite Hc. reflexivity. }
  split.
  - unfold multipass_create_commands, launch_flags. simpl cfg_resources.
    simpl cpus. simpl memory. simpl disk. rewrite Gc, !given_suffixed. reflexivity.
  - unfold lxd_create_commands. simpl cfg_resources.
    simpl cpus. simpl memory. rewrite Gc, given_suffixed. reflexivity.
Qed.

(** * The further properties on the small host *)

(** [dev] and [box] both run: the multipass record comes first. *)
Lemma listing_order_witness :
  exists vms containers,
    [Lab.dev_env "Running" "python-dev"; Lab.box_env] = vms ++ containers /\
    Forall (fun e => env_backend e = "multipass") vms /\
    Forall (fun e => env_backend e = "lxd") containers.
Proof.
  apply (@listing_order Lab.platform Hosts.both_running (Lab.listed Hosts.both_running)).
  vm_compute. reflexivity.
Defined.

(** No registry file: the container [box] is listed with template
    Unknown. *)
Lemma listing_template_unknown_witness : env_template Lab.box_env = JStr "Unknown".
Proof.
  apply (@listing_template_unknown Lab.platform Lab.box_running (Lab.listed Lab.box_running)
           [Lab.box_env] []).
  - vm_compute. reflexivity.
  - vm_compute. reflexivity.
  - left. reflexivity.
  - intros n _. reflexivity.
Defined.

(** The registry file holds a list and no tool reports an instance: the
    listing is empty. *)
Lemma listing_needs_object_registry_witness :
  snd (@list_environments Lab.platform Hosts.empty_list_registry) = Ok [].
Proof.
  assert (exists envs, @list_environments Lab.platform Hosts.empty_list_registry
                       = (Lab.listed Hosts.empty_list_registry, Ok envs)) as [envs H]
      by (eexists; vm_compute; reflexivity).
  rewrite H. simpl. f_equal.
  apply (@listing_needs_object_registry Lab.platform Hosts.empty_list_registry
           (Lab.listed Hosts.empty_list_registry) envs (JArr [])).
  - reflexivity.
  - intros d. discriminate.
  - exact H.
Defined.

(** A multipass that reports [dev], an instance without a state, and
    [late]: the record of [dev] is kept, the second instance raises
    [KeyError], and [late] is never looked at. *)
Lemma partial_listing_keeps_prefix_witness :
  exists kept dropped records w2,
    Hosts.cut_items = kept ++ dropped /\
    [Lab.dev_env "Running" "python-dev"] = [] ++ records /\
    Records multipass_entry (fst (@multipass_instances Hosts.cut_platform Hosts.cut_world))
      kept records w2 /\
    Forall2 (fun item e => Dyn.getitem item "name" = Ok (env_name e)) kept records /\
    exists item later,
      dropped = item :: later /\
      multipass_entry item w2
      = (fst (@multipass_block Hosts.cut_platform [] Hosts.cut_world), Raise KeyError).
Proof.
  apply (@partial_listing_keeps_prefix Hosts.cut_platform multipass_entry []
           Hosts.cut_world
           (fst (@multipass_instances Hosts.cut_platform Hosts.cut_world))
           (fst (@multipass_block Hosts.cut_platform [] Hosts.cut_world))
           Hosts.cut_items [Lab.dev_env "Running" "python-dev"] (Some KeyError)).
  left. split; [reflexivity|]. split; vm_compute; reflexivity.
Defined.

(** Opening a shell on the running [dev] leaves the registry file alone. *)
Lemma open_shell_spawns_first_terminal_witness :
  env_file (fst (@open_shell Lab.platform "dev" Lab.dev_running)) = env_file Lab.dev_running.
Proof.
  refine (proj1 (@open_shell_spawns_first_terminal Lab.platform "dev" Lab.dev_running
                   (Lab.listed Lab.dev_running)
                   (fst (@open_shell Lab.platform "dev" Lab.dev_running))
                   [Lab.dev_env "Running" "python-dev"] (Lab.dev_env "Running" "python-dev")
                   (snd (@open_shell Lab.platform "dev" Lab.dev_running)) _ _ _ _)).
  - vm_compute. reflexivity.
  - vm_compute. reflexivity.
  - reflexivity.
  - vm_compute. reflexivity.
Defined.



(** Creating [dev] on the empty host writes its entry. *)
Lemma create_registry_upsert_witness :
  exists d',
    env_file (fst (@create_environment Lab.platform Lab.dev_config Lab.empty_world))
    = Holds (JObj d') /\
    Dyn.lookup "dev" d' = Some (registry_entry "ubuntu-basic" "multipass").
Proof.
  destruct (@create_registry_upsert Lab.platform Lab.dev_config Lab.empty_world
              (fst (@create_environment Lab.platform Lab.dev_config Lab.empty_world)))
    as (d & d' & _ & F & Hl & _).
  - vm_compute. reflexivity.
  - exists d'. split; [exact F | exact Hl].
Defined.

(** The registry file holds text that is not JSON: after the creation it
    holds the one entry. *)
Lemma create_from_empty_registry_witness :
  env_file (fst (@create_environment Lab.platform Lab.dev_config Hosts.broken_registry))
  = Holds (JObj [("dev", registry_entry "ubuntu-basic" "multipass")]).
Proof.
  apply (@create_from_empty_registry Lab.platform Lab.dev_config Hosts.broken_registry).
  - reflexivity.
  - vm_compute. reflexivity.
Defined.

(** The registry file holds a list: the creation provisions [dev] and
    raises, the file keeps the list. *)
Lemma create_needs_object_registry_witness :
  env_file (fst (@create_environment Lab.platform Lab.dev_config Hosts.empty_list_registry))
  = Holds (JArr []).
Proof.
  refine (proj1 (proj2 (@create_needs_object_registry Lab.platform Lab.dev_config
                          Hosts.empty_list_registry
                          (fst (@create_environment Lab.platform Lab.dev_config
                                  Hosts.empty_list_registry))
                          (snd (@create_environment Lab.platform Lab.dev_config
                                  Hosts.empty_list_registry))
                          (JArr []) _ _ _))).
  - reflexivity.
  - intros d. discriminate.
  - vm_compute. reflexivity.
Defined.

(** Deleting the running [dev] removes its entry. *)
Lemma delete_registry_frame_witness :
  exists d',
    snd (@_load_environments_config Lab.platform
           (fst (@delete_environment Lab.platform "dev" Lab.dev_running)))
    = Ok (JObj d') /\
    Dyn.lookup "dev" d' = None.
Proof.
  destruct (@delete_registry_frame Lab.platform "dev" Lab.dev_running
              (fst (@delete_environment Lab.platform "dev" Lab.dev_running)))
    as (d & d' & Hl & Hl' & _ & Hn).
  - vm_compute. reflexivity.
  - assert (d = [("dev", registry_entry "python-dev" "multipass")]) as ->
        by (vm_compute in Hl; inversion Hl; reflexivity).
    exists d'. split.
    + rewrite Hl'. reflexivity.
    + apply Hn. repeat constructor. simpl. tauto.
Defined.

(** Creating [dev] on the empty host and deleting it again leaves an empty
    registry. *)
Lemma create_then_delete_restores_witness :
  env_file (fst (@delete_environment Lab.platform "dev"
                   (fst (@create_environment Lab.platform Lab.dev_config Lab.empty_world))))
  = Holds (JObj []).
Proof.
  apply (@create_then_delete_restores Lab.platform Lab.dev_config Lab.empty_world
           (fst (@create_environment Lab.platform Lab.dev_config Lab.empty_world))
           (fst (@create_environment Lab.platform Lab.dev_config Lab.empty_world))).
  - vm_compute. reflexivity.
  - reflexivity.
  - vm_compute. reflexivity.
  - reflexivity.
  - vm_compute. reflexivity.
Defined.

(** Every command of the creation of [dev] is a multipass command. *)
Lemma create_uses_one_tool_witness :
  forallb (runs_tool "multipass")
    (log (fst (@create_environment Lab.platform Lab.dev_config Lab.empty_world))) = true.
Proof.
  destruct (@create_uses_one_tool Lab.platform Lab.dev_config "multipass" Lab.empty_world
              (fst (@create_environment Lab.platform Lab.dev_config Lab.empty_world))
              (snd (@create_environment Lab.platform Lab.dev_config Lab.empty_world)))
    as (evs & L & A).
  - left. split; reflexivity.
  - vm_compute. reflexivity.
  - rewrite L. simpl log. rewrite app_nil_r. exact A.
Defined.

(** Provisioning [dev] on multipass, and [box] on an LXD whose launch
    fails. *)
Lemma create_multipass_commands_witness :
  exists evs completed,
    Trace (multipass_create_commands "dev" Templates.ubuntu_basic
             (cfg_mounts Lab.dev_config) (cfg_resources Lab.dev_config)) evs completed.
Proof.
  destruct (@create_multipass_commands Lab.platform "dev" Templates.ubuntu_basic
              (cfg_mounts Lab.dev_config) (cfg_resources Lab.dev_config) Lab.empty_world
              (fst (@_create_multipass_environment Lab.platform "dev" Templates.ubuntu_basic
                      (cfg_mounts Lab.dev_config) (cfg_resources Lab.dev_config)
                      Lab.empty_world))
              (snd (@_create_multipass_environment Lab.platform "dev" Templates.ubuntu_basic
                      (cfg_mounts Lab.dev_config) (cfg_resources Lab.dev_config)
                      Lab.empty_world)))
    as (_ & evs & completed & _ & T & _).
  - vm_compute. reflexivity.
  - exists evs, completed. exact T.
Defined.

Lemma create_lxd_commands_witness :
  exists evs completed,
    Trace (lxd_create_commands "box" Templates.ubuntu_basic
             (cfg_mounts Lab.dev_config) (cfg_resources Lab.dev_config)) evs completed.
Proof.
  destruct (@create_lxd_commands Lab.platform "box" Templates.ubuntu_basic
              (cfg_mounts Lab.dev_config) (cfg_resources Lab.dev_config) Hosts.lxd_host
              (fst (@_create_lxd_environment Lab.platform "box" Templates.ubuntu_basic
                      (cfg_mounts Lab.dev_config) (cfg_resources Lab.dev_config)
                      Hosts.lxd_host))
              (snd (@_create_lxd_environment Lab.platform "box" Templates.ubuntu_basic
                      (cfg_mounts Lab.dev_config) (cfg_resources Lab.dev_config)
                      Hosts.lxd_host)))
    as (_ & evs & completed & _ & T & _).
  - vm_compute. reflexivity.
  - exists evs, completed. exact T.
Defined.

(** A template added to a catalog object is found there, and unknown to a
    creation. *)
Lemma custom_template_not_used_by_create_witness :
  Catalog.get_template (Dyn.assign "my-stack" (JObj Hosts.my_stack) Catalog.init) "my-stack"
  = Some (JObj Hosts.my_stack) /\
  @create_environment Lab.platform Hosts.custom_config Lab.empty_world
  = (fst (@_check_backend_available Lab.platform "multipass" Lab.empty_world),
     Raise (ValueError "Template my-stack not found")).
Proof.
  apply (@custom_template_not_used_by_create Lab.platform Catalog.init
           (Dyn.assign "my-stack" (JObj Hosts.my_stack) Catalog.init) Hosts.my_stack
           Hosts.custom_config Lab.empty_world
           (fst (@_check_backend_available Lab.platform "multipass" Lab.empty_world))).
  - reflexivity.
  - reflexivity.
  - discriminate.
  - vm_compute. reflexivity.
Defined.

(** A name field of three spaces: the request is rejected, and from the
    rejection the field is seen to be blank. *)
Lemma dialog_blank_name_witness :
  @create_environment Lab.platform (get_config Hosts.blank_dialog) Lab.empty_world
  = (Lab.empty_world, Raise (ValueError "Environment name is required")) /\
  blank (name_edit Hosts.blank_dialog) = true.
Proof.
  split.
  - apply (proj1 (@dialog_blank_name Lab.platform Hosts.blank_dialog Lab.empty_world)).
    reflexivity.
  - apply (proj2 (@dialog_blank_name Lab.platform Hosts.blank_dialog Lab.empty_world)).
    + reflexivity.
    + vm_compute. reflexivity.
Defined.

(** The dialog as it opens: 2 CPUs, 2048 MB, 10 GB. *)
Lemma dialog_resources_given_witness :
  hd [] (multipass_create_commands "dev" Templates.ubuntu_basic []
           (cfg_resources (get_config Hosts.dialog)))
  = ["multipass"; "launch"; "--cpus"; "2"; "--memory"; "2048M"; "--disk"; "10G";
     "22.04"; "--name"; "dev"].
Proof.
  refine (proj1 (@dialog_resources_given Hosts.dialog "dev" Templates.ubuntu_basic [] _)).
  discriminate.
Defined.

(** * Properties of the settings *)

Lemma settings_lookup_assign_same k v d : Settings.lookup k (Settings.assign k v d) = Some v.
Proof.
  induction d as [|[k0 v0] d IH]; simpl.
  - rewrite String.eqb_refl. reflexivity.
  - destruct (k0 =? k) eqn:E; simpl; rewrite E; [reflexivity | exact IH].
Qed.

Lemma settings_lookup_assign_other k k' v d :
  k' <> k -> Settings.lookup k' (Settings.assign k v d) = Settings.lookup k' d.
Proof.
  intros Hn. induction d as [|[k0 v0] d IH]; simpl.
  - apply String.eqb_neq in Hn. rewrite String.eqb_sym. rewrite Hn. reflexivity.
  - destruct (k0 =? k) eqn:E; simpl.
    + apply String.eqb_eq in E. subst k0.
      assert ((k =? k') = false) as -> by (apply String.eqb_neq; congruence). reflexivity.
    + destruct (k0 =? k'); [reflexivity | exact IH].
Qed.

Lemma settings_lookup_In k v d : Settings.lookup k d = Some v -> In (k, v) d.
Proof.
  induction d as [|[k0 v0] d IH]; simpl; [discriminate|].
  destruct (k0 =? k) eqn:E.
  - apply String.eqb_eq in E. intros H. inversion H; subst. auto.
  - auto.
Qed.

Lemma settings_In_assign k v d kv :
  In kv (Settings.assign k v d) -> kv = (k, v) \/ In kv d.
Proof.
  induction d as [|[k0 v0] d IH]; simpl.
  - intros [<-|[]]. auto.
  - destruct (k0 =? k) eqn:E; simpl.
    + apply String.eqb_eq in E. subst k0. intros [<-|H]; auto.
    + intros [<-|H]; auto. destruct (IH H); auto.
Qed.

Lemma put_length l d h : length (Settings.put l d h) = length h.
Proof.
  revert l. induction h as [|d0 h IH]; intros [|l]; simpl; auto.
Qed.

Lemma dict_at_put_same l d h :
  l < length h -> Settings.dict_at (Settings.put l d h) l = d.
Proof.
  revert l. induction h as [|d0 h IH]; intros [|l]; simpl; intros H; try lia; [reflexivity|].
  apply IH. lia.
Qed.

Lemma dict_at_put_other l x d h :
  l <> x -> Settings.dict_at (Settings.put l d h) x = Settings.dict_at h x.
Proof.
  revert l x. induction h as [|d0 h IH]; intros [|l] [|x] H; simpl; try reflexivity.
  - congruence.
  - apply IH. congruence.
Qed.

Lemma dict_at_app_old h t x :
  x < length h -> Settings.dict_at (h ++ t) x = Settings.dict_at h x.
Proof. intros H. unfold Settings.dict_at. apply app_nth1. exact H. Qed.

Lemma dict_at_app_new h d : Settings.dict_at (h ++ [d]) (length h) = d.
Proof.
  unfold Settings.dict_at. rewrite app_nth2; [|lia]. rewrite Nat.sub_diag. reflexivity.
Qed.

Lemma dict_at_outside h x : length h <= x -> Settings.dict_at h x = [].
Proof. intros H. unfold Settings.dict_at. apply nth_overflow. exact H. Qed.

Lemma combine_seq_In (h : Settings.store) : forall a x,
  x < length h -> In (a + x, Settings.dict_at h x) (combine (seq a (length h)) h).
Proof.
  induction h as [|d h IH]; intros a x H; simpl in *; [lia|].
  destruct x as [|x].
  - left. rewrite Nat.add_0_r. reflexivity.
  - right. replace (a + S x) with (S a + x) by lia. apply IH. lia.
Qed.

Lemma in_order_ordered ranks h :
  Settings.in_order ranks h = true -> Settings.ordered (fun x => nth x ranks 0) h.
Proof.
  intros H x k l Hin. unfold Settings.in_order in H.
  destruct (Nat.lt_ge_cases x (length h)) as [Hx|Hx];
    [|rewrite (dict_at_outside h Hx) in Hin; destruct Hin].
  rewrite forallb_forall in H. specialize (H _ (combine_seq_In h 0 Hx)).
  simpl in H. rewrite forallb_forall in H. specialize (H _ Hin). simpl in H.
  apply andb_prop in H. destruct H as [H1 H2].
  apply Nat.ltb_lt in H1, H2. auto.
Qed.

Lemma grown_ordered rank h c k :
  Settings.ordered rank h -> c < length h ->
  Settings.ordered (Settings.grown_rank rank h) (Settings.grown h c k).
Proof.
  intros Ho Hc x k0 l Hin. unfold Settings.grown in *. unfold Settings.grown_rank.
  rewrite put_length, length_app. simpl length.
  assert (forall y, In (k0, Settings.VDict l) (Settings.dict_at h y) ->
                    y < length h ->
                    l < length h + 1 /\
                    (if (l =? length h)%nat then 0 else S (rank l))
                    < (if (y =? length h)%nat then 0 else S (rank y))) as Hold.
  { intros y Hy Hlt. destruct (Ho _ _ _ Hy) as [Hl Hr].
    destruct (Nat.eqb_spec l (length h)); [lia|].
    destruct (Nat.eqb_spec y (length h)); lia. }
  destruct (Nat.eq_dec c x) as [<-|Hne].
  - rewrite dict_at_put_same in Hin by (rewrite length_app; simpl; lia).
    apply settings_In_assign in Hin. destruct Hin as [Hin|Hin].
    + inversion Hin; subst. rewrite Nat.eqb_refl.
      destruct (Nat.eqb_spec c (length h)); lia.
    + apply Hold; assumption.
  - rewrite dict_at_put_other in Hin by exact Hne.
    destruct (Nat.lt_ge_cases x (length h)) as [Hx|Hx].
    + rewrite dict_at_app_old in Hin by exact Hx. apply Hold; assumption.
    + destruct (Nat.eq_dec x (length h)) as [->|Hx'].
      * rewrite dict_at_app_new in Hin. destruct Hin.
      * rewrite dict_at_outside in Hin by (rewrite length_app; simpl; lia). destruct Hin.
Qed.

Lemma navigate_cons k rest h c :
  Settings.navigate (k :: rest) h c
  = match Settings.lookup k (Settings.dict_at h c) with
    | Some (Settings.VDict address) => Settings.navigate rest h address
    | _ => Settings.navigate rest (Settings.grown h c k) (length h)
    end.
Proof. reflexivity. Qed.

(** The loop of [set]: it ends on a dict of the store, changes no dict of
    higher rank than the one it starts from, and the path it followed leads,
    in the store it leaves and whatever the dict it ends on becomes, from
    where it started to where it ended. *)
Lemma navigate_spec : forall keys h c rank h' c',
  Settings.ordered rank h -> c < length h ->
  Settings.navigate keys h c = (h', c') ->
  length h <= length h' /\ c' < length h' /\
  (c' < length h -> rank c' <= rank c) /\
  (forall x, x < length h -> rank c < rank x ->
             Settings.dict_at h' x = Settings.dict_at h x) /\
  (forall d', Settings.descend (Settings.put c' d' h') (Settings.VDict c) keys
              = Some (Settings.VDict c')).
Proof.
  induction keys as [|k rest IH]; intros h c rank h' c' Ho Hc H.
  - simpl in H. inversion H; subst. repeat split; auto.
  - rewrite navigate_cons in H.
    assert (forall h' c',
               Settings.navigate rest (Settings.grown h c k) (length h) = (h', c') ->
               length h <= length h' /\ c' < length h' /\
               (c' < length h -> rank c' <= rank c) /\
               (forall x, x < length h -> rank c < rank x ->
                          Settings.dict_at h' x = Settings.dict_at h x) /\
               (forall d', Settings.descend (Settings.put c' d' h') (Settings.VDict c)
                             (k :: rest)
                           = Some (Settings.VDict c'))) as Hgrow.
    { clear H h' c'. intros h' c' H.
      assert (length (Settings.grown h c k) = length h + 1) as Hlen
          by (unfold Settings.grown; rewrite put_length, length_app; reflexivity).
      apply (IH _ _ (Settings.grown_rank rank h)) in H;
        [|apply grown_ordered; assumption | lia].
      destruct H as (L & C & R & F & D). rewrite Hlen in *.
      assert (forall x, x < length h -> Settings.grown_rank rank h x = S (rank x)) as Hr.
      { intros x Hx. unfold Settings.grown_rank.
        destruct (Nat.eqb_spec x (length h)); [lia | reflexivity]. }
      assert (Settings.grown_rank rank h (length h) = 0) as Hr0
          by (unfold Settings.grown_rank; rewrite Nat.eqb_refl; reflexivity).
      rewrite Hr0 in *.
      assert (length h <= c') as Hnew.
      { destruct (Nat.lt_ge_cases c' (length h)) as [Hlt|]; [|assumption].
        assert (c' < length h + 1) as Hlt' by lia. specialize (R Hlt').
        rewrite (Hr _ Hlt) in R. lia. }
      assert (forall x, x < length h ->
                        Settings.dict_at h' x = Settings.dict_at (Settings.grown h c k) x)
        as F'.
      { intros x Hx. apply F; [lia|]. rewrite (Hr _ Hx). lia. }
      split; [lia|]. split; [exact C|]. split; [lia|]. split.
      - intros x Hx Hrank. rewrite (F' _ Hx). unfold Settings.grown.
        rewrite dict_at_put_other by (intros ->; lia).
        apply dict_at_app_old. exact Hx.
      - intros d'. simpl.
        rewrite dict_at_put_other by lia. rewrite (F' _ Hc). unfold Settings.grown at 1.
        rewrite dict_at_put_same by (rewrite length_app; simpl; lia).
        rewrite settings_lookup_assign_same. apply D. }
    destruct (Settings.lookup k (Settings.dict_at h c)) as [v|] eqn:E; [|apply Hgrow; exact H].
    destruct v as [| | | | | |l]; try (apply Hgrow; exact H).
    destruct (Ho _ _ _ (settings_lookup_In _ _ E)) as [Hl Hrank].
    apply (IH _ _ rank) in H; [|assumption|assumption].
    destruct H as (L & C & R & F & D).
    split; [exact L|]. split; [exact C|]. split; [intros Hlt; specialize (R Hlt); lia|].
    split.
    + intros x Hx Hr. apply F; [exact Hx | lia].
    + intros d'. simpl.
      assert (c' <> c) as Hne.
      { intros ->. specialize (R Hc). lia. }
      rewrite dict_at_put_other by exact Hne. rewrite (F _ Hc Hrank), E. apply D.
Qed.

Lemma split_char_nonempty c s : Py.split_char c s <> [].
Proof.
  destruct s as [|a r]; simpl; [discriminate|].
  destruct (Ascii.eqb a c); [discriminate|].
  destruct (Py.split_char c r); discriminate.
Qed.

Lemma descend_app h keys : forall v keys',
  Settings.descend h v (keys ++ keys')
  = match Settings.descend h v keys with
    | Some v' => Settings.descend h v' keys'
    | None => None
    end.
Proof.
  induction keys as [|k rest IH]; intros v keys'; simpl; [reflexivity|].
  destruct v; try reflexivity.
  destruct (Settings.lookup k (Settings.dict_at h address)); [apply IH | reflexivity].
Qed.

Lemma set_get_path pre k h c rank v h' c' :
  Settings.ordered rank h -> c < length h ->
  Settings.navigate pre h c = (h', c') ->
  Settings.descend
    (Settings.put c' (Settings.assign k v (Settings.dict_at h' c')) h')
    (Settings.VDict c) (pre ++ [k])
  = Some v.
Proof.
  intros Ho Hc H. destruct (navigate_spec _ Ho Hc H) as (_ & C & _ & _ & D).
  rewrite descend_app, D. simpl.
  rewrite dict_at_put_same by exact C. rewrite settings_lookup_assign_same. reflexivity.
Qed.

(** X24. In a store that is in order (no dict is reached from itself; the
    constructor's store is), [get] returns what [set] has just stored under
    the same key, for every key (dotted or not, with empty parts or not) and
    every value: the dicts that [set] creates or overwrites on the way are the
    ones [get] then follows. *)
Theorem set_then_get :
  forall (self : Settings.ConfigManager) (key : string) (value default : Settings.value)
         (ranks : list nat),
    Settings.in_order ranks (Settings.heap self) = true ->
    Settings.config self < length (Settings.heap self) ->
    Settings.get key default (Settings.set key value self) = value.
Proof.
  intros self key value default ranks Ho Hc. apply in_order_ordered in Ho.
  unfold Settings.get, Settings.set.
  destruct (Settings.navigate (removelast (Py.split_char "." key)) (Settings.heap self)
              (Settings.config self)) as [h' c'] eqn:E.
  simpl.
  pose proof (@set_get_path _ (last (Py.split_char "." key) "") _ _ _ value _ _ Ho Hc E)
    as Hp.
  rewrite <- (app_removelast_last "" (@split_char_nonempty "."%char key)) in Hp.
  rewrite Hp. reflexivity.
Qed.

Lemma split_plain s : Settings.plain s = true -> Py.split_char "." s = [s].
Proof.
  induction s as [|a r IH]; simpl; [reflexivity|].
  intros H. apply andb_prop in H. destruct H as [Ha Hr].
  apply negb_true_iff in Ha. rewrite Ha, (IH Hr). reflexivity.
Qed.

Lemma split_dotted s k :
  Settings.plain s = true ->
  Py.split_char "." (s ++ "." ++ k) = s :: Py.split_char "." k.
Proof.
  induction s as [|a r IH]; simpl; [reflexivity|].
  intros H. apply andb_prop in H. destruct H as [Ha Hr].
  apply negb_true_iff in Ha. rewrite Ha. simpl in IH. rewrite (IH Hr). reflexivity.
Qed.

(** [set] and [get] on a key without a dot. *)
Lemma set_plain k v self :
  Settings.plain k = true ->
  Settings.set k v self
  = {| Settings.heap :=
         Settings.put (Settings.config self)
           (Settings.assign k v (Settings.dict_at (Settings.heap self) (Settings.config self)))
           (Settings.heap self);
       Settings.default_config := Settings.default_config self;
       Settings.config := Settings.config self |}.
Proof.
  intros H. unfold Settings.set. rewrite (@split_plain k H). reflexivity.
Qed.

Lemma get_plain k d self :
  Settings.plain k = true ->
  Settings.get k d self
  = match Settings.lookup k (Settings.dict_at (Settings.heap self) (Settings.config self)) with
    | Some v => v
    | None => d
    end.
Proof.
  intros H. unfold Settings.get. rewrite (@split_plain k H). simpl.
  destruct (Settings.lookup k _); reflexivity.
Qed.

(** [set] and [get] on a key [section.k] whose section is a dict. *)
Lemma set_section section k v l self :
  Settings.plain section = true -> Settings.plain k = true ->
  Settings.lookup section (Settings.dict_at (Settings.heap self) (Settings.config self))
  = Some (Settings.VDict l) ->
  Settings.set (section ++ "." ++ k) v self
  = {| Settings.heap :=
         Settings.put l (Settings.assign k v (Settings.dict_at (Settings.heap self) l))
           (Settings.heap self);
       Settings.default_config := Settings.default_config self;
       Settings.config := Settings.config self |}.
Proof.
  intros Hs Hk Hl. unfold Settings.set.
  rewrite (@split_dotted section k Hs), (@split_plain k Hk). simpl. rewrite Hl. reflexivity.
Qed.

Lemma get_section section k d l self :
  Settings.plain section = true -> Settings.plain k = true ->
  Settings.lookup section (Settings.dict_at (Settings.heap self) (Settings.config self))
  = Some (Settings.VDict l) ->
  Settings.get (section ++ "." ++ k) d self
  = match Settings.lookup k (Settings.dict_at (Settings.heap self) l) with
    | Some v => v
    | None => d
    end.
Proof.
  intros Hs Hk Hl. unfold Settings.get.
  rewrite (@split_dotted section k Hs), (@split_plain k Hk). simpl. rewrite Hl.
  destruct (Settings.lookup k _); reflexivity.
Qed.

(** X25. [dict.copy] is shallow: when a section of the configuration is
    the very dict that the defaults hold under the same name (as after the
    constructor or [reset]), setting a key of the section changes the
    defaults too.  Neither [reset] nor [reset_key] then brings the former
    value back: [get] still returns the value that was set. *)
Theorem shared_section_survives_reset :
  forall (self : Settings.ConfigManager) (section k : string)
         (value default : Settings.value) (l : nat),
    Settings.plain section = true ->
    Settings.plain k = true ->
    Settings.lookup section (Settings.dict_at (Settings.heap self) (Settings.config self))
    = Some (Settings.VDict l) ->
    Settings.lookup section
      (Settings.dict_at (Settings.heap self) (Settings.default_config self))
    = Some (Settings.VDict l) ->
    l < length (Settings.heap self) ->
    l <> Settings.config self ->
    l <> Settings.default_config self ->
    Settings.get (section ++ "." ++ k) default
      (Settings.reset (Settings.set (section ++ "." ++ k) value self)) = value /\
    Settings.get (section ++ "." ++ k) default
      (Settings.reset_key (section ++ "." ++ k)
         (Settings.set (section ++ "." ++ k) value self)) = value.
Proof.
  intros self section k value default l Hs Hk Hc Hd Hl Hlc Hld.
  rewrite (@set_section section k value l self Hs Hk Hc).
  set (h2 := Settings.put l _ (Settings.heap self)).
  assert (Settings.dict_at h2 l
          = Settings.assign k value (Settings.dict_at (Settings.heap self) l)) as El
      by (apply dict_at_put_same; exact Hl).
  assert (forall x, l <> x -> Settings.dict_at h2 x = Settings.dict_at (Settings.heap self) x)
    as Eo by (intros x Hx; apply dict_at_put_other; exact Hx).
  assert (length h2 = length (Settings.heap self)) as Elen by apply put_length.
  split.
  - rewrite (@get_section section k default l); [|exact Hs|exact Hk|].
    + simpl. rewrite dict_at_app_old by lia.
      rewrite El, settings_lookup_assign_same. reflexivity.
    + simpl. rewrite dict_at_app_new, (Eo _ Hld). exact Hd.
  - unfold Settings.reset_key. rewrite (@split_dotted section k Hs), (@split_plain k Hk). simpl.
    rewrite (Eo _ Hld), Hd, El, settings_lookup_assign_same.
    rewrite (@set_section section k value l); [|exact Hs|exact Hk|].
    + rewrite (@get_section section k default l); [|exact Hs|exact Hk|].
      * simpl. rewrite dict_at_put_same by lia.
        rewrite settings_lookup_assign_same. reflexivity.
      * simpl. rewrite dict_at_put_other by exact Hlc. rewrite (Eo _ Hlc). exact Hc.
    + simpl. rewrite (Eo _ Hlc). exact Hc.
Qed.

(** X26. What [reset] does restore: after [set] on a key without a dot,
    [reset] gives the configuration the key's default again ([get] returns
    what it returns after a [reset] of the object as it was), the object's
    configuration and defaults being two dicts. *)
Theorem reset_restores_top_level :
  forall (self : Settings.ConfigManager) (k : string) (value default : Settings.value),
    Settings.plain k = true ->
    Settings.config self <> Settings.default_config self ->
    Settings.get k default (Settings.reset (Settings.set k value self))
    = Settings.get k default (Settings.reset self).
Proof.
  intros self k value default Hk Hne.
  rewrite (@set_plain k value self Hk), !(@get_plain k default _ Hk). simpl.
  rewrite !dict_at_app_new. rewrite dict_at_put_other by exact Hne. reflexivity.
Qed.

(** X27. [set_terminal_preference] accepts the seven listed terminals and
    nothing else: for any other text it raises [ValueError] naming the text
    (and stores nothing); for a listed one it stores the text, which
    [get_terminal_preference] then returns. *)
Theorem set_terminal_preference_cases :
  forall (self : Settings.ConfigManager) (terminal : string),
    Settings.config self < length (Settings.heap self) ->
    if existsb (String.eqb terminal) Settings.valid_terminals
    then exists self',
        Settings.set_terminal_preference terminal self = Ok self' /\
        Settings.get_terminal_preference self' = Settings.VStr terminal
    else Settings.set_terminal_preference terminal self
         = Raise (ValueError ("Invalid terminal: " ++ terminal)).
Proof.
  intros self terminal Hc. unfold Settings.set_terminal_preference.
  destruct (existsb (String.eqb terminal) Settings.valid_terminals); simpl; [|reflexivity].
  eexists. split; [reflexivity|].
  unfold Settings.get_terminal_preference.
  rewrite (@set_plain "terminal_emulator" _ self eq_refl).
  rewrite (@get_plain "terminal_emulator" _ _ eq_refl). simpl.
  rewrite dict_at_put_same by exact Hc. rewrite settings_lookup_assign_same. reflexivity.
Qed.

(** X28. Settings saved through the settings dialog pass validation for
    the three keys the dialog writes: with the spin boxes in their ranges
    (CPUs 1..16, memory 512..16384), [validate_config] reports no error for
    [default_backend], [default_cpus] and [default_memory], whatever the
    configuration held before; errors can only remain for the disk size and
    the log level. *)
Theorem saved_settings_validate :
  forall (dialog : Settings.SettingsDialog) (self : Settings.ConfigManager),
    Settings.config self < length (Settings.heap self) ->
    (1 <= Settings.default_cpu_spin dialog <= 16)%Z ->
    (512 <= Settings.default_memory_spin dialog <= 16384)%Z ->
    forall k, In k (map fst (Settings.validate_config (Settings.save_settings dialog self))) ->
              k = "default_disk" \/ k = "log_level".
Proof.
  intros dialog self Hc Hcpu Hmem k.
  unfold Settings.save_settings, Settings.update. simpl fold_left.
  rewrite !(fun v s => @set_plain "default_backend" v s eq_refl).
  rewrite !(fun v s => @set_plain "default_cpus" v s eq_refl).
  rewrite !(fun v s => @set_plain "default_memory" v s eq_refl).
  simpl Settings.heap. simpl Settings.config. simpl Settings.default_config.
  unfold Settings.validate_config.
  rewrite (fun d s => @get_plain "default_backend" d s eq_refl).
  rewrite (fun d s => @get_plain "default_cpus" d s eq_refl).
  rewrite (fun d s => @get_plain "default_memory" d s eq_refl).
  rewrite (fun d s => @get_plain "default_disk" d s eq_refl).
  rewrite (fun d s => @get_plain "log_level" d s eq_refl).
  simpl Settings.heap. simpl Settings.config.
  rewrite !dict_at_put_same by (rewrite ?put_length; exact Hc).
  rewrite (@settings_lookup_assign_other "default_memory" "default_backend") by discriminate.
  rewrite (@settings_lookup_assign_other "default_cpus" "default_backend") by discriminate.
  rewrite (@settings_lookup_assign_other "default_memory" "default_cpus") by discriminate.
  rewrite !settings_lookup_assign_same.
  assert (Settings.is_one_of
            (Settings.VStr (if Settings.multipass_radio dialog then "multipass" else "lxd"))
            ["multipass"; "lxd"] = true) as -> by (destruct (Settings.multipass_radio dialog); reflexivity).
  assert (Settings.not_within (Settings.VInt (Settings.default_cpu_spin dialog)) 1 32 = false)
    as -> by (unfold Settings.not_within; simpl; lia).
  assert (Settings.not_within (Settings.VInt (Settings.default_memory_spin dialog)) 512 32768
          = false) as -> by (unfold Settings.not_within; simpl; lia).
  simpl.
  destruct (Settings.not_within _ 5 1000); destruct (negb _); simpl;
    intuition (subst; auto).
Qed.

(** * The properties of the settings on the constructor's object *)

(** A key of three parts, the second of which held a text. *)
Lemma set_then_get_witness :
  Settings.get "multipass.driver.version" Settings.VNone
    (Settings.set "multipass.driver.version" (Settings.VInt 3) Settings.init)
  = Settings.VInt 3.
Proof.
  apply (@set_then_get Settings.init "multipass.driver.version" (Settings.VInt 3)
           Settings.VNone [1; 0; 0; 0; 0; 1]).
  - vm_compute. reflexivity.
  - vm_compute. lia.
Defined.

(** The multipass driver, set to another value, survives a reset. *)
Lemma shared_section_survives_reset_witness :
  Settings.get "multipass.driver" Settings.VNone
    (Settings.reset (Settings.set "multipass.driver" (Settings.VStr "libvirt") Settings.init))
  = Settings.VStr "libvirt".
Proof.
  refine (proj1 (@shared_section_survives_reset Settings.init "multipass" "driver"
                   (Settings.VStr "libvirt") Settings.VNone 2 _ _ _ _ _ _ _)).
  - reflexivity.
  - reflexivity.
  - reflexivity.
  - reflexivity.
  - vm_compute. lia.
  - discriminate.
  - discriminate.
Defined.

(** The theme, set to another value, is the default again after a reset. *)
Lemma reset_restores_top_level_witness :
  Settings.get "theme" Settings.VNone
    (Settings.reset (Settings.set "theme" (Settings.VStr "dark") Settings.init))
  = Settings.VStr "system".
Proof.
  rewrite (@reset_restores_top_level Settings.init "theme" (Settings.VStr "dark")
             Settings.VNone).
  - reflexivity.
  - reflexivity.
  - discriminate.
Defined.

Lemma set_terminal_preference_cases_witness :
  exists self',
    Settings.set_terminal_preference "xterm" Settings.init = Ok self' /\
    Settings.get_terminal_preference self' = Settings.VStr "xterm".
Proof.
  apply (@set_terminal_preference_cases Settings.init "xterm").
  vm_compute. lia.
Defined.

(** Saving the dialog on a configuration whose disk size is 2: no error
    for the CPU count. *)
Lemma saved_settings_validate_witness :
  ~ In "default_cpus"
      (map fst (Settings.validate_config
                  (Settings.save_settings
                     {| Settings.multipass_radio := false;
                        Settings.default_cpu_spin := 4;
                        Settings.default_memory_spin := 4096 |}
                     (Settings.set "default_disk" (Settings.VInt 2) Settings.init)))).
Proof.
  intros H.
  apply (@saved_settings_validate
           {| Settings.multipass_radio := false;
              Settings.default_cpu_spin := 4;
              Settings.default_memory_spin := 4096 |}
           (Settings.set "default_disk" (Settings.VInt 2) Settings.init)) in H.
  - destruct H; discriminate.
  - vm_compute. lia.
  - simpl. lia.
  - simpl. lia.
Defined.
